(** * z2pdf: room, exit-property and exit extraction from a story image

    A shallow embedding of [src/src/z2pdf/main.py] (classes [ZMapExtractor]
    and [StaticExitExtractor]) together with the properties stated about it.

    Conventions of the embedding.
    - Python [int] is [Z]; an element of a [bytes] object is a [byte], read
      as a [Z] in 0..255 by [byte_val].
    - A Python [dict] is an insertion-ordered association list with unique
      keys ([dict_get], [dict_set], [dict_contains]); a Python [set] is a
      [gset].  The order in which a [set] is iterated is not fixed by the
      language: it is the parameter [set_iter].
    - An exception is a value of [result]; [try ... except] is a [match].
    - The binary-access layer ([zparser.ZParser]) is not part of the
      program: its entry points are parameters of the development.  They
      answer as functions of their arguments, and the exceptions they
      raise are the two the extractor catches, [IndexError] and
      [struct.error].
    - Output on the console ([print]) is not modelled. *)

From Stdlib Require Import ZArith List String Ascii Lia Bool SpecFloat.
From Stdlib.Strings Require Import Byte.
From stdpp Require Import gmap strings list pretty.

Open Scope Z_scope.

#[local] Set Warnings "-clear-no-such-hyp".

(* ================================================================== *)
(** * Part I. Definitions *)
(* ================================================================== *)

(** ** Exceptions *)

(** The two exception classes the extractor catches by name. *)
Inductive exn := IndexError | StructError.

Inductive result (A : Type) :=
| Ok (a : A)
| Raise (e : exn).
Arguments Ok {A} a.
Arguments Raise {A} e.

Global Instance result_bind : MBind result := fun A B f m =>
  match m with
  | Ok a => f a
  | Raise e => Raise e
  end.

(** ** Python dictionaries *)

Section PyDict.
Context {K V : Type} `{EqDecision K}.

(** [d.get(k)] *)
Fixpoint dict_get (d : list (K * V)) (k : K) : option V :=
  match d with
  | [] => None
  | (k', v) :: d' => if decide (k = k') then Some v else dict_get d' k
  end.

(** [k in d] *)
Definition dict_contains (d : list (K * V)) (k : K) : bool :=
  match dict_get d k with Some _ => true | None => false end.

(** [d[k] = v]: an existing key keeps its position, a new key goes last. *)
Fixpoint dict_set (d : list (K * V)) (k : K) (v : V) : list (K * V) :=
  match d with
  | [] => [(k, v)]
  | (k', v') :: d' =>
      if decide (k = k') then (k, v) :: d' else (k', v') :: dict_set d' k v
  end.

(** [d.keys()] *)
Definition dict_keys (d : list (K * V)) : list K := d.*1.

(** Keys of a dictionary are pairwise distinct. *)
Definition dict_wf (d : list (K * V)) : Prop := NoDup (dict_keys d).
End PyDict.

(** ** The story image *)

Definition byte_val (b : byte) : Z := Z.of_N (Byte.to_N b).

(** [len(data)] *)
Definition len (data : list byte) : Z := Z.of_nat (length data).

(** [data[i]] on a [bytes] object: a negative index counts from the end,
    an index outside the object raises [IndexError]. *)
Definition py_index (data : list byte) (i : Z) : result Z :=
  let j := if i <? 0 then i + len data else i in
  if (0 <=? j) && (j <? len data) then
    match data !! Z.to_nat j with
    | Some b => Ok (byte_val b)
    | None => Raise IndexError
    end
  else Raise IndexError.

(** [list(data[a:b])]: slice bounds are clamped to the object, never raise. *)
Definition py_slice (data : list byte) (a b : Z) : list Z :=
  let clamp i := if i <? 0 then Z.max 0 (i + len data) else Z.min i (len data) in
  let lo := clamp a in
  let hi := clamp b in
  byte_val <$> take (Z.to_nat (hi - lo)) (drop (Z.to_nat lo) data).

(** Modelled from the spec: [ZParser.read_byte] is part of the binary-access
    layer (section 6: [readByte(address) -> byte], bounds-checked against
    the image length; out-of-range access is a catchable condition). *)
Definition read_byte (data : list byte) (addr : Z) : result Z :=
  if (0 <=? addr) && (addr <? len data) then
    match data !! Z.to_nat addr with
    | Some b => Ok (byte_val b)
    | None => Raise IndexError
    end
  else Raise IndexError.

(** A request made to the image: one indexed byte, or a slice [a:b]. *)
Inductive access :=
| Index (i : Z)
| Slice (a b : Z).

(** The addresses a request asks for. *)
Definition addresses (acc : access) : list Z :=
  match acc with
  | Index i => [i]
  | Slice a b => seqZ a (b - a)
  end.

(** Every requested address lies inside the image. *)
Definition in_image (data : list byte) (acc : access) : Prop :=
  Forall (fun a => 0 <= a < len data) (addresses acc).

(** ** Objects, rooms *)

(** [zparser.ZObject], restricted to the fields the extractor reads.  The
    property-table address is an unsigned 16-bit word of the object table. *)
Record ZObject := {
  parent : Z;
  properties : N
}.

(** [Room]: the layout coordinates [x], [y] are not part of the model. *)
Record Room := {
  obj_num : Z;
  name : string;
  exits : list (string * Z);
  objects : list string
}.

Record GameObject := {
  go_obj_num : Z;
  go_name : string;
  go_location : Z
}.

(** [Room(obj_num=obj_num, name=name, exits={})] *)
Definition new_room (o : Z) (nm : string) : Room :=
  {| obj_num := o; name := nm; exits := []; objects := [] |}.

(** ** Python built-ins used by the extractor *)

(** [range(a, b)] *)
Definition py_range (a b : Z) : list Z := seqZ a (b - a).

(** [min] of a non-empty sequence *)
Definition py_min (x : Z) (l : list Z) : Z := fold_left Z.min l x.

(** [collections.Counter]: [c[k] += 1] *)
Definition counter_incr (c : list (Z * Z)) (k : Z) : list (Z * Z) :=
  dict_set c k (default 0 (dict_get c k) + 1).

(** [max(items, key=count)]: the first item with the largest count. *)
Fixpoint max_by_count (best : Z * Z) (l : list (Z * Z)) : Z * Z :=
  match l with
  | [] => best
  | x :: l' => max_by_count (if best.2 <? x.2 then x else best) l'
  end.

(** [c.most_common(1)], as an option *)
Definition most_common_1 (c : list (Z * Z)) : option (Z * Z) :=
  match c with
  | [] => None
  | x :: l => Some (max_by_count x l)
  end.

(** Python [float] is IEEE 754 binary64. *)
Definition prec : Z := 53.
Definition emax : Z := 1024.

(** [float(n)] for an [int] *)
Definition float_of_int (n : Z) : spec_float := binary_normalize prec emax n 0 false.

(** [a / b] on two [int]s (for operands below 2^53, where the conversion
    is exact, this is the correctly rounded quotient Python computes) *)
Definition py_truediv (a b : Z) : spec_float :=
  SFdiv prec emax (float_of_int a) (float_of_int b).

(** The literal [0.7]: the binary64 number nearest to 7/10. *)
Definition float_0_7 : spec_float := S754_finite false 6305039478318694 (-53).

(** The distinct elements of a list, each at its first occurrence, in the
    order of the list: what a left-to-right scan that suppresses duplicates
    collects. *)
Fixpoint distinct_in_order (l : list Z) : list Z :=
  match l with
  | [] => []
  | x :: l' => x :: filter (fun y => y <> x) (distinct_in_order l')
  end.


(** ** Synthetic fixtures *)

(** Instances of the parameters on small hand-made images; the closed
    examples at the end of the development evaluate the model on them. *)
Module Fixture.

Definition bytes_of (l : list Z) : list byte :=
  (fun z => default x00 (Byte.of_N (Z.to_N z))) <$> l.

Definition code (c : ascii) : Z := Z.of_nat (nat_of_ascii c).

(** The built-ins on the ASCII range. *)
Definition isprintable (c : ascii) : bool :=
  (32 <=? code c) && (code c <=? 126).

Definition isalnum (c : ascii) : bool :=
  ((48 <=? code c) && (code c <=? 57))
  || ((65 <=? code c) && (code c <=? 90))
  || ((97 <=? code c) && (code c <=? 122)).

Definition isspace (c : ascii) : bool :=
  (code c =? 32) || ((9 <=? code c) && (code c <=? 13)).

Fixpoint lstrip (s : string) : string :=
  match s with
  | String c s' => if isspace c then lstrip s' else s
  | EmptyString => EmptyString
  end.

Fixpoint rstrip (s : string) : string :=
  match s with
  | String c s' =>
      match rstrip s' with
      | EmptyString => if isspace c then EmptyString else String c EmptyString
      | r => String c r
      end
  | EmptyString => EmptyString
  end.

Definition strip (s : string) : string := rstrip (lstrip s).

Definition lower_char (c : ascii) : ascii :=
  if (65 <=? code c) && (code c <=? 90)
  then ascii_of_nat (nat_of_ascii c + 32) else c.

Fixpoint lower (s : string) : string :=
  match s with
  | String c s' => String (lower_char c) (lower s')
  | EmptyString => EmptyString
  end.

(** The image of the two-room scenario: a dictionary at address 0 with
    one seven-byte entry whose first extra byte is 15; the property table
    of object 142 at address 16 (property 15, one byte, value 143); the
    property table of object 143 at address 20 (no property).  Object 7
    has a property-table address outside the image; object 9 has a garbled
    name, parent 27 and the property table of object 142. *)
Definition image : list byte :=
  bytes_of [0; 7; 0; 1;  0; 0; 0; 0; 15; 0; 0;  0; 0; 0; 0; 0;
            0; 15; 143; 0;  0; 0; 0; 0;
            0; 0; 0; 0; 0; 0; 0; 0; 0; 0; 0; 0; 0; 0; 0; 0].

Definition get_object (o : Z) : result (option ZObject) :=
  if o =? 142 then Ok (Some {| parent := 27; properties := 16 |})
  else if o =? 143 then Ok (Some {| parent := 27; properties := 20 |})
  else if o =? 7 then Ok (Some {| parent := 0; properties := 1000 |})
  else if o =? 9 then Ok (Some {| parent := 27; properties := 16 |})
  else Ok None.

(** A garbled name: two letters and three control characters. *)
Definition garbled : string :=
  String "a" (String "b" (String "001" (String "002" (String "003" EmptyString)))).

Definition get_object_name (o : Z) : result string :=
  if o =? 142 then Ok "Kitchen"%string
  else if o =? 143 then Ok "Cellar"%string
  else if o =? 9 then Ok garbled
  else Ok EmptyString.

Definition words : result (list string) := Ok ["Down"%string].

Definition rooms : list (Z * Room) :=
  [(142, {| obj_num := 142; name := "Kitchen"; exits := []; objects := [] |});
   (143, {| obj_num := 143; name := "Cellar"; exits := []; objects := [] |})].

(** The rooms after the extraction. *)
Definition rooms_after : list (Z * Room) :=
  [(142, {| obj_num := 142; name := "Kitchen"; exits := [("down"%string, 143)];
            objects := [] |});
   (143, {| obj_num := 143; name := "Cellar"; exits := []; objects := [] |})].

(** A version-5 object table with a single object, numbered 300, whose
    parent is object 27. *)
Definition get_object_far (o : Z) : result (option ZObject) :=
  if o =? 300 then Ok (Some {| parent := 27; properties := 16 |}) else Ok None.

Definition get_object_name_far (o : Z) : result string :=
  if o =? 300 then Ok "Attic"%string else Ok EmptyString.


(** The two-room image with a dictionary of four-byte entries: the same
    property tables, no hint byte. *)
Definition image_plain : list byte :=
  bytes_of [0; 4; 0; 1;  0; 0; 0; 0; 0; 0; 0;  0; 0; 0; 0; 0;
            0; 15; 143; 0;  0; 0; 0; 0;
            0; 0; 0; 0; 0; 0; 0; 0; 0; 0; 0; 0; 0; 0; 0; 0].

End Fixture.

(** ** Decoded instructions *)

(** An operand of a decoded instruction: an [int], or a value of another
    type. *)
Inductive operand :=
| OpInt (z : Z)
| OpOther.

(** ** A synthetic story *)

(** A 64-byte image with two rooms and one object.  A dictionary at
    address 0 with one seven-byte entry whose first extra byte is 15, and
    a dictionary header with four-byte entries at address 36.  The
    property table of object 142 at address 16: properties 20 and 15
    (one byte, value 143), 14 (two bytes, 142 and 143) and 1 (two bytes,
    the routine address 48).  The property table of object 143 at address
    28: property 15 (one byte, value 142).  The property table of object 1
    at address 32: property 5.  A routine without locals at address 48. *)
Module Story.

Definition head_bytes : list Z :=
  [0; 7; 0; 1;  0; 0; 0; 0; 15; 0; 0;  0; 0; 0; 0; 0].

Definition kitchen_props : list (Z * list Z) :=
  [(20, [143]); (15, [143]); (14, [142; 143]); (1, [0; 48])].

Definition kitchen_table : list Z :=
  [0;  20; 143;  15; 143;  46; 142; 143;  33; 0; 48;  0].

Definition tail_bytes : list Z :=
  [0; 15; 142; 0;   0; 5; 7; 0;   0; 4; 0; 1;
   0; 0; 0; 0; 0; 0; 0; 0;
   0; 0; 0; 0; 0; 0; 0; 0; 0; 0; 0; 0; 0; 0; 0; 0].

Definition image : list byte :=
  Fixture.bytes_of (head_bytes ++ kitchen_table ++ tail_bytes).

Definition kitchen : ZObject := {| parent := 27; properties := 16 |}.

Definition get_object (o : Z) : result (option ZObject) :=
  if o =? 1 then Ok (Some {| parent := 142; properties := 32 |})
  else if o =? 142 then Ok (Some kitchen)
  else if o =? 143 then Ok (Some {| parent := 27; properties := 28 |})
  else Ok None.

Definition get_object_name (o : Z) : result string :=
  if o =? 1 then Ok "lamp"%string
  else if o =? 142 then Ok "Kitchen"%string
  else if o =? 143 then Ok "Cellar"%string
  else Ok EmptyString.

(** The decoder: one instruction at address 49, three bytes long, whose
    operands name rooms 143 and 142; nothing decodable after it. *)
Definition decode (pc : Z) : result (list operand * Z) :=
  if pc =? 49 then Ok ([OpInt 143; OpInt 142; OpOther; OpInt 143], 3)
  else Raise IndexError.

(** The rooms as [_find_rooms] leaves them. *)
Definition rooms : list (Z * Room) :=
  [(142, {| obj_num := 142; name := "Kitchen"; exits := []; objects := [] |});
   (143, {| obj_num := 143; name := "Cellar"; exits := []; objects := [] |})].

Definition lamp : GameObject :=
  {| go_obj_num := 1; go_name := "lamp"; go_location := 142 |}.

(** The rooms after the static exit extraction alone, with the dictionary
    at address 0. *)
Definition rooms_static : list (Z * Room) :=
  [(142, {| obj_num := 142; name := "Kitchen";
            exits := [("down"%string, 143); ("p14"%string, 143);
                      ("p20"%string, 143)];
            objects := [] |});
   (143, {| obj_num := 143; name := "Cellar";
            exits := [("down"%string, 142)]; objects := [] |})].

(** The same with the dictionary at address 36, which gives no hint. *)
Definition rooms_plain : list (Z * Room) :=
  [(142, {| obj_num := 142; name := "Kitchen";
            exits := [("p15"%string, 143); ("p14"%string, 143);
                      ("p20"%string, 143)];
            objects := [] |});
   (143, {| obj_num := 143; name := "Cellar";
            exits := [("p15"%string, 142)]; objects := [] |})].

(** The rooms after [extract_all], and after the static extraction that
    follows it in [main]. *)
Definition rooms_all : list (Z * Room) :=
  [(142, {| obj_num := 142; name := "Kitchen";
            exits := [("to_143"%string, 143)]; objects := ["lamp"%string] |});
   (143, {| obj_num := 143; name := "Cellar"; exits := []; objects := [] |})].

Definition rooms_final : list (Z * Room) :=
  [(142, {| obj_num := 142; name := "Kitchen";
            exits := [("to_143"%string, 143); ("down"%string, 143);
                      ("p14"%string, 143); ("p20"%string, 143)];
            objects := ["lamp"%string] |});
   (143, {| obj_num := 143; name := "Cellar";
            exits := [("down"%string, 142)]; objects := [] |})].

End Story.

(** ** A two-entry dictionary *)

(** A dictionary at address 0 with one separator and two seven-byte
    entries, which start at address 5.  The extra bytes of entry 0 are
    15, 0, 0 and those of entry 1 are 15, 20, 0: property 15 occurs in
    both entries.  [image_cut] ends after the entry length of a dictionary
    without separators and with four-byte entries: the two bytes of the
    entry count are missing. *)
Module Lexicon.

Definition image : list byte :=
  Fixture.bytes_of [1; 44;  7; 0; 2;
                    0; 0; 0; 0; 15; 0; 0;
                    0; 0; 0; 0; 15; 20; 0].

Definition words : result (list string) :=
  Ok [" Down"%string; "Up"%string].


End Lexicon.

(** ** Object tables for the fallback scan *)

(** No object has parent 27 and every property table lies outside the
    image.  In the first table objects 142, 143, 144 and 146 exist, object
    145 does not, and objects 142, 144 and 146 have a name.  In the second
    table every object exists, and objects 299 and 300 have the name
    Room. *)
Module Scan.

Definition get_object (o : Z) : result (option ZObject) :=
  if (142 <=? o) && (o <=? 146) && negb (o =? 145)
  then Ok (Some {| parent := 0; properties := 1000 |})
  else Ok None.

Definition get_object_name (o : Z) : result string :=
  if o =? 142 then Ok "Hall"%string
  else if o =? 144 then Ok "Yard"%string
  else if o =? 146 then Ok "Barn"%string
  else Ok EmptyString.



End Scan.

Section Extractor.

Set Default Proof Using "Type".

(** Leaves in the context only what the goal mentions, so that proof
    search does not pick up a parameter of the development. *)
Ltac goal_vars_only := repeat match goal with x : _ |- _ => clear x end.

(** The image, [self.data] and [self.parser.data]. *)
Variable data : list byte.

(** [parser.header.version] and [parser.header.dictionary]. *)
Variable version : Z.
Variable dictionary : Z.

(** [parser.get_object(obj_num)]: an object, [None], or an exception. *)
Variable get_object : Z -> result (option ZObject).

(** ** [StaticExitExtractor._get_object_properties] *)

(** The [while] loop.  It returns the table built so far together with
    the requests made to the image; [fuel] bounds the iterations. *)
Fixpoint props_loop (fuel : nat) (prop_addr : Z) (props : list (Z * list Z))
  : list (Z * list Z) * list access :=
  match fuel with
  | O => (props, [])
  | S fuel' =>
      if prop_addr <? len data - 10 then
        match py_index data prop_addr with
        | Raise _ => (props, [Index prop_addr])
        | Ok size_byte =>
            if size_byte =? 0 then (props, [Index prop_addr])
            else
              let prop_num := Z.land size_byte 0x1F in
              let prop_size := Z.shiftr size_byte 5 + 1 in
              let prop_data :=
                py_slice data (prop_addr + 1) (prop_addr + 1 + prop_size) in
              let '(props', tr) :=
                props_loop fuel' (prop_addr + (1 + prop_size))
                  (dict_set props prop_num prop_data) in
              (props',
               Index prop_addr
                 :: Slice (prop_addr + 1) (prop_addr + 1 + prop_size) :: tr)
        end
      else (props, [])
  end.

(** The whole method, with its requests.  [except: pass] returns the
    table as it stands. *)
Definition _get_object_properties_traced (o : Z)
  : list (Z * list Z) * list access :=
  match get_object o with
  | Raise _ => ([], [])
  | Ok None => ([], [])
  | Ok (Some obj) =>
      let prop_addr := Z.of_N (properties obj) in
      if len data <=? prop_addr then ([], [])
      else
        match py_index data prop_addr with
        | Raise _ => ([], [Index prop_addr])
        | Ok text_length =>
            let '(props, tr) :=
              props_loop (length data) (prop_addr + (1 + text_length * 2)) [] in
            (props, Index prop_addr :: tr)
        end
  end.

Definition _get_object_properties (o : Z) : list (Z * list Z) :=
  (_get_object_properties_traced o).1.

(** ** [ZMapExtractor._has_property] *)

(** The [while] loop, with the requests made to the image.  A caught
    exception ends the method with [False]. *)
Fixpoint has_property_loop (fuel : nat) (prop_addr prop_num : Z)
  : bool * list access :=
  match fuel with
  | O => (false, [])
  | S fuel' =>
      if prop_addr <? len data then
        match read_byte data prop_addr with
        | Raise _ => (false, [Index prop_addr])
        | Ok size_byte =>
            if size_byte =? 0 then (false, [Index prop_addr])
            else if version <=? 3 then
              let p_num := Z.land size_byte 0x1F in
              let p_size := Z.shiftr size_byte 5 + 1 in
              if p_num =? prop_num then (true, [Index prop_addr])
              else
                let '(r, tr) :=
                  has_property_loop fuel' (prop_addr + (1 + p_size)) prop_num in
                (r, Index prop_addr :: tr)
            else
              let p_num := Z.land size_byte 0x3F in
              if negb (Z.land size_byte 0x80 =? 0) then
                let prop_addr1 := prop_addr + 1 in
                if len data <=? prop_addr1 then (false, [Index prop_addr])
                else
                  match read_byte data prop_addr1 with
                  | Raise _ => (false, [Index prop_addr; Index prop_addr1])
                  | Ok b =>
                      let p_size := Z.land b 0x3F in
                      let p_size := if p_size =? 0 then 64 else p_size in
                      if p_num =? prop_num
                      then (true, [Index prop_addr; Index prop_addr1])
                      else
                        let '(r, tr) :=
                          has_property_loop fuel' (prop_addr1 + (1 + p_size))
                            prop_num in
                        (r, Index prop_addr :: Index prop_addr1 :: tr)
                  end
              else
                let p_size := if Z.land size_byte 0x40 =? 0 then 1 else 2 in
                if p_num =? prop_num then (true, [Index prop_addr])
                else
                  let '(r, tr) :=
                    has_property_loop fuel' (prop_addr + (1 + p_size)) prop_num in
                  (r, Index prop_addr :: tr)
        end
      else (false, [])
  end.

Definition _has_property_traced (o prop_num : Z) : bool * list access :=
  match get_object o with
  | Raise _ => (false, [])
  | Ok None => (false, [])
  | Ok (Some obj) =>
      let prop_addr := Z.of_N (properties obj) in
      if len data <=? prop_addr then (false, [])
      else
        match read_byte data prop_addr with
        | Raise _ => (false, [Index prop_addr])
        | Ok text_length =>
            let '(r, tr) :=
              has_property_loop (length data)
                (prop_addr + (1 + text_length * 2)) prop_num in
            (r, Index prop_addr :: tr)
        end
  end.

Definition _has_property (o prop_num : Z) : bool :=
  (_has_property_traced o prop_num).1.

(** ** [ZMapExtractor._has_exit_properties] *)

Fixpoint exit_properties_loop (fuel : nat) (prop_addr prop_count : Z) : bool :=
  match fuel with
  | O => false
  | S fuel' =>
      if prop_addr <? len data then
        match read_byte data prop_addr with
        | Raise _ => false
        | Ok size_byte =>
            if size_byte =? 0 then false
            else
              let prop_count := prop_count + 1 in
              if version <=? 3 then
                let prop_size := Z.shiftr size_byte 5 + 1 in
                if 3 <? prop_count then true
                else exit_properties_loop fuel' (prop_addr + (1 + prop_size))
                       prop_count
              else if negb (Z.land size_byte 0x80 =? 0) then
                if len data <=? prop_addr + 1 then false
                else
                  match read_byte data (prop_addr + 1) with
                  | Raise _ => false
                  | Ok b =>
                      let prop_size := Z.land b 0x3F in
                      let prop_size := if prop_size =? 0 then 64 else prop_size in
                      if 3 <? prop_count then true
                      else exit_properties_loop fuel'
                             (prop_addr + 1 + (1 + prop_size)) prop_count
                  end
              else
                let prop_size := if Z.land size_byte 0x40 =? 0 then 1 else 2 in
                if 3 <? prop_count then true
                else exit_properties_loop fuel' (prop_addr + (1 + prop_size))
                       prop_count
        end
      else false
  end.

Definition _has_exit_properties (o : Z) : bool :=
  match get_object o with
  | Raise _ => false
  | Ok None => false
  | Ok (Some obj) =>
      let prop_addr := Z.of_N (properties obj) in
      if len data <=? prop_addr then false
      else
        match read_byte data prop_addr with
        | Raise _ => false
        | Ok text_length =>
            exit_properties_loop (length data)
              (prop_addr + (1 + text_length * 2)) 0
        end
  end.

(** ** [ZMapExtractor._is_valid_name] *)

(** [str.isprintable] and [str.isalnum] on one character, and
    [str.strip]: Python built-ins, parameters here.  A character of a
    name is an [ascii]. *)
Variable isprintable : ascii -> bool.
Variable isalnum : ascii -> bool.
Variable py_strip : string -> string.

(** The characters of the literal tested with [in]: space, hyphen, full
    stop, comma, exclamation mark, question mark, apostrophe and double
    quote (character 34). *)
Definition punctuation : list ascii :=
  [" "; "-"; "."; ","; "!"; "?"; "'"; "034"]%char.

Definition name_char_ok (c : ascii) : bool :=
  isprintable c && (isalnum c || bool_decide (c ∈ punctuation)).

Definition printable_count (nm : string) : Z :=
  Z.of_nat (length (filter (fun c => name_char_ok c = true)
                      (list_ascii_of_string nm))).

Definition total_count (nm : string) : Z := Z.of_nat (String.length nm).

(** [printable_count / total_count >= 0.7], in binary64 *)
Definition ratio_ok (p t : Z) : bool := SFleb float_0_7 (py_truediv p t).

(** The name length below which the binary64 test is shown to be the
    exact comparison with 7/10. *)
Definition name_bound : Z := 2 ^ 49.

(** [l] places the remainder [rho] of a division by [D] below, at or above
    the half of [D]. *)
Definition locates (l : location) (rho D : Z) : Prop :=
  match l with
  | loc_Exact => rho = 0
  | loc_Inexact Lt => 0 < rho /\ 2 * rho < D
  | loc_Inexact Eq => 2 * rho = D
  | loc_Inexact Gt => D < 2 * rho
  end.

Definition _is_valid_name (nm : string) : bool :=
  if bool_decide (nm = EmptyString) then false
  else (0 <? total_count nm)
       && ratio_ok (printable_count nm) (total_count nm).

(** ** [ZMapExtractor._find_rooms] *)

(** [parser.get_object_name(obj_num)] *)
Variable get_object_name : Z -> result string.

(** [not name or not name.strip()] *)
Definition blank (nm : string) : bool :=
  bool_decide (nm = EmptyString) || bool_decide (py_strip nm = EmptyString).

(** The object has a name that passes the three name tests of the scans. *)
Definition valid_named (o : Z) : Prop :=
  exists nm, get_object_name o = Ok nm
             /\ blank nm = false /\ _is_valid_name nm = true.

(** The room the scans build for an object from its name, if the name
    passes the tests. *)
Definition named_room (o : Z) : option Room :=
  match get_object_name o with
  | Raise _ => None
  | Ok nm =>
      if blank nm then None
      else if negb (_is_valid_name nm) then None
      else Some (new_room o nm)
  end.

Definition max_obj : Z := if version <=? 3 then 255 else 2000.

(** First pass, one iteration: tally the parent of a room candidate.
    The list [candidates] of the source is written and never read; it is
    not part of the model. *)
Definition pass1_step (parent_counts : list (Z * Z)) (o : Z) : list (Z * Z) :=
  match get_object o with
  | Raise _ => parent_counts
  | Ok None => parent_counts
  | Ok (Some obj) =>
      match get_object_name o with
      | Raise _ => parent_counts
      | Ok nm =>
          if blank nm then parent_counts
          else if negb (_is_valid_name nm) then parent_counts
          else if _has_exit_properties o
               then counter_incr parent_counts (parent obj)
               else parent_counts
      end
  end.

Definition parent_counts : list (Z * Z) :=
  fold_left pass1_step (py_range 1 (Z.min max_obj 256)) [].

Definition rooms_container : Z :=
  match most_common_1 parent_counts with
  | Some (p, _) => p
  | None => 27
  end.

(** A room candidate of the first pass: an object with a valid name and
    more than 3 properties. *)
Definition room_candidate (o : Z) : Prop :=
  (exists obj, get_object o = Ok (Some obj))
  /\ valid_named o /\ _has_exit_properties o = true.

(** The room the second pass writes for an object, if any. *)
Definition classified_as (o : Z) : option Room :=
  match get_object o with
  | Ok (Some obj) =>
      if parent obj =? rooms_container then named_room o else None
  | _ => None
  end.

(** Second pass, one iteration. *)
Definition pass2_step (rooms : list (Z * Room)) (o : Z) : list (Z * Room) :=
  match get_object o with
  | Raise _ => rooms
  | Ok None => rooms
  | Ok (Some obj) =>
      if negb (parent obj =? rooms_container) then rooms
      else
        match get_object_name o with
        | Raise _ => rooms
        | Ok nm =>
            if blank nm then rooms
            else if negb (_is_valid_name nm) then rooms
            else dict_set rooms o (new_room o nm)
        end
  end.

Definition pass2 (rooms : list (Z * Room)) : list (Z * Room) :=
  fold_left pass2_step (py_range 1 (Z.min max_obj 256)) rooms.

(** The fallback scan; [break] ends the recursion. *)
Fixpoint fallback_scan (l : list Z) (rooms : list (Z * Room))
  : list (Z * Room) :=
  match l with
  | [] => rooms
  | o :: l' =>
      if dict_contains rooms o then fallback_scan l' rooms
      else
        match get_object o with
        | Raise _ => fallback_scan l' rooms
        | Ok None => rooms
        | Ok (Some obj) =>
            match get_object_name o with
            | Raise _ => fallback_scan l' rooms
            | Ok nm =>
                if blank nm then fallback_scan l' rooms
                else if negb (_is_valid_name nm) then fallback_scan l' rooms
                else fallback_scan l' (dict_set rooms o (new_room o nm))
            end
        end
  end.

Definition room_start : Z := 142.

(** The method, from the value [self.rooms] has when it is called. *)
Definition _find_rooms (rooms0 : list (Z * Room)) : list (Z * Room) :=
  let rooms := pass2 rooms0 in
  if Z.of_nat (length rooms) <? 10
  then fallback_scan (py_range room_start (Z.min max_obj 300)) rooms
  else rooms.

(** ** [ZMapExtractor._find_objects] *)

Fixpoint objects_scan (l : list Z) (objs : list GameObject)
  : list GameObject :=
  match l with
  | [] => objs
  | o :: l' =>
      match get_object o with
      | Raise _ => objects_scan l' objs
      | Ok None => objs
      | Ok (Some obj) =>
          match get_object_name o with
          | Raise _ => objects_scan l' objs
          | Ok nm =>
              if blank nm then objects_scan l' objs
              else if negb (_is_valid_name nm) then objects_scan l' objs
              else
                let is_takable :=
                  _has_property o 5 || _has_property o 6 || _has_property o 9 in
                if is_takable
                then objects_scan l'
                       (objs ++ [{| go_obj_num := o; go_name := nm;
                                    go_location := parent obj |}])
                else objects_scan l' objs
          end
      end
  end.

(** The method, from the values of [self.rooms] and [self.objects]. *)
Definition _find_objects (rooms : list (Z * Room)) (objs : list GameObject)
  : list GameObject :=
  match dict_keys rooms with
  | [] => objs
  | k :: ks =>
      let min_room_num := py_min k ks in
      objects_scan (py_range 1 min_room_num) objs
  end.

(** ** [StaticExitExtractor._get_property_to_word_mapping] *)

(** [parser.get_dictionary_words()] and [str.lower] *)
Variable get_dictionary_words : result (list string).
Variable py_lower : string -> string.

(** The body of the inner [for]: one extra byte of one entry. *)
Definition note_prop (word : string) (prop_to_word : list (Z * string))
  (potential_prop : Z) : list (Z * string) :=
  if (1 <=? potential_prop) && (potential_prop <=? 31) then
    if dict_contains prop_to_word potential_prop then prop_to_word
    else dict_set prop_to_word potential_prop word
  else prop_to_word.

(** The bytes of entry [i] after its four text bytes. *)
Definition extra_bytes (dict_addr entry_length i : Z) : list Z :=
  let addr := dict_addr + i * entry_length in
  py_slice data (addr + 4) (addr + entry_length).

(** [for i, word in enumerate(words)], from index [i] on. *)
Fixpoint words_loop (dict_addr entry_length i : Z) (words : list string)
  (prop_to_word : list (Z * string)) : list (Z * string) :=
  match words with
  | [] => prop_to_word
  | word :: words' =>
      let word := py_lower (py_strip word) in
      let extra := extra_bytes dict_addr entry_length i in
      words_loop dict_addr entry_length (i + 1) words'
        (fold_left (note_prop word) extra prop_to_word)
  end.

(** The dictionary header: the address of the first entry and the entry
    length.  [num_entries] is read (two more bytes, which can raise) and
    not used. *)
Definition dictionary_header : result (Z * Z) :=
  num_seps ← py_index data dictionary;
  let dict_addr := dictionary + (1 + num_seps) in
  entry_length ← py_index data dict_addr;
  hi ← py_index data (dict_addr + 1);
  lo ← py_index data (dict_addr + 2);
  let num_entries := Z.lor (Z.shiftl hi 8) lo in
  Ok (dict_addr + 3, entry_length).

Definition _get_property_to_word_mapping : result (list (Z * string)) :=
  '(dict_addr, entry_length) ← dictionary_header;
  if entry_length <=? 4 then Ok []
  else
    words ← get_dictionary_words;
    Ok (words_loop dict_addr entry_length 0 words []).

(** ** [StaticExitExtractor._find_exit_properties] *)

(** [byte_val in self.room_objs and byte_val != room_num] *)
Definition other_room (room_objs : gset Z) (room_num b : Z) : bool :=
  bool_decide (b ∈ room_objs) && negb (b =? room_num).

(** The innermost [for], which stops at the first hit. *)
Fixpoint scan_bytes (room_objs : gset Z) (room_num prop_num : Z)
  (prop_data : list Z) (exit_props : gset Z) : gset Z :=
  match prop_data with
  | [] => exit_props
  | b :: rest =>
      if other_room room_objs room_num b then {[prop_num]} ∪ exit_props
      else scan_bytes room_objs room_num prop_num rest exit_props
  end.

(** One entry of [props.items()]. *)
Definition scan_prop (room_objs : gset Z) (room_num : Z) (exit_props : gset Z)
  (item : Z * list Z) : gset Z :=
  let '(prop_num, prop_data) := item in
  if prop_num <? 13 then exit_props
  else scan_bytes room_objs room_num prop_num prop_data exit_props.

(** What one entry of a property table contributes: its number, when
    that is at least 13 and a byte of its value is another room. *)
Definition exit_shaped (room_objs : gset Z) (room_num : Z)
  (item : Z * list Z) (p : Z) : Prop :=
  p = item.1 /\ 13 <= p
  /\ exists b, b ∈ item.2 /\ b ∈ room_objs /\ b <> room_num.

(** One room. *)
Definition scan_room (room_objs : gset Z) (exit_props : gset Z) (room_num : Z)
  : gset Z :=
  fold_left (scan_prop room_objs room_num) (_get_object_properties room_num)
    exit_props.

(** The method; [room_objs] is the value of [self.room_objs]. *)
Definition _find_exit_properties (room_objs : gset Z) (rooms : list (Z * Room))
  : gset Z :=
  fold_left (scan_room room_objs) (dict_keys rooms) ∅.

(** ** [StaticExitExtractor._extract_room_refs_from_property] *)

(** The [for] of the multi-byte branch. *)
Fixpoint refs_loop (room_objs : gset Z) (room_num : Z) (prop_data : list Z)
  (refs : list Z) (seen : gset Z) : list Z :=
  match prop_data with
  | [] => refs
  | b :: rest =>
      if other_room room_objs room_num b then
        if bool_decide (b ∈ seen)
        then refs_loop room_objs room_num rest refs seen
        else refs_loop room_objs room_num rest (refs ++ [b]) ({[b]} ∪ seen)
      else refs_loop room_objs room_num rest refs seen
  end.

Definition _extract_room_refs_from_property (room_objs : gset Z)
  (prop_data : list Z) (room_num : Z) : list Z :=
  match prop_data with
  | [b] => if other_room room_objs room_num b then [b] else []
  | _ => refs_loop room_objs room_num prop_data [] ∅
  end.

(** ** [StaticExitExtractor.extract_exits] *)

(** The order in which [for prop_num in exit_props] visits a [set]: each
    element once, in an order the language leaves open.  Nothing proved
    below depends on it: the statements hold for every [set_iter]. *)
Variable set_iter : gset Z -> list Z.

(** [prop_to_word.get(prop_num, f"p{prop_num}")] *)
Definition exit_label (prop_to_word : list (Z * string)) (prop_num : Z)
  : string :=
  default ("p" +:+ pretty prop_num) (dict_get prop_to_word prop_num).

(** [for dest in dest_rooms], on one room's [exits] and the running
    total; it stops at the first destination it records. *)
Fixpoint record_exit (prop_to_word : list (Z * string)) (prop_num : Z)
  (dest_rooms : list Z) (st : list (string * Z) * Z) : list (string * Z) * Z :=
  match dest_rooms with
  | [] => st
  | dest :: rest =>
      let word := exit_label prop_to_word prop_num in
      if dict_contains st.1 word
      then record_exit prop_to_word prop_num rest st
      else (dict_set st.1 word dest, st.2 + 1)
  end.

(** One exit property on one room. *)
Definition exit_step (room_objs : gset Z) (prop_to_word : list (Z * string))
  (room_num : Z) (props : list (Z * list Z)) (st : list (string * Z) * Z)
  (prop_num : Z) : list (string * Z) * Z :=
  match dict_get props prop_num with
  | None => st
  | Some prop_data =>
      let dest_rooms :=
        _extract_room_refs_from_property room_objs prop_data room_num in
      record_exit prop_to_word prop_num dest_rooms st
  end.

(** One room: its new [exits] and the new total. *)
Definition room_exits (room_objs exit_props : gset Z)
  (prop_to_word : list (Z * string)) (room_num : Z) (st : list (string * Z) * Z)
  : list (string * Z) * Z :=
  let props := _get_object_properties room_num in
  fold_left (exit_step room_objs prop_to_word room_num props)
    (set_iter exit_props) st.

Definition with_exits (room : Room) (e : list (string * Z)) : Room :=
  {| obj_num := obj_num room; name := name room; exits := e;
     objects := objects room |}.

(** [for room_num, room in rooms.items()] *)
Fixpoint rooms_loop (room_objs exit_props : gset Z)
  (prop_to_word : list (Z * string)) (rooms : list (Z * Room)) (total : Z)
  : list (Z * Room) * Z :=
  match rooms with
  | [] => ([], total)
  | (room_num, room) :: rest =>
      let '(e, total) :=
        room_exits room_objs exit_props prop_to_word room_num
          (exits room, total) in
      let '(rest', total) :=
        rooms_loop room_objs exit_props prop_to_word rest total in
      ((room_num, with_exits room e) :: rest', total)
  end.

(** What exit property [prop_num] offers to a room: its label and the
    first destination read from its value, when the room has the property
    and its value holds a destination. *)
Definition yielded (room_objs : gset Z) (prop_to_word : list (Z * string))
  (room_num prop_num : Z) : option (string * Z) :=
  match dict_get (_get_object_properties room_num) prop_num with
  | None => None
  | Some prop_data =>
      match _extract_room_refs_from_property room_objs prop_data room_num with
      | [] => None
      | dest :: _ => Some (exit_label prop_to_word prop_num, dest)
      end
  end.

(** The offers made to a room, in the order the exit properties are
    visited. *)
Definition candidates (room_objs exit_props : gset Z)
  (prop_to_word : list (Z * string)) (room_num : Z) : list (string * Z) :=
  omap (yielded room_objs prop_to_word room_num) (set_iter exit_props).

(** How a room [r] relates to the same room [r'] after the extraction:
    pairs were appended to its exits, with labels that are new and
    pairwise distinct, each pair being the first offer made under its
    label, at most one pair per exit property. *)
Definition exits_extended (room_objs exit_props : gset Z)
  (prop_to_word : list (Z * string)) (r r' : Z * Room) : Prop :=
  r'.1 = r.1
  /\ exists added : list (string * Z),
       r'.2 = with_exits r.2 (exits r.2 ++ added)
       /\ NoDup added.*1
       /\ (forall w d, (w, d) ∈ added ->
              (w ∉ dict_keys (exits r.2))
              /\ dict_get (candidates room_objs exit_props prop_to_word r.1) w
                 = Some d)
       /\ (length added <= length (set_iter exit_props))%nat.

(** The number of (label, destination) pairs held by the rooms. *)
Definition exit_count (rooms : list (Z * Room)) : Z :=
  foldr (fun r acc => Z.of_nat (length (exits r.2)) + acc) 0 rooms.

(** The method: the rooms as it leaves them, and the value returned. *)
Definition extract_exits (rooms : list (Z * Room))
  : result (list (Z * Room) * Z) :=
  let room_objs : gset Z := list_to_set (dict_keys rooms) in
  if bool_decide (room_objs = ∅) then Ok (rooms, 0)
  else
    let exit_props := _find_exit_properties room_objs rooms in
    if bool_decide (exit_props = ∅) then Ok (rooms, 0)
    else
      prop_to_word ← _get_property_to_word_mapping;
      let prop_to_word :=
        filter (fun pw => pw.1 ∈ exit_props) prop_to_word in
      Ok (rooms_loop room_objs exit_props prop_to_word rooms 0).

(** ** [ZMapExtractor._find_rooms]: the tally of the first pass *)

(** The parent the first pass tallies for an object, when it tallies
    one: the object exists, its name passes the name tests and it has
    more than 3 properties. *)
Definition tallied (o : Z) : option Z :=
  match get_object o with
  | Ok (Some obj) =>
      match get_object_name o with
      | Ok nm =>
          if blank nm then None
          else if negb (_is_valid_name nm) then None
          else if _has_exit_properties o then Some (parent obj) else None
      | Raise _ => None
      end
  | _ => None
  end.

(** The number of objects of the first pass tallied under parent [k]. *)
Definition tally (k : Z) : Z :=
  Z.of_nat (length (filter (fun o => tallied o = Some k)
                      (py_range 1 (Z.min max_obj 256)))).

(** ** [ZMapExtractor._find_objects]: the objects a scan appends *)

(** [g] is the record the scan started at object [a] appends for the
    object it numbers: the scan reaches that object (no object from [a]
    up to it is missing), the object exists, its name passes the name
    tests and it has property 5, 6 or 9. *)
Definition scanned_object (a : Z) (g : GameObject) : Prop :=
  a <= go_obj_num g
  /\ (forall k, a <= k <= go_obj_num g -> get_object k <> Ok None)
  /\ (exists obj, get_object (go_obj_num g) = Ok (Some obj)
                  /\ go_location g = parent obj)
  /\ get_object_name (go_obj_num g) = Ok (go_name g)
  /\ blank (go_name g) = false
  /\ _is_valid_name (go_name g) = true
  /\ _has_property (go_obj_num g) 5 || _has_property (go_obj_num g) 6
     || _has_property (go_obj_num g) 9 = true.

(** ** [ZMapExtractor._associate_objects_with_rooms] *)

Definition with_objects (room : Room) (l : list string) : Room :=
  {| obj_num := obj_num room; name := name room; exits := exits room;
     objects := l |}.

(** [self.rooms[obj.location].objects.append(obj.name)], guarded by
    [obj.location in self.rooms] *)
Definition associate_step (rooms : list (Z * Room)) (g : GameObject)
  : list (Z * Room) :=
  match dict_get rooms (go_location g) with
  | Some room =>
      dict_set rooms (go_location g)
        (with_objects room (objects room ++ [go_name g]))
  | None => rooms
  end.

(** The method, from the values of [self.rooms] and [self.objects]. *)
Definition _associate_objects_with_rooms (rooms : list (Z * Room))
  (objs : list GameObject) : list (Z * Room) :=
  fold_left associate_step objs rooms.

(** ** [ZMapExtractor._find_room_references_in_routine] *)

(** Modelled from the spec: [ZParser.read_word] is part of the
    binary-access layer (section 6: [readWord(address) -> 16-bit unsigned],
    bounds-checked against the image length); the high byte comes first,
    as everywhere in a story file. *)
Definition read_word (addr : Z) : result Z :=
  hi ← read_byte data addr;
  lo ← read_byte data (addr + 1);
  Ok (Z.lor (Z.shiftl hi 8) lo).

(** [OpcodeDecoder(self.parser.data, version)], when the module can be
    imported and the constructor returns: the function [decode], which
    gives the operands and the size of the instruction at an address, or
    raises.  The decoder is not part of the program. *)
Variable decoder : option (Z -> result (list operand * Z)).

(** The search for property 1 with a value of two bytes or more: the
    word at the start of its value, [None] when the table ends first. *)
Fixpoint routine_loop (fuel : nat) (prop_addr : Z) : result (option Z) :=
  match fuel with
  | O => Ok None
  | S fuel' =>
      if prop_addr <? len data - 2 then
        size_byte ← read_byte data prop_addr;
        if size_byte =? 0 then Ok None
        else
          let prop_num := Z.land size_byte 0x1F in
          let prop_size := Z.shiftr size_byte 5 + 1 in
          if (prop_num =? 1) && (2 <=? prop_size) then
            routine_addr ← read_word (prop_addr + 1);
            Ok (Some routine_addr)
          else routine_loop fuel' (prop_addr + (1 + prop_size))
      else Ok None
  end.

(** The body of [for op in instr.operands]. *)
Definition note_operand (rooms : list (Z * Room)) (room_num : Z)
  (room_refs : list Z) (op : operand) : list Z :=
  match op with
  | OpInt z =>
      if dict_contains rooms z && negb (z =? room_num) then
        if bool_decide (z ∈ room_refs) then room_refs else room_refs ++ [z]
      else room_refs
  | OpOther => room_refs
  end.

(** [for _ in range(n)]: the instructions decoded from [pc] on; the loop
    ends at the end of the image and when the decoder raises. *)
Fixpoint decode_loop (decode : Z -> result (list operand * Z))
  (rooms : list (Z * Room)) (room_num : Z) (n : nat) (pc : Z)
  (room_refs : list Z) : list Z :=
  match n with
  | O => room_refs
  | S n' =>
      if len data <=? pc then room_refs
      else
        match decode pc with
        | Raise _ => room_refs
        | Ok (operands, size) =>
            decode_loop decode rooms room_num n' (pc + size)
              (fold_left (note_operand rooms room_num) operands room_refs)
        end
  end.

(** The method; [rooms] is the value of [self.rooms].  Every exception
    ends it with the references collected so far. *)
Definition _find_room_references_in_routine
  (decode : Z -> result (list operand * Z)) (rooms : list (Z * Room))
  (room_num : Z) : list Z :=
  match get_object room_num with
  | Raise _ => []
  | Ok None => []
  | Ok (Some obj) =>
      let prop_addr := Z.of_N (properties obj) in
      if len data <=? prop_addr then []
      else
        match (text_length ← read_byte data prop_addr;
               routine_loop (length data)
                 (prop_addr + (1 + text_length * 2))) with
        | Raise _ => []
        | Ok None => []
        | Ok (Some routine_addr) =>
            if routine_addr =? 0 then []
            else
              match py_index data routine_addr with
              | Raise _ => []
              | Ok num_locals =>
                  decode_loop decode rooms room_num 100
                    (routine_addr + 1 + num_locals * 2) []
              end
        end
  end.

(** ** [ZMapExtractor._get_directional_properties] *)

(** The [while] loop on the dictionary [exits]; a caught exception ends
    the method with the entries written so far. *)
Fixpoint directional_loop (fuel : nat) (prop_addr : Z) (exits : list (Z * Z))
  : list (Z * Z) :=
  match fuel with
  | O => exits
  | S fuel' =>
      if prop_addr <? len data - 2 then
        match read_byte data prop_addr with
        | Raise _ => exits
        | Ok size_byte =>
            if size_byte =? 0 then exits
            else
              let prop_num := Z.land size_byte 0x1F in
              let prop_size := Z.shiftr size_byte 5 + 1 in
              if (1 <=? prop_num) && (prop_num <=? 12) && (prop_size =? 2)
              then
                match read_word (prop_addr + 1) with
                | Raise _ => exits
                | Ok target =>
                    directional_loop fuel' (prop_addr + (1 + prop_size))
                      (if (0 <? target) && (target <? 300)
                       then dict_set exits prop_num target
                       else exits)
                end
              else directional_loop fuel' (prop_addr + (1 + prop_size)) exits
        end
      else exits
  end.

Definition _get_directional_properties (o : Z) : list (Z * Z) :=
  match get_object o with
  | Raise _ => []
  | Ok None => []
  | Ok (Some obj) =>
      let prop_addr := Z.of_N (properties obj) in
      if len data <=? prop_addr then []
      else
        match read_byte data prop_addr with
        | Raise _ => []
        | Ok text_length =>
            directional_loop (length data)
              (prop_addr + (1 + text_length * 2)) []
        end
  end.

(** ** [ZMapExtractor._infer_direction], [ZMapExtractor._extract_exits] *)

(** [f"to_{to_room}"] *)
Definition _infer_direction (from_room to_room : Z) : string :=
  "to_" +:+ pretty to_room.

(** The body of [for ref_room in room_refs[:8]], on one room's [exits]. *)
Definition routine_exit (rooms : list (Z * Room)) (room_num : Z)
  (e : list (string * Z)) (ref_room : Z) : list (string * Z) :=
  if dict_contains rooms ref_room
  then dict_set e (_infer_direction room_num ref_room) ref_room
  else e.

(** The method, from the value of [self.rooms]; without a decoder it
    returns at once. *)
Definition _extract_exits (rooms : list (Z * Room)) : list (Z * Room) :=
  match decoder with
  | None => rooms
  | Some decode =>
      (fun r : Z * Room =>
         (r.1,
          with_exits r.2
            (fold_left (routine_exit rooms r.1)
               (take 8 (_find_room_references_in_routine decode rooms r.1))
               (exits r.2)))) <$> rooms
  end.

(** ** [ZMapExtractor.extract_all] and the extraction steps of [main] *)

(** [extract_all], from the values of [self.rooms] and [self.objects]:
    the rooms and the objects it leaves. *)
Definition extract_all (rooms0 : list (Z * Room)) (objs0 : list GameObject)
  : list (Z * Room) * list GameObject :=
  let rooms := _find_rooms rooms0 in
  let objs := _find_objects rooms objs0 in
  let rooms := _extract_exits rooms in
  let rooms := _associate_objects_with_rooms rooms objs in
  (rooms, objs).

(** [main], from the parsed image to the layout: [extract_all] on a new
    extractor, then [StaticExitExtractor.extract_exits] on its rooms.  The
    result is the rooms, the objects and [total_exits]. *)
Definition main_extraction
  : result (list (Z * Room) * list GameObject * Z) :=
  let '(rooms, objs) := extract_all [] [] in
  '(rooms, total_exits) ← extract_exits rooms;
  Ok (rooms, objs, total_exits).

(** ** The property-table layout of versions 1-3 *)

(** The layout [_get_object_properties] decodes, written as an encoder.
    The size byte of a property holds its number in the low five bits and
    its size less one in the three bits above. *)
Definition size_byte_of (num : Z) (size : nat) : Z :=
  32 * (Z.of_nat size - 1) + num.

(** One property: its size byte, then its value. *)
Definition property_bytes (rec : Z * list Z) : list Z :=
  size_byte_of rec.1 (length rec.2) :: rec.2.

(** A property table: the number of two-byte words of the name, the
    name, the properties, the terminator. *)
Definition table_bytes (nm : list Z) (recs : list (Z * list Z)) : list Z :=
  Z.of_nat (length nm `div` 2) :: nm
    ++ concat (property_bytes <$> recs) ++ [0].

(** The entry of [_get_directional_properties] a property of the table
    stands for: a property numbered 1 to 12 whose value is one word
    between 1 and 299. *)
Definition direction_entry (rec : Z * list Z) : option (Z * Z) :=
  match rec.2 with
  | [hi; lo] =>
      let target := Z.lor (Z.shiftl hi 8) lo in
      if (1 <=? rec.1) && (rec.1 <=? 12) && (0 <? target) && (target <? 300)
      then Some (rec.1, target)
      else None
  | _ => None
  end.

(* ================================================================ *)
(** * Part II. Properties *)
(* ================================================================ *)

(** ** Dictionaries *)

Section PyDictFacts.
Context {K V : Type} `{EqDecision K}.
Implicit Types (d : list (K * V)) (k : K) (v : V).

Lemma dict_contains_true d k : dict_contains d k = true <-> k ∈ dict_keys d.
Proof.
  goal_vars_only.
  unfold dict_contains, dict_keys.
  induction d as [|[k' v'] d IH]; simpl.
  - split; [done|]. intros H. by apply elem_of_nil in H.
  - rewrite elem_of_cons. destruct (decide (k = k')) as [->|Hne].
    + split; [by left|done].
    + rewrite IH. naive_solver.
Qed.

Lemma dict_contains_false d k : dict_contains d k = false <-> k ∉ dict_keys d.
Proof.
  rewrite <- dict_contains_true. by destruct (dict_contains d k).
Qed.

Lemma dict_get_None d k : dict_get d k = None <-> k ∉ dict_keys d.
Proof.
  rewrite <- dict_contains_false. unfold dict_contains.
  by destruct (dict_get d k).
Qed.

Lemma dict_get_elem_of d k v : dict_get d k = Some v -> (k, v) ∈ d.
Proof.
  induction d as [|[k' v'] d IH]; simpl; [done|].
  destruct (decide (k = k')) as [->|Hne].
  - intros [= ->]. by left.
  - intros H. right. by apply IH.
Qed.

Lemma dict_elem_of_get d k v : dict_wf d -> (k, v) ∈ d -> dict_get d k = Some v.
Proof.
  unfold dict_wf, dict_keys.
  induction d as [|[k' v'] d IH]; simpl; intros Hwf Hin.
  - by apply elem_of_nil in Hin.
  - apply NoDup_cons in Hwf as [Hk' Hwf].
    apply elem_of_cons in Hin as [[= -> ->]|Hin].
    + by rewrite decide_True.
    + rewrite decide_False; [by apply IH|].
      intros ->. apply Hk'. by apply (list_elem_of_fmap_2 fst) in Hin.
Qed.

(** Writing a new key appends it. *)
Lemma dict_set_new d k v : k ∉ dict_keys d -> dict_set d k v = d ++ [(k, v)].
Proof.
  unfold dict_keys.
  induction d as [|[k' v'] d IH]; simpl; intros Hk; [done|].
  apply not_elem_of_cons in Hk as [Hne Hk].
  rewrite decide_False by done. by rewrite IH.
Qed.

(** Writing a key leaves the keys as they are, or adds the key last. *)
Lemma dict_keys_set d k v :
  dict_keys (dict_set d k v)
  = if dict_contains d k then dict_keys d else dict_keys d ++ [k].
Proof.
  unfold dict_contains, dict_keys.
  induction d as [|[k' v'] d IH]; simpl; [done|].
  destruct (decide (k = k')) as [->|Hne]; [done|].
  rewrite fmap_cons, IH. by destruct (dict_get d k).
Qed.

Lemma dict_keys_set_elem d k v k' :
  k' ∈ dict_keys (dict_set d k v) <-> k' = k \/ k' ∈ dict_keys d.
Proof.
  goal_vars_only.
  rewrite dict_keys_set. destruct (dict_contains d k) eqn:E.
  - apply dict_contains_true in E. naive_solver.
  - rewrite elem_of_app, list_elem_of_singleton. naive_solver.
Qed.

Lemma dict_wf_set d k v : dict_wf d -> dict_wf (dict_set d k v).
Proof.
  unfold dict_wf. rewrite dict_keys_set. intros Hwf.
  destruct (dict_contains d k) eqn:E; [done|].
  apply dict_contains_false in E. apply NoDup_app. split; [done|].
  split; [|apply NoDup_singleton].
  intros x Hx Hx'. apply list_elem_of_singleton in Hx'. by subst.
Qed.

Lemma dict_get_set d k v k' :
  dict_get (dict_set d k v) k'
  = if decide (k' = k) then Some v else dict_get d k'.
Proof.
  induction d as [|[k0 v0] d IH]; simpl.
  - by destruct (decide (k' = k)).
  - destruct (decide (k = k0)) as [->|Hne]; simpl.
    + by destruct (decide (k' = k0)).
    + destruct (decide (k' = k0)) as [->|Hne'].
      * by rewrite decide_False.
      * apply IH.
Qed.

(** Writing the value a key already has changes nothing. *)
Lemma dict_set_same d k v : dict_get d k = Some v -> dict_set d k v = d.
Proof.
  induction d as [|[k0 v0] d IH]; simpl; [done|].
  destruct (decide (k = k0)) as [->|Hne].
  - by intros [= ->].
  - intros H. by rewrite IH.
Qed.
End PyDictFacts.

(** ** Bytes and image requests *)

Lemma byte_val_range (b : byte) : 0 <= byte_val b < 256.
Proof.
  unfold byte_val. pose proof (Byte.to_N_bounded b) as Hb.
  lia.
Qed.

Lemma py_index_range (i v : Z) : py_index data i = Ok v -> 0 <= v < 256.
Proof.
  unfold py_index. intros H.
  destruct (_ && _); [|discriminate].
  destruct (data !! _); [|discriminate].
  injection H as <-. apply byte_val_range.
Qed.

Lemma read_byte_range (i v : Z) : read_byte data i = Ok v -> 0 <= v < 256.
Proof.
  unfold read_byte. intros H.
  destruct (_ && _); [|discriminate].
  destruct (data !! _); [|discriminate].
  injection H as <-. apply byte_val_range.
Qed.

(** The size decoded from a legacy header byte is between 1 and 8. *)
Lemma legacy_size_range (v : Z) :
  0 <= v < 256 -> 1 <= Z.shiftr v 5 + 1 <= 8.
Proof.
  intros Hv. rewrite Z.shiftr_div_pow2 by lia.
  change (2 ^ 5) with 32.
  assert (0 <= v / 32) by (apply Z.div_pos; lia).
  assert (v / 32 < 8) by (apply Z.div_lt_upper_bound; lia).
  lia.
Qed.

(** ** Property-table decoding stays inside the image *)

Lemma in_image_index (i : Z) : 0 <= i < len data -> in_image data (Index i).
Proof. intros H. unfold in_image. simpl. by constructor. Qed.

Lemma in_image_slice (a b : Z) :
  0 <= a -> b <= len data -> in_image data (Slice a b).
Proof.
  intros Ha Hb. unfold in_image. simpl. apply Forall_forall.
  intros x Hx. apply elem_of_seqZ in Hx. lia.
Qed.

(** Closes a goal about a trace whose requests are all hypotheses. *)
Ltac trace_ok :=
  repeat first [ apply Forall_nil_2 | apply Forall_cons_2; [assumption|] ].

Lemma props_loop_in_image (fuel : nat) :
  forall prop_addr props,
    0 <= prop_addr ->
    Forall (in_image data) (props_loop fuel prop_addr props).2.
Proof.
  induction fuel as [|fuel IH]; intros prop_addr props Hpos; simpl.
  - constructor.
  - destruct (Z.ltb_spec prop_addr (len data - 10)) as [Hlt|Hge]; simpl;
      [|constructor].
    assert (in_image data (Index prop_addr)) as Hidx
      by (apply in_image_index; lia).
    destruct (py_index data prop_addr) as [size_byte|e] eqn:Hrd; simpl;
      [|trace_ok].
    destruct (size_byte =? 0); simpl; [trace_ok|].
    pose proof (legacy_size_range _ (py_index_range _ _ Hrd)) as Hsz.
    specialize (IH (prop_addr + (1 + (Z.shiftr size_byte 5 + 1)))
                  (dict_set props (Z.land size_byte 31)
                     (py_slice data (prop_addr + 1)
                        (prop_addr + 1 + (Z.shiftr size_byte 5 + 1))))).
    destruct (props_loop fuel _ _) as [props' tr]. simpl in *.
    constructor; [done|]. constructor; [apply in_image_slice; lia|].
    apply IH. lia.
Qed.

Lemma get_object_properties_in_image (o : Z) :
  Forall (in_image data) (_get_object_properties_traced o).2.
Proof.
  unfold _get_object_properties_traced.
  destruct (get_object o) as [[obj|]|e]; simpl; try constructor.
  destruct (Z.leb_spec (len data) (Z.of_N (properties obj))) as [Hge|Hlt];
    simpl; [constructor|].
  assert (in_image data (Index (Z.of_N (properties obj)))) as Hidx
    by (apply in_image_index; lia).
  destruct (py_index data _) as [text_length|e] eqn:Hrd; simpl;
    [|trace_ok].
  pose proof (py_index_range _ _ Hrd) as Htl.
  pose proof (props_loop_in_image (length data)
                (Z.of_N (properties obj) + (1 + text_length * 2)) []) as H.
  destruct (props_loop _ _ _) as [props tr]. simpl in *.
  constructor; [done|]. apply H. lia.
Qed.

Lemma has_property_loop_in_image (fuel : nat) :
  forall prop_addr prop_num,
    0 <= prop_addr ->
    Forall (in_image data) (has_property_loop fuel prop_addr prop_num).2.
Proof.
  induction fuel as [|fuel IH]; intros prop_addr prop_num Hpos; simpl.
  - constructor.
  - destruct (Z.ltb_spec prop_addr (len data)) as [Hlt|Hge]; simpl;
      [|constructor].
    assert (in_image data (Index prop_addr)) as Hidx
      by (apply in_image_index; lia).
    destruct (read_byte data prop_addr) as [size_byte|e] eqn:Hrd; simpl;
      [|trace_ok].
    pose proof (read_byte_range _ _ Hrd) as Hsb.
    destruct (size_byte =? 0); simpl; [trace_ok|].
    destruct (version <=? 3); simpl.
    { destruct (_ =? prop_num); simpl; [trace_ok|].
      pose proof (legacy_size_range _ Hsb) as Hsz.
      specialize (IH (prop_addr + (1 + (Z.shiftr size_byte 5 + 1))) prop_num).
      destruct (has_property_loop fuel _ _) as [r tr]. simpl in *.
      constructor; [done|]. apply IH. lia. }
    destruct (Z.land size_byte 128 =? 0); simpl.
    { destruct (_ =? prop_num); simpl; [trace_ok|].
      set (p_size := if Z.land size_byte 64 =? 0 then 1 else 2).
      assert (1 <= p_size) by (unfold p_size; destruct (_ =? 0); lia).
      specialize (IH (prop_addr + (1 + p_size)) prop_num).
      destruct (has_property_loop fuel _ _) as [r tr]. simpl in *.
      constructor; [done|]. apply IH. lia. }
    destruct (Z.leb_spec (len data) (prop_addr + 1)) as [Hge1|Hlt1]; simpl;
      [trace_ok|].
    assert (in_image data (Index (prop_addr + 1))) as Hidx1
      by (apply in_image_index; lia).
    destruct (read_byte data (prop_addr + 1)) as [b|e] eqn:Hrd1; simpl;
      [|trace_ok].
    destruct (_ =? prop_num); simpl; [trace_ok|].
    set (p_size := if Z.land b 63 =? 0 then 64 else Z.land b 63).
    assert (0 <= p_size).
    { unfold p_size. destruct (_ =? 0); [lia|].
      apply Z.land_nonneg. right. lia. }
    specialize (IH (prop_addr + 1 + (1 + p_size)) prop_num).
    destruct (has_property_loop fuel _ _) as [r tr]. simpl in *.
    constructor; [done|]. constructor; [done|]. apply IH. lia.
Qed.

Lemma has_property_in_image (o prop_num : Z) :
  Forall (in_image data) (_has_property_traced o prop_num).2.
Proof.
  unfold _has_property_traced.
  destruct (get_object o) as [[obj|]|e]; simpl; try constructor.
  destruct (Z.leb_spec (len data) (Z.of_N (properties obj))) as [Hge|Hlt];
    simpl; [constructor|].
  assert (in_image data (Index (Z.of_N (properties obj)))) as Hidx
    by (apply in_image_index; lia).
  destruct (read_byte data _) as [text_length|e] eqn:Hrd; simpl;
    [|trace_ok].
  pose proof (read_byte_range _ _ Hrd) as Htl.
  pose proof (has_property_loop_in_image (length data)
                (Z.of_N (properties obj) + (1 + text_length * 2)) prop_num) as H.
  destruct (has_property_loop _ _ _) as [r tr]. simpl in *.
  constructor; [done|]. apply H. lia.
Qed.


(** ** The loops are not cut short by their fuel

    Each iteration moves [prop_addr] forward, and a loop runs only while
    [prop_addr] is below the image length: any fuel that covers the
    distance to the end of the image gives the same result, and the
    image length always does. *)

Lemma props_loop_fuel (n : nat) :
  forall (m : nat) prop_addr props,
    0 <= prop_addr ->
    len data - prop_addr <= Z.of_nat n ->
    len data - prop_addr <= Z.of_nat m ->
    props_loop n prop_addr props = props_loop m prop_addr props.
Proof.
  induction n as [|n IH]; intros [|m] prop_addr props Hpos Hn Hm; simpl;
    try reflexivity.
  - destruct (Z.ltb_spec prop_addr (len data - 10)); [lia|done].
  - destruct (Z.ltb_spec prop_addr (len data - 10)); [lia|done].
  - destruct (Z.ltb_spec prop_addr (len data - 10)) as [Hlt|]; [|done].
    destruct (py_index data prop_addr) as [size_byte|e] eqn:Hrd; [|done].
    destruct (size_byte =? 0); [done|].
    pose proof (legacy_size_range _ (py_index_range _ _ Hrd)) as Hsz.
    rewrite (IH m); [done|lia..].
Qed.

Lemma has_property_loop_fuel (n : nat) :
  forall (m : nat) prop_addr prop_num,
    0 <= prop_addr ->
    len data - prop_addr <= Z.of_nat n ->
    len data - prop_addr <= Z.of_nat m ->
    has_property_loop n prop_addr prop_num
    = has_property_loop m prop_addr prop_num.
Proof.
  induction n as [|n IH]; intros [|m] prop_addr prop_num Hpos Hn Hm; simpl;
    try reflexivity.
  - destruct (Z.ltb_spec prop_addr (len data)); [lia|done].
  - destruct (Z.ltb_spec prop_addr (len data)); [lia|done].
  - destruct (Z.ltb_spec prop_addr (len data)) as [Hlt|]; [|done].
    destruct (read_byte data prop_addr) as [size_byte|e] eqn:Hrd; [|done].
    pose proof (read_byte_range _ _ Hrd) as Hsb.
    destruct (size_byte =? 0); [done|].
    destruct (version <=? 3).
    { destruct (_ =? prop_num); [done|].
      pose proof (legacy_size_range _ Hsb) as Hsz.
      rewrite (IH m); [done|lia..]. }
    destruct (Z.land size_byte 128 =? 0); simpl.
    { destruct (_ =? prop_num); [done|].
      set (p_size := if Z.land size_byte 64 =? 0 then 1 else 2).
      assert (1 <= p_size) by (unfold p_size; destruct (_ =? 0); lia).
      rewrite (IH m); [done|lia..]. }
    destruct (Z.leb_spec (len data) (prop_addr + 1)); [done|].
    destruct (read_byte data (prop_addr + 1)) as [b|e]; [|done].
    destruct (_ =? prop_num); [done|].
    set (p_size := if Z.land b 63 =? 0 then 64 else Z.land b 63).
    assert (0 <= p_size).
    { unfold p_size. destruct (_ =? 0); [lia|].
      apply Z.land_nonneg. right. lia. }
    rewrite (IH m); [done|lia..].
Qed.

Lemma exit_properties_loop_fuel (n : nat) :
  forall (m : nat) prop_addr prop_count,
    0 <= prop_addr ->
    len data - prop_addr <= Z.of_nat n ->
    len data - prop_addr <= Z.of_nat m ->
    exit_properties_loop n prop_addr prop_count
    = exit_properties_loop m prop_addr prop_count.
Proof.
  induction n as [|n IH]; intros [|m] prop_addr prop_count Hpos Hn Hm; simpl;
    try reflexivity.
  - destruct (Z.ltb_spec prop_addr (len data)); [lia|done].
  - destruct (Z.ltb_spec prop_addr (len data)); [lia|done].
  - destruct (Z.ltb_spec prop_addr (len data)) as [Hlt|]; [|done].
    destruct (read_byte data prop_addr) as [size_byte|e] eqn:Hrd; [|done].
    pose proof (read_byte_range _ _ Hrd) as Hsb.
    destruct (size_byte =? 0); [done|].
    destruct (version <=? 3).
    { destruct (3 <? _); [done|].
      pose proof (legacy_size_range _ Hsb) as Hsz.
      apply IH; lia. }
    destruct (Z.land size_byte 128 =? 0); simpl.
    { destruct (3 <? _); [done|].
      set (p_size := if Z.land size_byte 64 =? 0 then 1 else 2).
      assert (1 <= p_size) by (unfold p_size; destruct (_ =? 0); lia).
      apply IH; lia. }
    destruct (Z.leb_spec (len data) (prop_addr + 1)); [done|].
    destruct (read_byte data (prop_addr + 1)) as [b|e]; [|done].
    destruct (3 <? _); [done|].
    set (p_size := if Z.land b 63 =? 0 then 64 else Z.land b 63).
    assert (0 <= p_size).
    { unfold p_size. destruct (_ =? 0); [lia|].
      apply Z.land_nonneg. right. lia. }
    apply IH; lia.
Qed.

(** The table of an object, from any fuel at least the image length. *)
Lemma get_object_properties_fuel (o : Z) (obj : ZObject) (text_length : Z)
  (m : nat) :
  get_object o = Ok (Some obj) ->
  py_index data (Z.of_N (properties obj)) = Ok text_length ->
  Z.of_N (properties obj) < len data ->
  (length data <= m)%nat ->
  _get_object_properties o
  = (props_loop m (Z.of_N (properties obj) + (1 + text_length * 2)) []).1.
Proof.
  intros Ho Hrd Hlt Hm. unfold _get_object_properties,
    _get_object_properties_traced. rewrite Ho.
  destruct (Z.leb_spec (len data) (Z.of_N (properties obj))); [lia|].
  rewrite Hrd. pose proof (py_index_range _ _ Hrd).
  rewrite (props_loop_fuel (length data) m); [|unfold len; lia..].
  by destruct (props_loop m _ _).
Qed.

(** C7. Property-table decoding fails soft and stays in bounds: when the
    property-table address of an object is at or beyond the image length,
    [_get_object_properties] returns the empty table (and asks the image
    for nothing); and whatever the bytes of the image are, every address
    that [_get_object_properties] or [_has_property] asks the image for,
    by index or as part of a slice, is at least 0 and below the image
    length. *)
Theorem property_decoding_fails_soft_in_bounds (o prop_num : Z) :
  (forall obj,
      get_object o = Ok (Some obj) ->
      len data <= Z.of_N (properties obj) ->
      _get_object_properties_traced o = ([], []))
  /\ Forall (in_image data) (_get_object_properties_traced o).2
  /\ Forall (in_image data) (_has_property_traced o prop_num).2.
Proof.
  split; [|split].
  - intros obj Ho Hge. unfold _get_object_properties_traced. rewrite Ho.
    by destruct (Z.leb_spec (len data) (Z.of_N (properties obj))); [|lia].
  - apply get_object_properties_in_image.
  - apply has_property_in_image.
Qed.

(** ** Destinations read from one property value *)

Lemma other_room_true (room_objs : gset Z) (room_num b : Z) :
  other_room room_objs room_num b = true <-> b ∈ room_objs /\ b <> room_num.
Proof.
  unfold other_room. rewrite andb_true_iff, bool_decide_eq_true,
    negb_true_iff, Z.eqb_neq. done.
Qed.

Lemma elem_of_distinct_in_order (l : list Z) (x : Z) :
  x ∈ distinct_in_order l <-> x ∈ l.
Proof.
  goal_vars_only.
  induction l as [|y l IH]; simpl; [done|].
  rewrite !elem_of_cons, list_elem_of_filter, IH.
  destruct (decide (x = y)); naive_solver.
Qed.

Lemma NoDup_distinct_in_order (l : list Z) : NoDup (distinct_in_order l).
Proof.
  goal_vars_only.
  induction l as [|y l IH]; simpl; [constructor|].
  apply NoDup_cons. split; [|by apply NoDup_filter].
  rewrite list_elem_of_filter. naive_solver.
Qed.

(** The loop, from any point of the scan: what is already collected,
    followed by the new distinct hits. *)
Lemma refs_loop_spec (room_objs : gset Z) (room_num : Z) (prop_data : list Z) :
  forall (refs : list Z) (seen : gset Z),
    (forall x, x ∈ seen <-> x ∈ refs) ->
    refs_loop room_objs room_num prop_data refs seen
    = refs ++ filter (fun x => x ∉ refs)
                (distinct_in_order
                   (filter (fun b => other_room room_objs room_num b = true)
                      prop_data)).
Proof.
  goal_vars_only.
  induction prop_data as [|b rest IH]; intros refs seen Hseen; simpl.
  - by rewrite app_nil_r.
  - rewrite filter_cons.
    destruct (decide (other_room room_objs room_num b = true)) as [Hb|Hb].
    + rewrite Hb. simpl. rewrite filter_cons.
      destruct (decide (b ∉ refs)) as [Hnew|Hold].
      * rewrite bool_decide_eq_false_2 by (by rewrite Hseen).
        rewrite (IH (refs ++ [b]) ({[b]} ∪ seen)).
        2:{ intros x. rewrite elem_of_union, elem_of_singleton, elem_of_app,
              list_elem_of_singleton, Hseen. naive_solver. }
        rewrite <- app_assoc. simpl. do 2 f_equal.
        rewrite list_filter_filter. apply list_filter_iff.
        intros x. rewrite not_elem_of_app, list_elem_of_singleton. naive_solver.
      * apply dec_stable in Hold.
        rewrite bool_decide_eq_true_2 by (by rewrite Hseen).
        rewrite (IH refs seen Hseen). f_equal.
        rewrite list_filter_filter. apply list_filter_iff.
        intros x. split; [|naive_solver].
        intros Hx. split; [done|]. by intros ->.
    + apply not_true_is_false in Hb. rewrite Hb. by apply IH.
Qed.

Lemma extract_room_refs_spec (room_objs : gset Z) (prop_data : list Z)
  (room_num : Z) :
  _extract_room_refs_from_property room_objs prop_data room_num
  = distinct_in_order
      (filter (fun b => other_room room_objs room_num b = true) prop_data).
Proof.
  goal_vars_only.
  unfold _extract_room_refs_from_property.
  assert (refs_loop room_objs room_num prop_data [] ∅
          = distinct_in_order
              (filter (fun b => other_room room_objs room_num b = true)
                 prop_data)) as Hloop.
  { rewrite (refs_loop_spec _ _ _ [] ∅) by set_solver. simpl.
    induction (distinct_in_order _) as [|x l IH]; [done|].
    rewrite filter_cons_True by apply not_elem_of_nil. by rewrite IH. }
  destruct prop_data as [|b [|b' rest]]; [done| |done].
  rewrite filter_cons. simpl.
  destruct (decide (other_room room_objs room_num b = true)) as [Hb|Hb].
  - by rewrite Hb.
  - apply not_true_is_false in Hb. by rewrite Hb.
Qed.

(** C2. Every destination extracted from a property value is a classified
    room other than the source room and is a byte of the value (so the
    room's own identifier, and a byte that is no classified room, are
    never extracted); no destination is extracted twice; and the
    destinations are the distinct qualifying bytes in the order of their
    first occurrence, for a one-byte value as for a longer one. *)
Theorem extracted_refs_are_other_rooms (room_objs : gset Z)
  (prop_data : list Z) (room_num : Z) :
  let refs := _extract_room_refs_from_property room_objs prop_data room_num in
  (forall d, d ∈ refs <-> d ∈ prop_data /\ d ∈ room_objs /\ d <> room_num)
  /\ (room_num ∉ refs)
  /\ NoDup refs
  /\ refs = distinct_in_order
              (filter (fun b => other_room room_objs room_num b = true)
                 prop_data).
Proof.
  goal_vars_only.
  intros refs. unfold refs. rewrite extract_room_refs_spec.
  assert (forall d,
             d ∈ distinct_in_order
                   (filter (fun b => other_room room_objs room_num b = true)
                      prop_data)
             <-> d ∈ prop_data /\ d ∈ room_objs /\ d <> room_num) as Hmem.
  { intros d. rewrite elem_of_distinct_in_order, list_elem_of_filter,
      other_room_true. naive_solver. }
  split; [done|]. split; [|split; [apply NoDup_distinct_in_order|done]].
  rewrite Hmem. naive_solver.
Qed.

(** ** Exit properties *)

Lemma props_loop_wf (fuel : nat) :
  forall prop_addr props,
    dict_wf props -> dict_wf (props_loop fuel prop_addr props).1.
Proof.
  induction fuel as [|fuel IH]; intros prop_addr props Hwf; simpl; [done|].
  destruct (prop_addr <? len data - 10); [|done].
  destruct (py_index data prop_addr) as [size_byte|e]; [|done].
  destruct (size_byte =? 0); [done|].
  specialize (IH (prop_addr + (1 + (Z.shiftr size_byte 5 + 1)))
                (dict_set props (Z.land size_byte 31)
                   (py_slice data (prop_addr + 1)
                      (prop_addr + 1 + (Z.shiftr size_byte 5 + 1))))
                (dict_wf_set _ _ _ Hwf)).
  by destruct (props_loop fuel _ _).
Qed.

(** A decoded table has each property number once. *)
Lemma get_object_properties_wf (o : Z) : dict_wf (_get_object_properties o).
Proof.
  unfold _get_object_properties, _get_object_properties_traced.
  destruct (get_object o) as [[obj|]|e]; simpl; try apply NoDup_nil_2.
  destruct (len data <=? _); simpl; [apply NoDup_nil_2|].
  destruct (py_index data _) as [text_length|e]; simpl; [|apply NoDup_nil_2].
  pose proof (props_loop_wf (length data)
                (Z.of_N (properties obj) + (1 + text_length * 2)) []) as H.
  destruct (props_loop _ _ _). apply H. apply NoDup_nil_2.
Qed.

Section Discovery.
Variable room_objs : gset Z.

Lemma scan_bytes_spec (room_num prop_num : Z) (prop_data : list Z)
  (exit_props : gset Z) (p : Z) :
  p ∈ scan_bytes room_objs room_num prop_num prop_data exit_props
  <-> p ∈ exit_props
      \/ (p = prop_num
          /\ exists b, b ∈ prop_data /\ b ∈ room_objs /\ b <> room_num).
Proof.
  induction prop_data as [|b rest IH]; simpl.
  - split; [by left|]. intros [H|(_ & b & Hb & _)]; [done|].
    by apply elem_of_nil in Hb.
  - destruct (other_room room_objs room_num b) eqn:Hb.
    + apply other_room_true in Hb.
      rewrite elem_of_union, elem_of_singleton. split.
      * intros [->|H]; [|by left]. right. split; [done|].
        exists b. split; [by left|done].
      * intros [H|[-> _]]; [by right|by left].
    + rewrite IH. split.
      * intros [H|(-> & b' & Hin & Hb')]; [by left|]. right.
        split; [done|]. exists b'. split; [by right|done].
      * intros [H|(-> & b' & Hin & Hb')]; [by left|]. right.
        split; [done|]. exists b'. split; [|done].
        apply elem_of_cons in Hin as [->|Hin]; [|done].
        apply other_room_true in Hb'. congruence.
Qed.

Lemma scan_prop_spec (room_num : Z) (exit_props : gset Z)
  (item : Z * list Z) (p : Z) :
  p ∈ scan_prop room_objs room_num exit_props item
  <-> p ∈ exit_props \/ exit_shaped room_objs room_num item p.
Proof.
  unfold scan_prop, exit_shaped. destruct item as [prop_num prop_data].
  simpl. destruct (Z.ltb_spec prop_num 13) as [Hlow|Hhigh].
  - split; [by left|]. intros [H|(-> & Hp & _)]; [done|lia].
  - rewrite scan_bytes_spec. split.
    + intros [H|[-> Hb]]; [by left|by right].
    + intros [H|(-> & _ & Hb)]; [by left|by right].
Qed.

(** A fold that only adds: membership in the result. *)
Lemma fold_left_adds {A : Type} (f : gset Z -> A -> gset Z)
  (Q : A -> Z -> Prop) :
  (forall acc x p, p ∈ f acc x <-> p ∈ acc \/ Q x p) ->
  forall (l : list A) (acc : gset Z) (p : Z),
    p ∈ fold_left f l acc <-> p ∈ acc \/ exists x, x ∈ l /\ Q x p.
Proof.
  intros Hf l. induction l as [|x l IH]; intros acc p; simpl.
  - split; [by left|]. intros [H|(x & Hx & _)]; [done|].
    by apply elem_of_nil in Hx.
  - rewrite IH, Hf. split.
    + intros [[H|H]|(y & Hy & HQ)]; [by left| |].
      * right. exists x. split; [by left|done].
      * right. exists y. split; [by right|done].
    + intros [H|(y & Hy & HQ)]; [by left; left|].
      apply elem_of_cons in Hy as [->|Hy]; [by left; right|].
      right. by exists y.
Qed.

Lemma scan_room_spec (exit_props : gset Z) (room_num p : Z) :
  p ∈ scan_room room_objs exit_props room_num
  <-> p ∈ exit_props
      \/ exists item, item ∈ _get_object_properties room_num
                      /\ exit_shaped room_objs room_num item p.
Proof.
  unfold scan_room.
  apply (fold_left_adds (scan_prop room_objs room_num)
           (exit_shaped room_objs room_num)).
  intros acc x q. apply scan_prop_spec.
Qed.

Lemma find_exit_properties_spec (rooms : list (Z * Room)) (p : Z) :
  p ∈ _find_exit_properties room_objs rooms
  <-> 13 <= p
      /\ exists room_num prop_data b,
           room_num ∈ dict_keys rooms
           /\ dict_get (_get_object_properties room_num) p = Some prop_data
           /\ b ∈ prop_data /\ b ∈ room_objs /\ b <> room_num.
Proof.
  unfold _find_exit_properties.
  rewrite (fold_left_adds (scan_room room_objs)
             (fun room_num q =>
                exists item, item ∈ _get_object_properties room_num
                             /\ exit_shaped room_objs room_num item q))
    by (intros acc x q; apply scan_room_spec).
  split.
  - intros [H|(room_num & Hr & [q prop_data] & Hitem & Hq & Hp & b & Hb)];
      [by apply not_elem_of_empty in H|].
    simpl in *. subst q. split; [done|].
    exists room_num, prop_data, b. split; [done|]. split; [|done].
    apply dict_elem_of_get; [apply get_object_properties_wf|done].
  - intros (Hp & room_num & prop_data & b & Hr & Hget & Hb).
    right. exists room_num. split; [done|].
    exists (p, prop_data). split; [by apply dict_get_elem_of|].
    split; [done|]. split; [done|]. by exists b.
Qed.
End Discovery.

(** C1. For every room set, [_find_exit_properties], run with
    [self.room_objs] holding the identifiers of the rooms as
    [extract_exits] sets it, returns exactly the set of the property
    numbers [p >= 13] for which some room's property table has an entry
    [p] one of whose bytes is the identifier of another room; and whatever
    [self.room_objs] holds, no number below 13 is in the returned set. *)
Theorem exit_properties_exactly (rooms : list (Z * Room)) (p : Z) :
  (p ∈ _find_exit_properties (list_to_set (dict_keys rooms)) rooms
   <-> 13 <= p
       /\ exists room_num prop_data b,
            room_num ∈ dict_keys rooms
            /\ dict_get (_get_object_properties room_num) p = Some prop_data
            /\ b ∈ prop_data /\ b ∈ dict_keys rooms /\ b <> room_num)
  /\ (forall room_objs : gset Z,
         p < 13 -> p ∉ _find_exit_properties room_objs rooms).
Proof.
  split.
  - rewrite find_exit_properties_spec.
    setoid_rewrite (elem_of_list_to_set (C := gset Z)). done.
  - intros room_objs Hp Hin. apply find_exit_properties_spec in Hin. lia.
Qed.

(** ** Dictionary hints *)






(** ** Exits *)

Lemma dict_get_app {K V : Type} `{EqDecision K} (d1 d2 : list (K * V)) (k : K) :
  dict_get (d1 ++ d2) k
  = match dict_get d1 k with Some v => Some v | None => dict_get d2 k end.
Proof.
  induction d1 as [|[k' v'] d1 IH]; simpl; [done|].
  by destruct (decide (k = k')).
Qed.

Lemma dict_keys_app {K V : Type} (d1 d2 : list (K * V)) :
  dict_keys (d1 ++ d2) = dict_keys d1 ++ dict_keys d2.
Proof. unfold dict_keys. apply fmap_app. Qed.

Section OneRoom.
Variables (room_objs : gset Z) (prop_to_word : list (Z * string)).
Variable room_num : Z.

(** The inner loop writes the first destination, unless the label is
    taken. *)
Lemma record_exit_spec (prop_num : Z) (dest_rooms : list Z)
  (e : list (string * Z)) (n : Z) :
  record_exit prop_to_word prop_num dest_rooms (e, n)
  = match dest_rooms with
    | [] => (e, n)
    | dest :: _ =>
        if dict_contains e (exit_label prop_to_word prop_num) then (e, n)
        else (e ++ [(exit_label prop_to_word prop_num, dest)], n + 1)
    end.
Proof.
  destruct dest_rooms as [|dest rest]; [done|]. simpl.
  destruct (dict_contains e _) eqn:E.
  - induction rest as [|d rest IH]; simpl; [done|]. by rewrite E.
  - by rewrite dict_set_new by (by apply dict_contains_false).
Qed.

Lemma exit_step_spec (e : list (string * Z)) (n prop_num : Z) :
  exit_step room_objs prop_to_word room_num
    (_get_object_properties room_num) (e, n) prop_num
  = match yielded room_objs prop_to_word room_num prop_num with
    | None => (e, n)
    | Some (w, d) =>
        if dict_contains e w then (e, n) else (e ++ [(w, d)], n + 1)
    end.
Proof.
  unfold exit_step, yielded.
  destruct (dict_get _ prop_num) as [prop_data|]; [|done].
  rewrite record_exit_spec. by destruct (_extract_room_refs_from_property _ _ _).
Qed.

(** The loop over the exit properties, from any state. *)
Lemma exit_steps_spec (ps : list Z) :
  forall (e : list (string * Z)) (n : Z),
  exists added : list (string * Z),
    fold_left (exit_step room_objs prop_to_word room_num
                 (_get_object_properties room_num)) ps (e, n)
    = (e ++ added, n + Z.of_nat (length added))
    /\ NoDup added.*1
    /\ (forall w d, (w, d) ∈ added ->
           (w ∉ dict_keys e)
           /\ dict_get (omap (yielded room_objs prop_to_word room_num) ps) w
              = Some d)
    /\ (length added <= length ps)%nat.
Proof.
  induction ps as [|p ps IH]; intros e n.
  - exists []. simpl. rewrite app_nil_r, Z.add_0_r.
    split; [done|]. split; [constructor|]. split; [|done].
    intros w d H. by apply elem_of_nil in H.
  - simpl fold_left. rewrite exit_step_spec. simpl omap.
    destruct (yielded room_objs prop_to_word room_num p) as [[w d]|].
    2:{ destruct (IH e n) as (added & Heq & Hnd & Hin & Hlen).
        exists added. split; [done|]. split; [done|].
        split; [done|simpl; lia]. }
    destruct (dict_contains e w) eqn:E.
    + destruct (IH e n) as (added & Heq & Hnd & Hin & Hlen).
      exists added. split; [done|]. split; [done|]. split; [|simpl; lia].
      intros w' d' H'. destruct (Hin _ _ H') as [Hnew Hget].
      split; [done|]. simpl. rewrite decide_False; [done|].
      intros ->. by apply dict_contains_true in E.
    + apply dict_contains_false in E.
      destruct (IH (e ++ [(w, d)]) (n + 1))
        as (added & Heq & Hnd & Hin & Hlen).
      exists ((w, d) :: added). rewrite Heq, <- app_assoc. simpl.
      split; [f_equal; lia|].
      assert (forall w' d', (w', d') ∈ added -> w' <> w) as Hne.
      { intros w' d' H' ->. destruct (Hin _ _ H') as [Hnew _].
        apply Hnew. rewrite dict_keys_app. apply elem_of_app. right.
        by left. }
      split.
      { apply NoDup_cons. split; [|done].
        intros Hw. apply list_elem_of_fmap in Hw as ([w' d'] & -> & H').
        by apply (Hne w' d'). }
      split; [|lia].
      intros w' d' H'. apply elem_of_cons in H' as [[= -> ->]|H'].
      * split; [done|]. by rewrite decide_True.
      * destruct (Hin _ _ H') as [Hnew Hget]. split.
        -- intros Hk. apply Hnew. rewrite dict_keys_app.
           apply elem_of_app. by left.
        -- rewrite decide_False; [done|]. by apply (Hne w' d').
Qed.
End OneRoom.

Lemma rooms_loop_spec (room_objs exit_props : gset Z)
  (prop_to_word : list (Z * string)) (rooms : list (Z * Room)) :
  forall (total : Z) (rooms' : list (Z * Room)) (total' : Z),
    rooms_loop room_objs exit_props prop_to_word rooms total = (rooms', total') ->
    Forall2 (exits_extended room_objs exit_props prop_to_word) rooms rooms'
    /\ total' = total + (exit_count rooms' - exit_count rooms).
Proof.
  induction rooms as [|[room_num room] rooms IH]; intros total rooms' total';
    simpl.
  - intros [= <- <-]. split; [constructor|]. simpl. lia.
  - unfold room_exits.
    destruct (exit_steps_spec room_objs prop_to_word room_num
                (set_iter exit_props) (exits room) total)
      as (added & Heq & Hnd & Hin & Hlen).
    rewrite Heq.
    destruct (rooms_loop room_objs exit_props prop_to_word rooms
                (total + Z.of_nat (length added))) as [rest' t] eqn:Hrest.
    intros [= <- <-]. destruct (IH _ _ _ Hrest) as [Hall Ht].
    split.
    + constructor; [|done]. split; [done|]. by exists added.
    + simpl. rewrite length_app. lia.
Qed.

Lemma exits_extended_refl (room_objs exit_props : gset Z)
  (prop_to_word : list (Z * string)) (rooms : list (Z * Room)) :
  Forall2 (exits_extended room_objs exit_props prop_to_word) rooms rooms.
Proof.
  apply Forall2_same_length_lookup_2; [done|].
  intros i r r' Hr Hr'. assert (r' = r) as -> by congruence.
  split; [done|]. exists []. rewrite app_nil_r.
  split; [by destruct r as [k []]|]. split; [constructor|].
  split; [|simpl; lia]. intros w d H. by apply elem_of_nil in H.
Qed.

(** The two early returns, and the run of the loop otherwise. *)
Lemma extract_exits_cases (rooms : list (Z * Room)) :
  let room_objs : gset Z := list_to_set (dict_keys rooms) in
  let exit_props := _find_exit_properties room_objs rooms in
  (room_objs = ∅ \/ exit_props = ∅) /\ extract_exits rooms = Ok (rooms, 0)
  \/ (room_objs <> ∅ /\ exit_props <> ∅
      /\ extract_exits rooms
         = (m ← _get_property_to_word_mapping;
            Ok (rooms_loop room_objs exit_props
                  (filter (fun pw => pw.1 ∈ exit_props) m) rooms 0))).
Proof.
  intros room_objs exit_props. unfold extract_exits.
  fold room_objs. fold exit_props.
  destruct (decide (room_objs = ∅)) as [He|He].
  { left. split; [by left|]. by rewrite bool_decide_eq_true_2. }
  rewrite (bool_decide_eq_false_2 _ He).
  destruct (decide (exit_props = ∅)) as [Hp|Hp].
  { left. split; [by right|]. by rewrite bool_decide_eq_true_2. }
  rewrite (bool_decide_eq_false_2 _ Hp). right. done.
Qed.

(** C3. After [extract_exits] returns, every room kept its identifier and
    its earlier exits, in place and unchanged, and received appended pairs
    whose labels are pairwise distinct and were not labels of the room
    before: no label has two destinations.  Each appended pair is the first
    offer made under its label in the order the exit properties are
    visited, so a later property mapping to a label already written is
    dropped; an exit property offers one destination at most, and the
    pairs appended to a room are no more than the exit properties. *)
Theorem one_exit_per_label (rooms rooms' : list (Z * Room)) (total : Z) :
  extract_exits rooms = Ok (rooms', total) ->
  let room_objs : gset Z := list_to_set (dict_keys rooms) in
  let exit_props := _find_exit_properties room_objs rooms in
  exists prop_to_word : list (Z * string),
    (forall m, _get_property_to_word_mapping = Ok m ->
               prop_to_word = filter (fun pw => pw.1 ∈ exit_props) m)
    /\ Forall2 (exits_extended room_objs exit_props prop_to_word) rooms rooms'
    /\ Forall2 (fun r r' =>
                  (dict_wf (exits r.2) -> dict_wf (exits r'.2))
                  /\ forall w d, dict_get (exits r.2) w = Some d ->
                                 dict_get (exits r'.2) w = Some d)
         rooms rooms'.
Proof.
  intros Hrun room_objs exit_props.
  assert (exists prop_to_word : list (Z * string),
             (forall m, _get_property_to_word_mapping = Ok m ->
                        prop_to_word = filter (fun pw => pw.1 ∈ exit_props) m)
             /\ Forall2 (exits_extended room_objs exit_props prop_to_word)
                  rooms rooms') as (prop_to_word & Hm & Hext).
  { destruct (extract_exits_cases rooms) as [[_ Hret]|(_ & _ & Hret)];
      rewrite Hret in Hrun.
    - injection Hrun as <- <-.
      exists (match _get_property_to_word_mapping with
              | Ok m => filter (fun pw => pw.1 ∈ exit_props) m
              | Raise _ => []
              end).
      split; [by intros m ->|]. apply exits_extended_refl.
    - destruct _get_property_to_word_mapping as [m|e]; [|done].
      simpl in Hrun. injection Hrun as Hrun.
      exists (filter (fun pw => pw.1 ∈ exit_props) m).
      split; [by intros m' [= <-]|].
      by apply rooms_loop_spec in Hrun as [Hall _]. }
  exists prop_to_word. split; [done|]. split; [done|].
  eapply Forall2_impl; [exact Hext|].
  intros r r' (_ & added & Hr' & Hnd & Hin & _). rewrite Hr'. simpl. split.
  - unfold dict_wf. rewrite dict_keys_app. intros Hwf.
    apply NoDup_app. split; [done|]. split; [|done].
    intros w Hw Hw'. apply list_elem_of_fmap in Hw' as ([w' d'] & -> & H').
    by destruct (Hin _ _ H') as [Hnew _].
  - intros w d Hget. by rewrite dict_get_app, Hget.
Qed.

(** C8. When [extract_exits] returns, every room has its earlier exits
    followed by the pairs the call appended, and the value returned is the
    number of pairs appended over all rooms (the growth of the number of
    pairs the rooms hold).  With no room, or with no exit property
    discovered, it returns 0 and leaves the rooms as they are.  It returns
    whenever the dictionary mapping does. *)
Theorem extract_exits_returns_count (rooms : list (Z * Room)) :
  (forall rooms' total,
      extract_exits rooms = Ok (rooms', total) ->
      Forall2 (fun r r' =>
                 r'.1 = r.1
                 /\ exists added, r'.2 = with_exits r.2 (exits r.2 ++ added))
        rooms rooms'
      /\ total = exit_count rooms' - exit_count rooms)
  /\ (rooms = []
      \/ _find_exit_properties (list_to_set (dict_keys rooms)) rooms = ∅ ->
      extract_exits rooms = Ok (rooms, 0))
  /\ (forall m, _get_property_to_word_mapping = Ok m ->
                exists rooms' total, extract_exits rooms = Ok (rooms', total)).
Proof.
  split; [|split].
  - intros rooms' total Hrun.
    assert ((exists m,
                Forall2 (exits_extended (list_to_set (dict_keys rooms))
                           (_find_exit_properties
                              (list_to_set (dict_keys rooms)) rooms) m)
                  rooms rooms')
            /\ total = exit_count rooms' - exit_count rooms) as [[m Hext] ->].
    { destruct (extract_exits_cases rooms) as [[_ Hret]|(_ & _ & Hret)];
        rewrite Hret in Hrun.
      - injection Hrun as <- <-. split; [|lia]. exists [].
        apply exits_extended_refl.
      - destruct _get_property_to_word_mapping as [m|e]; [|done].
        simpl in Hrun. injection Hrun as Hrun.
        apply rooms_loop_spec in Hrun as [Hall ->]. split; [|lia].
        by eexists. }
    split; [|done]. eapply Forall2_impl; [exact Hext|].
    intros r r' (Hk & added & Hr' & _). split; [done|by exists added].
  - intros Hempty.
    destruct (extract_exits_cases rooms) as [[_ Hret]|(Hne & Hpe & _)]; [done|].
    destruct Hempty as [->|Hp]; [|done]. by destruct Hne.
  - intros m Hm.
    destruct (extract_exits_cases rooms) as [[_ Hret]|(_ & _ & Hret)];
      rewrite Hret; [by eexists _, _|].
    rewrite Hm. simpl.
    destruct (rooms_loop _ _ _ rooms 0) as [rooms' total]. by eexists _, _.
Qed.

(** ** Name validity *)

(** *** The binary64 division and comparison

    [SFdiv] on the two converted integers is followed through its steps:
    both mantissas have 53 bits, the quotient of the shifted numerator has
    53 or 54 bits, and rounding to nearest even reaches the mantissa of the
    literal exactly when the quotient is at least the midpoint below it. *)

Lemma digits2_pos_bounds (n : positive) :
  2 ^ (Zpos (digits2_pos n) - 1) <= Zpos n < 2 ^ Zpos (digits2_pos n).
Proof.
  induction n as [n IH|n IH|]; simpl digits2_pos.
  - rewrite Pos2Z.inj_succ.
    replace (Z.succ (Z.pos (digits2_pos n)) - 1) with (Z.pos (digits2_pos n) - 1 + 1) by lia.
    rewrite Z.pow_succ_r by lia. rewrite Z.pow_add_r by lia.
    change (2 ^ 1) with 2. lia.
  - rewrite Pos2Z.inj_succ.
    replace (Z.succ (Z.pos (digits2_pos n)) - 1) with (Z.pos (digits2_pos n) - 1 + 1) by lia.
    rewrite Z.pow_succ_r by lia. rewrite Z.pow_add_r by lia.
    change (2 ^ 1) with 2. lia.
  - simpl. lia.
Qed.

Lemma digits2_pos_unique (n : positive) (d : Z) :
  2 ^ (d - 1) <= Zpos n < 2 ^ d -> Zpos (digits2_pos n) = d.
Proof.
  intros Hd. pose proof (digits2_pos_bounds n) as Hn.
  set (D := Zpos (digits2_pos n)) in *.
  assert (0 < D) by (unfold D; lia).
  assert (0 < d).
  { destruct (Z.lt_trichotomy d 0) as [Hneg|[->|Hpos]]; [|simpl in Hd; lia|done].
    rewrite (Z.pow_neg_r 2 d) in Hd by lia. lia. }
  destruct (Z.lt_trichotomy D d) as [Hlt|[Heq|Hgt]]; [|done|].
  - assert (2 ^ D <= 2 ^ (d - 1)) by (apply Z.pow_le_mono_r; lia). lia.
  - assert (2 ^ d <= 2 ^ (D - 1)) by (apply Z.pow_le_mono_r; lia). lia.
Qed.

Lemma iter_xO (m k : positive) : Zpos (Pos.iter xO m k) = Zpos m * 2 ^ Zpos k.
Proof.
  pose proof (shift_pos_correct k m) as H. unfold shift_pos in H.
  rewrite H. rewrite Zpower_pos_is_exp_pos || idtac.
  unfold Z.pow. lia.
Qed.

Lemma Zdigits2_53 (q : Z) : 2 ^ 52 <= q < 2 ^ 53 -> Zdigits2 q = 53.
Proof.
  intros Hq. destruct q as [|q|q]; [lia| |lia]. simpl.
  apply digits2_pos_unique. by change (53 - 1) with 52.
Qed.

Lemma Zdigits2_54 (q : Z) : 2 ^ 53 <= q < 2 ^ 54 -> Zdigits2 q = 54.
Proof.
  intros Hq. destruct q as [|q|q]; [lia| |lia]. simpl.
  apply digits2_pos_unique. by change (54 - 1) with 53.
Qed.

Lemma fexp_shift (d e : Z) :
  -1000 <= e -> 53 <= d -> fexp prec emax (d + e) - e = d - 53.
Proof. intros He Hd. unfold fexp, emin, prec, emax. lia. Qed.

Lemma loc_of_record_of_loc (m : Z) (l : location) :
  loc_of_shr_record (shr_record_of_loc m l) = l
  /\ shr_m (shr_record_of_loc m l) = m.
Proof. by destruct l as [|[]]. Qed.

Lemma shr_fexp_53 (q e : Z) (l : location) :
  2 ^ 52 <= q < 2 ^ 53 -> -1000 <= e ->
  shr_fexp prec emax q e l = (shr_record_of_loc q l, e).
Proof.
  intros Hq He. unfold shr_fexp.
  rewrite (Zdigits2_53 q Hq), fexp_shift by lia. done.
Qed.

Lemma shr_fexp_54 (q e : Z) (l : location) :
  2 ^ 53 <= q < 2 ^ 54 -> -1000 <= e ->
  shr_fexp prec emax q e l = (shr_1 (shr_record_of_loc q l), e + 1).
Proof.
  intros Hq He. unfold shr_fexp.
  rewrite (Zdigits2_54 q Hq), fexp_shift by lia. done.
Qed.

(** Rounding a 53-bit mantissa. *)
Lemma round_aux_53 (q e : Z) (l : location) :
  2 ^ 52 <= q < 2 ^ 53 -> -1000 <= e <= 900 ->
  binary_round_aux prec emax false q e l
  = if round_nearest_even q l <? 2 ^ 53
    then S754_finite false (Z.to_pos (round_nearest_even q l)) e
    else S754_finite false (Z.to_pos (2 ^ 52)) (e + 1).
Proof.
  intros Hq He. unfold binary_round_aux.
  rewrite shr_fexp_53 by lia.
  destruct (loc_of_record_of_loc q l) as [-> ->].
  set (m1 := round_nearest_even q l).
  assert (q <= m1 <= q + 1) as Hm1.
  { unfold m1, round_nearest_even. destruct l as [|[]]; try lia.
    destruct (Z.even q); lia. }
  destruct (Z.ltb_spec m1 (2 ^ 53)) as [Hlt|Hge].
  - rewrite shr_fexp_53 by lia. simpl shr_m.
    destruct m1 as [|m1|m1]; [lia| |lia].
    destruct (Z.leb_spec e (emax - prec)) as [_|Hbad];
      [done|unfold emax, prec in Hbad; lia].
  - assert (m1 = 2 ^ 53) as -> by lia.
    rewrite shr_fexp_54 by lia. simpl shr_m.
    destruct (Z.leb_spec (e + 1) (emax - prec)) as [_|Hbad];
      [done|unfold emax, prec in Hbad; lia].
Qed.

(** Rounding a 54-bit mantissa: one bit is shifted out first. *)
Lemma round_aux_54 (q e : Z) (l : location) :
  2 ^ 53 <= q < 2 ^ 54 -> -1000 <= e <= 900 ->
  binary_round_aux prec emax false q e l
  = binary_round_aux prec emax false (q / 2) (e + 1)
      (loc_of_shr_record (shr_1 (shr_record_of_loc q l))).
Proof.
  intros Hq He. unfold binary_round_aux.
  rewrite shr_fexp_54 by lia.
  assert (2 ^ 52 <= q / 2 < 2 ^ 53) as Hq2.
  { split; [apply Z.div_le_lower_bound; lia|apply Z.div_lt_upper_bound; lia]. }
  rewrite (shr_fexp_53 (q / 2)) by lia.
  assert (shr_m (shr_1 (shr_record_of_loc q l)) = q / 2) as Hm.
  { destruct q as [|[q|q|]|q]; try lia; destruct l as [|[]]; simpl;
      first [ by rewrite Pos2Z.inj_xI, Z.mul_comm, Z.div_add_l
            | by rewrite Pos2Z.inj_xO, Z.mul_comm, Z.div_mul
            | idtac ]. }
  destruct (loc_of_record_of_loc (q / 2)
              (loc_of_shr_record (shr_1 (shr_record_of_loc q l)))) as [-> ->].
  by rewrite Hm.
Qed.

Lemma new_location_locates (T r : Z) :
  0 <= r < T -> locates (new_location T r) r T.
Proof.
  intros Hr. unfold new_location, new_location_even, new_location_odd.
  destruct (Z.even T) eqn:Hev.
  - destruct (Z.eqb_spec r 0); [done|].
    destruct (Z.compare_spec (2 * r) T); unfold locates; lia.
  - assert (exists k, T = 2 * k + 1) as [k ->].
    { apply Z.odd_spec. rewrite <- Z.negb_even. by rewrite Hev. }
    destruct (Z.eqb_spec r 0); [done|].
    destruct (Z.compare_spec (2 * r + 1) (2 * k + 1)) as [Heq|Hlt|Hgt];
      unfold locates; lia.
Qed.

(** The round bit and the sticky bit after one shift locate the bits
    shifted out. *)
Lemma shr_1_locates (q : Z) (l : location) (r T : Z) :
  0 < q -> 0 <= r < T -> locates l r T ->
  locates (loc_of_shr_record (shr_1 (shr_record_of_loc q l)))
    (q mod 2 * T + r) (2 * T).
Proof.
  intros Hq Hr Hl.
  destruct q as [|[q|q|]|q]; try lia.
  - replace (Z.pos q~1 mod 2) with 1
      by (rewrite Pos2Z.inj_xI, Z.add_comm, Z.mul_comm, Z.mod_add; done).
    destruct l as [|[]];
      cbv [loc_of_shr_record shr_1 shr_record_of_loc orb locates] in *; lia.
  - replace (Z.pos q~0 mod 2) with 0
      by (rewrite Pos2Z.inj_xO, Z.mul_comm, Z.mod_mul; done).
    destruct l as [|[]];
      cbv [loc_of_shr_record shr_1 shr_record_of_loc orb locates] in *; lia.
  - change (1 mod 2) with 1. destruct l as [|[]];
      cbv [loc_of_shr_record shr_1 shr_record_of_loc orb locates] in *; lia.
Qed.

(** Round to nearest, ties to even, against an even threshold [c]. *)
Lemma round_nearest_even_ge (m rho D c : Z) (l : location) :
  0 < D -> 0 <= rho < D -> locates l rho D -> Z.even c = true ->
  c <= round_nearest_even m l <-> (2 * c - 1) * D <= 2 * (m * D + rho).
Proof.
  intros HD Hrho Hl Hc.
  apply Z.even_spec in Hc as [k ->].
  destruct (Z.lt_trichotomy m (2 * k - 1)) as [Hlt|[->|Hgt]].
  - assert (round_nearest_even m l <= m + 1) as Hup.
    { unfold round_nearest_even. destruct l as [|[]]; try lia.
      destruct (Z.even m); lia. }
    split; [lia|]. intros H. exfalso.
    assert ((m + 2) * D <= (2 * k) * D) by (apply Z.mul_le_mono_nonneg_r; lia).
    lia.
  - assert (Z.even (2 * k - 1) = false) as Hodd.
    { replace (2 * k - 1) with (1 + 2 * (k - 1)) by lia.
      by rewrite Z.even_add_mul_2. }
    unfold round_nearest_even. destruct l as [|[]]; simpl in Hl;
      rewrite ?Hodd; nia.
  - assert (m <= round_nearest_even m l) as Hlow.
    { unfold round_nearest_even. destruct l as [|[]]; try lia.
      destruct (Z.even m); lia. }
    split; [|lia]. intros _.
    assert ((2 * k) * D <= m * D) by (apply Z.mul_le_mono_nonneg_r; lia).
    lia.
Qed.

(** Comparing the literal with a rounded 53-bit quotient. *)
Lemma leb_round_aux_53 (q e : Z) (l : location) :
  2 ^ 52 <= q < 2 ^ 53 -> -1000 <= e <= 900 ->
  SFleb float_0_7 (binary_round_aux prec emax false q e l)
  = if e <? -53 then false
    else if e =? -53 then 6305039478318694 <=? round_nearest_even q l
    else true.
Proof.
  intros Hq He. rewrite round_aux_53 by done.
  set (m1 := round_nearest_even q l).
  assert (q <= m1 <= q + 1) as Hm1.
  { unfold m1, round_nearest_even. destruct l as [|[]]; try lia.
    destruct (Z.even q); lia. }
  unfold SFleb, float_0_7.
  destruct (Z.ltb_spec m1 (2 ^ 53)) as [Hlt|Hge]; unfold SFcompare.
  - destruct (Z.ltb_spec e (-53)) as [He1|He1].
    { by destruct (Z.compare_spec (-53) e); try lia. }
    destruct (Z.eqb_spec e (-53)) as [->|He2].
    + simpl Z.compare. cbv iota.
      destruct m1 as [|m1|m1]; try lia. simpl Z.to_pos.
      change (Pos.compare_cont Eq 6305039478318694 m1)
        with (Z.compare 6305039478318694 (Z.pos m1)).
      destruct (Z.compare_spec 6305039478318694 (Z.pos m1));
        destruct (Z.leb_spec 6305039478318694 (Z.pos m1)); (done || lia).
    + by destruct (Z.compare_spec (-53) e); try lia.
  - destruct (Z.ltb_spec e (-53)) as [He1|He1].
    { destruct (Z.compare_spec (-53) (e + 1)) as [Heq| |]; try lia; done. }
    destruct (Z.eqb_spec e (-53)) as [->|He2].
    + simpl. destruct (Z.leb_spec 6305039478318694 m1); [done|lia].
    + by destruct (Z.compare_spec (-53) (e + 1)); try lia.
Qed.

Lemma digits2_pos_le_53 (n : positive) :
  Zpos n < 2 ^ 53 -> Zpos (digits2_pos n) <= 53.
Proof.
  intros Hn. pose proof (digits2_pos_bounds n) as Hd.
  destruct (Z.le_gt_cases (Zpos (digits2_pos n)) 53) as [|Hgt]; [done|].
  assert (2 ^ 53 <= 2 ^ (Zpos (digits2_pos n) - 1))
    by (apply Z.pow_le_mono_r; lia).
  lia.
Qed.

(** The mantissa of [float(n)]: [n] shifted to 53 bits. *)
Lemma scaled_range (n : positive) :
  Zpos n < 2 ^ 53 ->
  2 ^ 52 <= Zpos n * 2 ^ (53 - Zpos (digits2_pos n)) < 2 ^ 53.
Proof.
  intros Hn. pose proof (digits2_pos_bounds n) as Hd.
  pose proof (digits2_pos_le_53 n Hn) as H53.
  set (d := Zpos (digits2_pos n)) in *.
  assert (0 < d) by (unfold d; lia).
  assert (0 < 2 ^ (53 - d)) by (apply Z.pow_pos_nonneg; lia).
  replace (2 ^ 52) with (2 ^ (d - 1) * 2 ^ (53 - d))
    by (rewrite <- Z.pow_add_r by lia; f_equal; lia).
  replace (2 ^ 53) with (2 ^ d * 2 ^ (53 - d))
    by (rewrite <- Z.pow_add_r by lia; f_equal; lia).
  split; [apply Z.mul_le_mono_nonneg_r; lia|apply Z.mul_lt_mono_pos_r; lia].
Qed.

Lemma float_of_int_pos (n : positive) :
  Zpos n < 2 ^ 53 ->
  float_of_int (Zpos n)
  = S754_finite false (Z.to_pos (Zpos n * 2 ^ (53 - Zpos (digits2_pos n))))
      (Zpos (digits2_pos n) - 53).
Proof.
  intros Hn. pose proof (scaled_range n Hn) as Hs.
  pose proof (digits2_pos_le_53 n Hn) as H53.
  unfold float_of_int, binary_normalize, binary_round.
  assert (fexp prec emax (Zpos (digits2_pos n) + 0) = Zpos (digits2_pos n) - 53)
    as -> by (unfold fexp, emin, prec, emax; lia).
  unfold shl_align.
  destruct (Zpos (digits2_pos n) - 53 - 0) as [|k|k] eqn:Hk; [|lia|].
  - assert (Zpos (digits2_pos n) = 53) as Hd by lia. rewrite Hd in *.
    change (2 ^ (53 - 53)) with 1 in *. rewrite Z.mul_1_r in *.
    rewrite round_aux_53 by (done || lia).
    simpl round_nearest_even.
    by destruct (Z.ltb_spec (Zpos n) (2 ^ 53)); [|lia].
  - assert (53 - Zpos (digits2_pos n) = Zpos k) as Hd by lia.
    rewrite Hd in *. rewrite <- iter_xO in *.
    rewrite round_aux_53 by (done || lia).
    simpl round_nearest_even.
    by destruct (Z.ltb_spec (Zpos (Pos.iter xO n k)) (2 ^ 53)); [|lia].
Qed.

(** The division of two 53-bit mantissas, before rounding. *)
Lemma SFdiv_53 (P T : positive) (eP eT : Z) :
  2 ^ 52 <= Zpos P < 2 ^ 53 -> 2 ^ 52 <= Zpos T < 2 ^ 53 ->
  -60 <= eP - eT <= 60 ->
  SFdiv prec emax (S754_finite false P eP) (S754_finite false T eT)
  = binary_round_aux prec emax false (Zpos P * 2 ^ 53 / Zpos T)
      (eP - eT - 53)
      (new_location (Zpos T) ((Zpos P * 2 ^ 53) mod Zpos T)).
Proof.
  intros HP HT Ha. unfold SFdiv, SFdiv_core_binary.
  rewrite (Zdigits2_53 (Zpos P) HP), (Zdigits2_53 (Zpos T) HT).
  assert (Z.min (fexp prec emax (53 + eP - (53 + eT))) (eP - eT)
          = eP - eT - 53) as ->
    by (unfold fexp, emin, prec, emax; lia).
  replace (eP - eT - (eP - eT - 53)) with 53 by lia.
  rewrite Z.shiftl_mul_pow2 by lia.
  unfold Z.div, Z.modulo.
  by destruct (Z.div_eucl (Zpos P * 2 ^ 53) (Zpos T)).
Qed.

(** The test [0.7 <= x / y] on two 53-bit mantissas, exactly: the quotient
    is at least the midpoint below the literal. *)
Lemma leb_div_53 (P T : positive) (eP eT : Z) :
  2 ^ 52 <= Zpos P < 2 ^ 53 -> 2 ^ 52 <= Zpos T < 2 ^ 53 ->
  -54 <= eP - eT <= 0 ->
  SFleb float_0_7
    (SFdiv prec emax (S754_finite false P eP) (S754_finite false T eT)) = true
  <-> 12610078956637387 * Zpos T <= Zpos P * 2 ^ (54 + (eP - eT)).
Proof.
  intros HP HT Ha. rewrite SFdiv_53 by (done || lia).
  set (a := eP - eT) in *.
  set (N := Zpos P * 2 ^ 53).
  set (q := N / Zpos T). set (r := N mod Zpos T).
  assert (N = q * Zpos T + r) as HN.
  { unfold q, r. rewrite (Z.mul_comm _ (Zpos T)). apply Z.div_mod. lia. }
  assert (0 <= r < Zpos T) as Hr by (apply Z.mod_pos_bound; lia).
  pose proof (new_location_locates (Zpos T) r Hr) as Hloc.
  assert (2 ^ (54 + a) <= 2 ^ 52 \/ a = -1 \/ a = 0) as Hpow.
  { destruct (Z.le_gt_cases a (-2)); [left|lia].
    apply Z.pow_le_mono_r; lia. }
  assert (0 <= 2 ^ (54 + a)) by (apply Z.pow_nonneg; lia).
  destruct (Z.lt_ge_cases (Zpos P) (Zpos T)) as [Hlt|Hge].
  - assert (2 ^ 52 <= q < 2 ^ 53) as Hq.
    { unfold q, N. split.
      - apply Z.div_le_lower_bound; lia.
      - apply Z.div_lt_upper_bound; lia. }
    rewrite leb_round_aux_53 by (done || lia).
    destruct (Z.ltb_spec (a - 53) (-53)) as [Hneg|Hnn].
    + split; [done|]. intros Hle. exfalso.
      destruct Hpow as [Hpow|[Ha1|Ha0]]; [|subst a|lia].
      * assert (Zpos P * 2 ^ (54 + a) <= Zpos P * 2 ^ 52)
          by (apply Z.mul_le_mono_nonneg_l; lia). lia.
      * rewrite Ha1 in Hle. change (2 ^ (54 + -1)) with (2 ^ 53) in Hle. lia.
    + assert (a = 0) as Ha0 by lia. rewrite Ha0.
      change (0 - 53 =? -53) with true. cbv iota.
      change (2 ^ (54 + 0)) with (2 * 2 ^ 53).
      rewrite Z.leb_le.
      rewrite (round_nearest_even_ge q r (Zpos T) 6305039478318694)
        by (done || lia).
      rewrite <- HN. unfold N. lia.
  - assert (2 ^ 53 <= q < 2 ^ 54) as Hq.
    { unfold q, N. split.
      - apply Z.div_le_lower_bound; lia.
      - apply Z.div_lt_upper_bound; lia. }
    rewrite round_aux_54 by (done || lia).
    assert (2 ^ 52 <= q / 2 < 2 ^ 53) as Hq2.
    { split; [apply Z.div_le_lower_bound; lia|apply Z.div_lt_upper_bound; lia]. }
    rewrite leb_round_aux_53 by (done || lia).
    destruct (Z.ltb_spec (a - 53 + 1) (-53)) as [Hneg|Hnn].
    + split; [done|]. intros Hle. exfalso.
      destruct Hpow as [Hpow|[Ha1|Ha0]]; [|lia|lia].
      assert (Zpos P * 2 ^ (54 + a) <= Zpos P * 2 ^ 52)
        by (apply Z.mul_le_mono_nonneg_l; lia). lia.
    + destruct (Z.eqb_spec (a - 53 + 1) (-53)) as [Heq|Hne].
      * assert (a = -1) as Ha1 by lia. rewrite Ha1.
        change (2 ^ (54 + -1)) with (2 ^ 53).
        rewrite Z.leb_le.
        rewrite (round_nearest_even_ge (q / 2)
                   (q mod 2 * Zpos T + r) (2 * Zpos T) 6305039478318694);
          [| lia | | by apply shr_1_locates; [lia|done|done] | done].
        2:{ pose proof (Z.mod_pos_bound q 2). nia. }
        assert (q / 2 * (2 * Zpos T) + (q mod 2 * Zpos T + r) = N) as ->.
        { rewrite HN. pose proof (Z.div_mod q 2). nia. }
        unfold N. lia.
      * assert (a = 0) as Ha0 by lia. rewrite Ha0.
        change (2 ^ (54 + 0)) with (2 ^ 54). split; [|done]. intros _. lia.
Qed.

(** The binary64 test [p / t >= 0.7] is the exact comparison of [p / t]
    with 7/10, for a denominator below 2^49. *)
Lemma ratio_ok_exact (p t : Z) :
  0 <= p <= t -> 1 <= t < 2 ^ 49 ->
  ratio_ok p t = (7 * t <=? 10 * p).
Proof.
  intros Hp Ht. unfold ratio_ok, py_truediv.
  assert (t < 2 ^ 53) as Ht53.
  { change (2 ^ 49) with 562949953421312 in Ht.
    change (2 ^ 53) with 9007199254740992. lia. }
  destruct t as [|t|t]; [lia| |lia].
  rewrite (float_of_int_pos t) by lia.
  destruct p as [|p|p]; [| |lia].
  { change (SFleb float_0_7 _) with false.
    by destruct (Z.leb_spec (7 * Z.pos t) (10 * 0)); [lia|]. }
  assert (Zpos p <= Zpos t) as Hpt by lia.
  rewrite (float_of_int_pos p) by lia.
  pose proof (scaled_range p ltac:(lia)) as HP.
  pose proof (scaled_range t ltac:(lia)) as HT.
  pose proof (digits2_pos_bounds p) as Hdp.
  pose proof (digits2_pos_bounds t) as Hdt.
  pose proof (digits2_pos_le_53 t ltac:(lia)) as Hdt53.
  set (dp := Zpos (digits2_pos p)) in *.
  set (dt := Zpos (digits2_pos t)) in *.
  assert (0 < dp) by (unfold dp; lia).
  assert (dp <= dt) as Hd.
  { destruct (Z.le_gt_cases dp dt) as [|Hgt]; [done|].
    assert (2 ^ dt <= 2 ^ (dp - 1)) by (apply Z.pow_le_mono_r; lia). lia. }
  apply eq_iff_eq_true.
  rewrite leb_div_53; rewrite ?Z2Pos.id by lia; try done; [|lia].
  replace (dp - 53 - (dt - 53)) with (dp - dt) by lia.
  rewrite Z.leb_le.
  set (K := 2 ^ (53 - dt)).
  assert (0 < K) by (apply Z.pow_pos_nonneg; lia).
  assert (Zpos p * 2 ^ (53 - dp) * 2 ^ (54 + (dp - dt))
          = Zpos p * 2 ^ 54 * K) as ->.
  { unfold K. rewrite <- !Z.mul_assoc. f_equal.
    rewrite <- !Z.pow_add_r by lia. f_equal. lia. }
  rewrite (Z.mul_assoc _ (Zpos t) K).
  rewrite <- (Z.mul_le_mono_pos_r _ _ K) by done.
  change (2 ^ 49) with 562949953421312 in Ht.
  change (2 ^ 54) with 18014398509481984. lia.
Qed.

Lemma length_list_ascii (nm : string) :
  length (list_ascii_of_string nm) = String.length nm.
Proof. induction nm as [|c nm IH]; simpl; [done|]. by rewrite IH. Qed.

Lemma printable_count_range (nm : string) :
  0 <= printable_count nm <= total_count nm.
Proof.
  unfold printable_count, total_count. rewrite <- length_list_ascii.
  pose proof (length_filter (fun c => name_char_ok c = true)
                (list_ascii_of_string nm)). lia.
Qed.

Lemma is_valid_name_exact (nm : string) :
  total_count nm < name_bound ->
  _is_valid_name nm = true
  <-> nm <> EmptyString /\ 7 * total_count nm <= 10 * printable_count nm.
Proof.
  goal_vars_only.
  intros Hlen. unfold _is_valid_name.
  pose proof (printable_count_range nm) as Hp.
  destruct (decide (nm = EmptyString)) as [->|Hne].
  { rewrite bool_decide_eq_true_2 by done. naive_solver. }
  rewrite bool_decide_eq_false_2 by done.
  assert (1 <= total_count nm).
  { unfold total_count. destruct nm; [done|]. simpl. lia. }
  rewrite ratio_ok_exact; [|done|unfold name_bound in Hlen; lia].
  rewrite andb_true_iff, Z.ltb_lt, Z.leb_le.
  split; [intros [_ Hr]; by split|intros [_ Hr]; split; lia].
Qed.

(** ** Room identification *)

Lemma named_room_Some (o : Z) (r : Room) :
  named_room o = Some r ->
  exists nm, get_object_name o = Ok nm /\ blank nm = false
             /\ _is_valid_name nm = true /\ r = new_room o nm.
Proof.
  unfold named_room. destruct (get_object_name o) as [nm|e]; [|done].
  destruct (blank nm) eqn:Hb; [done|].
  destruct (_is_valid_name nm) eqn:Hv; [|done]. intros [= <-]. by exists nm.
Qed.

Lemma valid_named_room (o : Z) :
  valid_named o <-> exists r, named_room o = Some r.
Proof.
  split.
  - intros (nm & Hnm & Hb & Hv). unfold named_room.
    rewrite Hnm, Hb, Hv. by eexists.
  - intros (r & Hr). apply named_room_Some in Hr as (nm & ? & ? & ? & _).
    by exists nm.
Qed.

Lemma pass2_step_spec (rooms : list (Z * Room)) (o : Z) :
  pass2_step rooms o
  = match classified_as o with
    | Some r => dict_set rooms o r
    | None => rooms
    end.
Proof.
  unfold pass2_step, classified_as, named_room.
  destruct (get_object o) as [[obj|]|e]; [|done..].
  destruct (parent obj =? rooms_container); [|done]. simpl.
  destruct (get_object_name o) as [nm|e]; [|done].
  destruct (blank nm); [done|]. by destruct (_is_valid_name nm).
Qed.

(** What the second pass leaves under a key. *)
Lemma pass2_fold_get (l : list Z) :
  forall (rooms : list (Z * Room)) (o : Z),
    dict_get (fold_left pass2_step l rooms) o
    = match (if bool_decide (o ∈ l) then classified_as o else None) with
      | Some r => Some r
      | None => dict_get rooms o
      end.
Proof.
  induction l as [|x l IH]; intros rooms o.
  - simpl fold_left. rewrite bool_decide_eq_false_2; [done|].
    apply not_elem_of_nil.
  - simpl fold_left. rewrite IH, pass2_step_spec.
    destruct (decide (o ∈ l)) as [Hin|Hin].
    + rewrite !bool_decide_eq_true_2 by (done || by right).
      destruct (classified_as o) as [r|] eqn:Ho; [done|].
      destruct (classified_as x) as [rx|] eqn:Hx; [|done].
      rewrite dict_get_set. destruct (decide (o = x)) as [->|]; [|done].
      congruence.
    + rewrite (bool_decide_eq_false_2 (o ∈ l)) by done.
      destruct (decide (o = x)) as [->|Hne].
      * rewrite bool_decide_eq_true_2 by (by left).
        destruct (classified_as x) as [rx|]; [|done].
        by rewrite dict_get_set, decide_True.
      * rewrite bool_decide_eq_false_2.
        2:{ rewrite elem_of_cons. naive_solver. }
        destruct (classified_as x) as [rx|]; [|done].
        by rewrite dict_get_set, decide_False.
Qed.

(** The second pass changes nothing where its rooms are already written. *)
Lemma pass2_fold_fixed (l : list Z) (rooms : list (Z * Room)) :
  (forall o r, o ∈ l -> classified_as o = Some r -> dict_get rooms o = Some r) ->
  fold_left pass2_step l rooms = rooms.
Proof.
  induction l as [|x l IH]; intros Hall; [done|].
  simpl. rewrite pass2_step_spec.
  destruct (classified_as x) as [rx|] eqn:Hx.
  - rewrite dict_set_same by (apply Hall; [by left|done]).
    apply IH. intros o r Ho. apply Hall. by right.
  - apply IH. intros o r Ho. apply Hall. by right.
Qed.

Lemma dict_get_is_Some_keys {K V : Type} `{EqDecision K} (d : list (K * V))
  (k : K) (v : V) :
  dict_get d k = Some v -> k ∈ dict_keys d.
Proof.
  intros H. apply dict_contains_true. unfold dict_contains. by rewrite H.
Qed.

Lemma dict_keys_get {K V : Type} `{EqDecision K} (d : list (K * V)) (k : K) :
  k ∈ dict_keys d -> exists v, dict_get d k = Some v.
Proof.
  intros H. apply dict_contains_true in H. unfold dict_contains in H.
  destruct (dict_get d k) as [v|]; [by exists v|done].
Qed.

Lemma fallback_scan_spec_step (o : Z) (l : list Z) (rooms : list (Z * Room)) :
  fallback_scan (o :: l) rooms
  = if dict_contains rooms o then fallback_scan l rooms
    else match get_object o with
         | Ok None => rooms
         | Ok (Some _) =>
             match named_room o with
             | Some r => fallback_scan l (dict_set rooms o r)
             | None => fallback_scan l rooms
             end
         | Raise _ => fallback_scan l rooms
         end.
Proof.
  simpl. destruct (dict_contains rooms o); [done|].
  destruct (get_object o) as [[obj|]|e]; [|done..].
  unfold named_room. destruct (get_object_name o) as [nm|e]; [|done].
  destruct (blank nm); [done|]. by destruct (_is_valid_name nm).
Qed.

(** The fallback scan never rewrites an entry. *)
Lemma fallback_scan_get_old (l : list Z) :
  forall (rooms : list (Z * Room)) (o : Z) (r : Room),
    dict_get rooms o = Some r -> dict_get (fallback_scan l rooms) o = Some r.
Proof.
  induction l as [|x l IH]; intros rooms o r Hget; [done|].
  rewrite fallback_scan_spec_step.
  destruct (dict_contains rooms x) eqn:Hc; [by apply IH|].
  destruct (get_object x) as [[obj|]|e]; [|done|by apply IH].
  destruct (named_room x) as [rx|]; [|by apply IH].
  apply IH. rewrite dict_get_set, decide_False; [done|].
  intros ->. unfold dict_contains in Hc. by rewrite Hget in Hc.
Qed.

Lemma fallback_scan_keys_old (l : list Z) (rooms : list (Z * Room)) (o : Z) :
  o ∈ dict_keys rooms -> o ∈ dict_keys (fallback_scan l rooms).
Proof.
  intros H. apply dict_keys_get in H as [r Hr].
  eapply dict_get_is_Some_keys. by apply fallback_scan_get_old.
Qed.

(** A key the fallback scan adds is a scanned object with a valid name. *)
Lemma fallback_scan_keys_new (l : list Z) :
  forall (rooms : list (Z * Room)) (o : Z),
    o ∈ dict_keys (fallback_scan l rooms) ->
    o ∈ dict_keys rooms
    \/ (o ∈ l /\ (exists obj, get_object o = Ok (Some obj)) /\ valid_named o).
Proof.
  induction l as [|x l IH]; intros rooms o; [by left|].
  rewrite fallback_scan_spec_step.
  assert (forall rooms',
             o ∈ dict_keys (fallback_scan l rooms') ->
             (o ∈ dict_keys rooms' -> o ∈ dict_keys rooms
               \/ (o ∈ x :: l /\ (exists obj, get_object o = Ok (Some obj))
                   /\ valid_named o)) ->
             o ∈ dict_keys rooms
             \/ (o ∈ x :: l /\ (exists obj, get_object o = Ok (Some obj))
                 /\ valid_named o)) as Hstep.
  { intros rooms' Hin Hold. apply IH in Hin as [Hin|(Hin & Hobj & Hv)];
      [by apply Hold|]. right. split; [by right|done]. }
  destruct (dict_contains rooms x); [intros H; apply (Hstep rooms H); auto|].
  destruct (get_object x) as [[obj|]|e] eqn:Hobj;
    [|by left|intros H; apply (Hstep rooms H); auto].
  destruct (named_room x) as [rx|] eqn:Hrx;
    [|intros H; apply (Hstep rooms H); auto].
  intros H. apply (Hstep _ H). intros Hk.
  apply dict_keys_set_elem in Hk as [->|Hk]; [|by left].
  right. split; [by left|]. split; [by exists obj|].
  apply valid_named_room. by exists rx.
Qed.



(** A second scan over the same objects changes nothing. *)
Lemma fallback_scan_again (l : list Z) :
  forall rooms rooms2 : list (Z * Room),
    (forall o, o ∈ l ->
               o ∈ dict_keys rooms2 <-> o ∈ dict_keys (fallback_scan l rooms)) ->
    fallback_scan l rooms2 = rooms2.
Proof.
  induction l as [|x l IH]; intros rooms rooms2 Hsame; [done|].
  assert (x ∈ x :: l) as Hx by (by left).
  pose proof (Hsame x Hx) as Hxk.
  assert (forall rooms',
             fallback_scan (x :: l) rooms = fallback_scan l rooms' ->
             fallback_scan l rooms2 = rooms2) as Hnext.
  { intros rooms' Heq. apply (IH rooms'). intros o Ho.
    rewrite <- Heq. apply Hsame. by right. }
  rewrite fallback_scan_spec_step in Hxk, Hnext.
  rewrite (fallback_scan_spec_step x l rooms2).
  destruct (dict_contains rooms x) eqn:Hc.
  { apply dict_contains_true in Hc.
    assert (dict_contains rooms2 x = true) as ->.
    { apply dict_contains_true, Hxk. by apply fallback_scan_keys_old. }
    by apply (Hnext rooms). }
  apply dict_contains_false in Hc.
  destruct (get_object x) as [[obj|]|e] eqn:Hobj.
  - destruct (named_room x) as [rx|] eqn:Hrx.
    + assert (dict_contains rooms2 x = true) as ->.
      { apply dict_contains_true, Hxk, fallback_scan_keys_old.
        apply dict_keys_set_elem. by left. }
      by apply (Hnext (dict_set rooms x rx)).
    + destruct (dict_contains rooms2 x); by apply (Hnext rooms).
  - assert (dict_contains rooms2 x = false) as ->; [|done].
    apply dict_contains_false. by rewrite Hxk.
  - destruct (dict_contains rooms2 x); by apply (Hnext rooms).
Qed.

Lemma elem_of_py_range (a b o : Z) : o ∈ py_range a b <-> a <= o < b.
Proof. unfold py_range. rewrite elem_of_seqZ. lia. Qed.


Lemma classified_as_Some (o : Z) (r : Room) :
  classified_as o = Some r ->
  (exists obj, get_object o = Ok (Some obj) /\ parent obj = rooms_container)
  /\ named_room o = Some r.
Proof.
  unfold classified_as. destruct (get_object o) as [[obj|]|e]; [|done..].
  destruct (Z.eqb_spec (parent obj) rooms_container); [|done].
  intros H. split; [by exists obj|done].
Qed.

(** A room of the second pass is still there, as written, at the end. *)
Lemma find_rooms_get_classified (rooms0 : list (Z * Room)) (o : Z) (r : Room) :
  1 <= o < Z.min max_obj 256 ->
  classified_as o = Some r ->
  dict_get (_find_rooms rooms0) o = Some r.
Proof.
  intros Ho Hc.
  assert (dict_get (pass2 rooms0) o = Some r) as Hget.
  { unfold pass2. rewrite pass2_fold_get.
    rewrite bool_decide_eq_true_2 by (by apply elem_of_py_range).
    by rewrite Hc. }
  unfold _find_rooms. simpl.
  destruct (_ <? 10); [by apply fallback_scan_get_old|done].
Qed.

(** A key of the result was there before, or is an object with a valid
    name. *)
Lemma find_rooms_keys (rooms0 : list (Z * Room)) (o : Z) :
  o ∈ dict_keys (_find_rooms rooms0) ->
  o ∈ dict_keys rooms0
  \/ ((exists obj, get_object o = Ok (Some obj)) /\ valid_named o).
Proof.
  assert (o ∈ dict_keys (pass2 rooms0) ->
          o ∈ dict_keys rooms0
          \/ ((exists obj, get_object o = Ok (Some obj)) /\ valid_named o))
    as Hpass2.
  { intros H. apply dict_keys_get in H as [r Hr].
    unfold pass2 in Hr. rewrite pass2_fold_get in Hr.
    destruct (bool_decide _);
      [destruct (classified_as o) as [r'|] eqn:Hc|];
      try (left; by eapply dict_get_is_Some_keys).
    right. apply classified_as_Some in Hc as [(obj & Hobj & _) Hnr].
    split; [by exists obj|]. apply valid_named_room. by exists r'. }
  unfold _find_rooms. simpl. destruct (_ <? 10); [|done].
  intros H. apply fallback_scan_keys_new in H as [H|(_ & Hobj & Hv)];
    [by apply Hpass2|by right].
Qed.

(** C9. Room identification is idempotent: run a second time, on the rooms
    the first run left in [self.rooms], [_find_rooms] leaves them exactly
    as they are; in particular the set of room identifiers is the same
    after two runs as after one. *)
Theorem find_rooms_idempotent (rooms0 : list (Z * Room)) :
  _find_rooms (_find_rooms rooms0) = _find_rooms rooms0
  /\ (list_to_set (dict_keys (_find_rooms (_find_rooms rooms0))) : gset Z)
     = list_to_set (dict_keys (_find_rooms rooms0)).
Proof.
  assert (_find_rooms (_find_rooms rooms0) = _find_rooms rooms0) as Hidem.
  { assert (pass2 (_find_rooms rooms0) = _find_rooms rooms0) as Hpass2.
    { apply pass2_fold_fixed. intros o r Ho Hc.
      apply find_rooms_get_classified; [|done]. by apply elem_of_py_range. }
    unfold _find_rooms at 1. simpl. rewrite Hpass2.
    destruct (Z.ltb_spec (Z.of_nat (length (_find_rooms rooms0))) 10)
      as [Hfew|Hmany]; [|done].
    unfold _find_rooms in *. simpl in *.
    destruct (Z.ltb_spec (Z.of_nat (length (pass2 rooms0))) 10); [|lia].
    by apply (fallback_scan_again _ (pass2 rooms0)). }
  split; [done|]. by rewrite Hidem.
Qed.

Lemma pass1_step_no_candidate (pc : list (Z * Z)) (o : Z) :
  ~ room_candidate o -> pass1_step pc o = pc.
Proof.
  intros Hno. unfold pass1_step.
  destruct (get_object o) as [[obj|]|e] eqn:Hobj; [|done..].
  destruct (get_object_name o) as [nm|e] eqn:Hnm; [|done].
  destruct (blank nm) eqn:Hb; [done|].
  destruct (_is_valid_name nm) eqn:Hv; [|done]. simpl.
  destruct (_has_exit_properties o) eqn:Hx; [|done].
  destruct Hno. split; [by exists obj|]. split; [by exists nm|done].
Qed.

(** C10, amended. If the first pass finds no room candidate among the
    objects it scans (none has a valid name and more than 3 properties),
    the rooms container is 27, and every object the second pass scans
    (numbered from 1 and below [min(max_obj, 256)]) that has a valid name
    and whose parent is object 27 is a room at the end, under its own
    name. *)
Theorem default_container_27 :
  (forall o, 1 <= o < Z.min max_obj 256 -> ~ room_candidate o) ->
  rooms_container = 27
  /\ forall (rooms0 : list (Z * Room)) (o : Z) (obj : ZObject),
       1 <= o < Z.min max_obj 256 ->
       get_object o = Ok (Some obj) ->
       parent obj = 27 ->
       valid_named o ->
       o ∈ dict_keys (_find_rooms rooms0)
       /\ exists nm, get_object_name o = Ok nm
                     /\ dict_get (_find_rooms rooms0) o = Some (new_room o nm).
Proof.
  intros Hnone.
  assert (rooms_container = 27) as Hc.
  { unfold rooms_container, parent_counts.
    assert (forall l, (forall o, o ∈ l -> ~ room_candidate o) ->
                      fold_left pass1_step l [] = []) as Hfold.
    { induction l as [|x l IH]; intros Hl; [done|]. simpl.
      rewrite pass1_step_no_candidate by (apply Hl; by left).
      apply IH. intros o Ho. apply Hl. by right. }
    rewrite Hfold; [done|]. intros o Ho. apply Hnone.
    by apply elem_of_py_range. }
  split; [done|]. intros rooms0 o obj Ho Hobj Hpar Hv.
  apply valid_named_room in Hv as [r Hr].
  pose proof (named_room_Some _ _ Hr) as (nm & Hnm & _ & _ & ->).
  assert (dict_get (_find_rooms rooms0) o = Some (new_room o nm)) as Hget.
  { apply find_rooms_get_classified; [done|].
    unfold classified_as. rewrite Hobj, Hpar, Hc. simpl. done. }
  split; [by eapply dict_get_is_Some_keys|by exists nm].
Qed.


Lemma objects_scan_new (l : list Z) :
  forall (objs : list GameObject) (g : GameObject),
    g ∈ objects_scan l objs -> g ∈ objs \/ valid_named (go_obj_num g).
Proof.
  induction l as [|x l IH]; intros objs g; [by left|]. simpl.
  destruct (get_object x) as [[obj|]|e]; [|by left|apply IH].
  destruct (get_object_name x) as [nm|e] eqn:Hnm; [|apply IH].
  destruct (blank nm) eqn:Hb; [apply IH|].
  destruct (_is_valid_name nm) eqn:Hv; [|apply IH]. simpl.
  destruct (_ || _); [|apply IH].
  intros H. apply IH in H as [H|H]; [|by right].
  apply elem_of_app in H as [H|H]; [by left|].
  apply list_elem_of_singleton in H as ->. right. by exists nm.
Qed.

(** C6. For a name of fewer than [name_bound] = 2^49 characters (the test
    is made in binary64 arithmetic), [_is_valid_name]
    accepts exactly when the name is not empty and at least 70% of its
    characters are printable and alphanumeric or common punctuation.  A
    name with 40% of such characters is rejected, and an object with such a
    name is classified neither as a room by [_find_rooms] nor as an object
    by [_find_objects], whatever its properties. *)
Theorem garbled_names_rejected (nm : string) :
  total_count nm < name_bound ->
  (_is_valid_name nm = true
   <-> nm <> EmptyString /\ 7 * total_count nm <= 10 * printable_count nm)
  /\ (10 * printable_count nm = 4 * total_count nm ->
      _is_valid_name nm = false
      /\ forall o, get_object_name o = Ok nm ->
           (forall rooms0, o ∈ dict_keys (_find_rooms rooms0) ->
                           o ∈ dict_keys rooms0)
           /\ (forall rooms objs g,
                  g ∈ _find_objects rooms objs -> go_obj_num g = o -> g ∈ objs)).
Proof.
  intros Hlen. split; [by apply is_valid_name_exact|].
  intros H40.
  assert (_is_valid_name nm = false) as Hbad.
  { apply not_true_is_false. intros Hv.
    apply is_valid_name_exact in Hv as [Hne Hratio]; [|done].
    assert (1 <= total_count nm); [|lia].
    unfold total_count. destruct nm; [done|]. simpl. lia. }
  split; [done|]. intros o Hnm.
  assert (~ valid_named o) as Hnv.
  { intros (nm' & Hnm' & _ & Hv). congruence. }
  split.
  - intros rooms0 Hin. by apply find_rooms_keys in Hin as [Hin|[_ Hv]].
  - intros rooms objs g Hg Ho. unfold _find_objects in Hg.
    destruct (dict_keys rooms); [done|].
    apply objects_scan_new in Hg as [Hg|Hv]; [done|]. by rewrite Ho in Hv.
Qed.

(** ** The decoded property table *)

Lemma py_slice_length (a b : Z) :
  0 <= a -> a <= b -> b <= len data ->
  length (py_slice data a b) = Z.to_nat (b - a).
Proof.
  intros Ha Hab Hb. unfold py_slice.
  rewrite length_fmap, length_take, length_drop.
  destruct (Z.ltb_spec a 0); [lia|]. destruct (Z.ltb_spec b 0); [lia|].
  unfold len in *. rewrite !Z.min_l by lia. apply Nat.min_l. lia.
Qed.

Lemma py_slice_bytes (a b : Z) :
  Forall (fun v => 0 <= v < 256) (py_slice data a b).
Proof.
  unfold py_slice. rewrite Forall_fmap. apply Forall_forall.
  intros x _. apply byte_val_range.
Qed.

Lemma land_31_range (v : Z) : 0 <= Z.land v 31 <= 31.
Proof.
  change (Z.land v 31) with (Z.land v (Z.ones 5)). rewrite Z.land_ones by lia.
  change (2 ^ 5) with 32. pose proof (Z.mod_pos_bound v 32). lia.
Qed.

Lemma dict_set_Forall {K V : Type} `{EqDecision K} (P : K * V -> Prop)
  (d : list (K * V)) (k : K) (v : V) :
  Forall P d -> P (k, v) -> Forall P (dict_set d k v).
Proof.
  intros Hd Hkv. induction d as [|[k' v'] d IH]; simpl.
  - by apply Forall_cons_2.
  - apply Forall_cons in Hd as [Hh Ht].
    destruct (decide (k = k')); apply Forall_cons_2; auto.
Qed.

Lemma props_loop_shape (fuel : nat) :
  forall prop_addr props,
    0 <= prop_addr ->
    Forall (fun kv : Z * list Z =>
              0 <= kv.1 <= 31 /\ (1 <= length kv.2 <= 8)%nat
              /\ Forall (fun b => 0 <= b < 256) kv.2) props ->
    Forall (fun kv : Z * list Z =>
              0 <= kv.1 <= 31 /\ (1 <= length kv.2 <= 8)%nat
              /\ Forall (fun b => 0 <= b < 256) kv.2)
      (props_loop fuel prop_addr props).1.
Proof.
  induction fuel as [|fuel IH]; intros a props Ha Hp; simpl; [done|].
  destruct (Z.ltb_spec a (len data - 10)) as [Hlt|]; [|done].
  destruct (py_index data a) as [sb|] eqn:Hsb; [|done].
  destruct (Z.eqb_spec sb 0); [done|].
  pose proof (py_index_range _ _ Hsb) as Hr.
  pose proof (legacy_size_range sb Hr) as Hs.
  destruct (props_loop fuel _ _) as [props' tr] eqn:Hloop. simpl.
  change props' with (props', tr).1. rewrite <- Hloop. apply IH; [lia|].
  apply dict_set_Forall; [done|]. simpl. split; [apply land_31_range|].
  split; [|apply py_slice_bytes].
  rewrite py_slice_length by lia. lia.
Qed.

Lemma get_object_properties_shape (o : Z) :
  Forall (fun kv : Z * list Z =>
            0 <= kv.1 <= 31 /\ (1 <= length kv.2 <= 8)%nat
            /\ Forall (fun b => 0 <= b < 256) kv.2)
    (_get_object_properties o).
Proof.
  unfold _get_object_properties, _get_object_properties_traced.
  destruct (get_object o) as [[obj|]|]; simpl; try by apply Forall_nil_2.
  destruct (Z.leb_spec (len data) (Z.of_N (properties obj)));
    simpl; [by apply Forall_nil_2|].
  destruct (py_index data _) as [tl|] eqn:Htl; simpl; [|by apply Forall_nil_2].
  pose proof (py_index_range _ _ Htl).
  destruct (props_loop _ _ _) as [props tr] eqn:Hloop. simpl.
  change props with (props, tr).1. rewrite <- Hloop.
  apply props_loop_shape; [lia|by apply Forall_nil_2].
Qed.

(** X1.  The table decoded for an object is a dictionary of at most 32
    entries: its keys are pairwise distinct property numbers in 0..31
    (number 0 is possible: a size byte 32, 64, ... is not the terminator),
    and every value holds between 1 and 8 bytes of the image. *)
Theorem decoded_table_shape (o : Z) :
  dict_wf (_get_object_properties o)
  /\ (length (_get_object_properties o) <= 32)%nat
  /\ forall p v,
       dict_get (_get_object_properties o) p = Some v ->
       0 <= p <= 31 /\ (1 <= length v <= 8)%nat
       /\ Forall (fun b => 0 <= b < 256) v.
Proof.
  pose proof (get_object_properties_wf o) as Hwf.
  pose proof (get_object_properties_shape o) as Hsh.
  rewrite Forall_forall in Hsh.
  split; [done|]. split.
  - rewrite <- (length_fmap fst).
    transitivity (length (seqZ 0 32)); [|by rewrite length_seqZ].
    apply submseteq_length, NoDup_submseteq; [exact Hwf|].
    intros p Hp. apply list_elem_of_fmap in Hp as ([p' v] & -> & Hin).
    apply Hsh in Hin. simpl in *. apply elem_of_seqZ. lia.
  - intros p v Hget. apply dict_get_elem_of in Hget. by apply Hsh in Hget.
Qed.

(** X2.  Every exit property is a property number between 13 and 31, so
    a run works with at most 19 of them, whatever the rooms are. *)
Theorem exit_properties_range (room_objs : gset Z) (rooms : list (Z * Room)) :
  (forall p, p ∈ _find_exit_properties room_objs rooms -> 13 <= p <= 31)
  /\ (size (_find_exit_properties room_objs rooms) <= 19)%nat.
Proof.
  assert (Hr : forall p, p ∈ _find_exit_properties room_objs rooms ->
                         13 <= p <= 31).
  { intros p Hp. apply find_exit_properties_spec in Hp
      as (Hge & room_num & prop_data & b & _ & Hget & _).
    apply dict_get_elem_of in Hget.
    pose proof (get_object_properties_shape room_num) as Hsh.
    rewrite Forall_forall in Hsh. apply Hsh in Hget. simpl in Hget. lia. }
  split; [exact Hr|].
  transitivity (size (list_to_set (C := gset Z) (seqZ 13 19))).
  - apply subseteq_size. intros p Hp. apply elem_of_list_to_set, elem_of_seqZ.
    apply Hr in Hp. lia.
  - rewrite size_list_to_set by apply NoDup_seqZ. by rewrite length_seqZ.
Qed.

(** ** The two property walks of the room scans against the decoder *)

Lemma read_byte_py_index (a : Z) : 0 <= a -> read_byte data a = py_index data a.
Proof.
  intros Ha. unfold read_byte, py_index.
  destruct (Z.ltb_spec a 0); [lia|done].
Qed.

Lemma has_property_loop_decoded (fuel : nat) :
  forall prop_addr props p,
    version <= 3 -> 0 <= prop_addr ->
    p ∈ dict_keys (props_loop fuel prop_addr props).1 ->
    p ∈ dict_keys props \/ (has_property_loop fuel prop_addr p).1 = true.
Proof.
  induction fuel as [|fuel IH]; intros a props p Hv Ha; simpl; [by left|].
  destruct (Z.ltb_spec a (len data - 10)) as [Hlt|]; [|by left].
  destruct (Z.ltb_spec a (len data)); [|lia].
  rewrite read_byte_py_index by done.
  destruct (py_index data a) as [sb|] eqn:Hsb; [|by left].
  destruct (Z.eqb_spec sb 0); [by left|].
  destruct (Z.leb_spec version 3); [|lia].
  pose proof (py_index_range _ _ Hsb) as Hr.
  pose proof (legacy_size_range sb Hr) as Hs.
  destruct (props_loop fuel _ _) as [props' tr] eqn:Hloop. simpl.
  intros Hin.
  destruct (Z.eqb_spec (Z.land sb 31) p) as [Heq|Hne]; [by right|].
  destruct (has_property_loop fuel _ p) as [r tr'] eqn:Hhas. simpl.
  specialize (IH (a + (1 + (Z.shiftr sb 5 + 1)))
                (dict_set props (Z.land sb 31)
                   (py_slice data (a + 1) (a + 1 + (Z.shiftr sb 5 + 1)))) p Hv).
  rewrite Hloop, Hhas in IH. simpl in IH.
  destruct IH as [Hk|Ht]; [lia|done| |by right].
  apply dict_keys_set_elem in Hk as [->|Hk]; [done|by left].
Qed.

(** X3.  On a version 1-3 image the membership test agrees with the
    decoder: a property the decoder lists for an object is a property
    [_has_property] finds on it. *)
Theorem decoded_property_is_found (o p : Z) (v : list Z) :
  version <= 3 ->
  dict_get (_get_object_properties o) p = Some v ->
  _has_property o p = true.
Proof.
  intros Hv Hget. apply dict_get_is_Some_keys in Hget. revert Hget.
  unfold _get_object_properties, _get_object_properties_traced,
    _has_property, _has_property_traced.
  destruct (get_object o) as [[obj|]|]; simpl;
    try (intros H; by apply elem_of_nil in H).
  destruct (Z.leb_spec (len data) (Z.of_N (properties obj))); simpl;
    [intros H'; by apply elem_of_nil in H'|].
  rewrite read_byte_py_index by lia.
  destruct (py_index data _) as [tl|] eqn:Htl; simpl;
    [|intros H'; by apply elem_of_nil in H'].
  pose proof (py_index_range _ _ Htl).
  pose proof (has_property_loop_decoded (length data)
                (Z.of_N (properties obj) + (1 + tl * 2)) [] p Hv) as Hl.
  destruct (props_loop _ _ _) as [props tr].
  destruct (has_property_loop _ _ _) as [r tr']. simpl in *.
  intros Hin. destruct Hl as [Hk|Ht]; [lia|done| |done].
  by apply elem_of_nil in Hk.
Qed.

Lemma dict_set_length {K V : Type} `{EqDecision K} (d : list (K * V))
  (k : K) (v : V) :
  (length (dict_set d k v) <= S (length d))%nat.
Proof.
  induction d as [|[k' v'] d IH]; simpl; [lia|].
  destruct (decide (k = k')); simpl; lia.
Qed.

Lemma exit_properties_loop_decoded (fuel : nat) :
  forall prop_addr props c,
    version <= 3 -> 0 <= prop_addr -> c <= 3 ->
    3 < Z.of_nat (length (props_loop fuel prop_addr props).1)
        - Z.of_nat (length props) + c ->
    exit_properties_loop fuel prop_addr c = true.
Proof.
  induction fuel as [|fuel IH]; intros a props c Hv Ha Hc; simpl; [lia|].
  destruct (Z.ltb_spec a (len data - 10)) as [Hlt|]; [|simpl; lia].
  destruct (Z.ltb_spec a (len data)); [|lia].
  rewrite read_byte_py_index by done.
  destruct (py_index data a) as [sb|] eqn:Hsb; [|simpl; lia].
  destruct (Z.eqb_spec sb 0); [simpl; lia|].
  destruct (Z.leb_spec version 3); [|lia].
  pose proof (py_index_range _ _ Hsb) as Hr.
  pose proof (legacy_size_range sb Hr) as Hs.
  destruct (props_loop fuel _ _) as [props' tr] eqn:Hloop. simpl.
  intros Hlen.
  destruct (Z.ltb_spec 3 (c + 1)); [done|].
  apply (IH _ (dict_set props (Z.land sb 31)
                 (py_slice data (a + 1) (a + 1 + (Z.shiftr sb 5 + 1)))));
    [done|lia|lia|].
  rewrite Hloop. simpl.
  pose proof (dict_set_length props (Z.land sb 31)
                (py_slice data (a + 1) (a + 1 + (Z.shiftr sb 5 + 1)))).
  lia.
Qed.

(** X4.  On a version 1-3 image an object for which the decoder lists
    four properties or more passes the more-than-three-properties test
    of the room scan. *)
Theorem four_decoded_properties_suffice (o : Z) :
  version <= 3 ->
  (4 <= length (_get_object_properties o))%nat ->
  _has_exit_properties o = true.
Proof.
  intros Hv. unfold _get_object_properties, _get_object_properties_traced,
    _has_exit_properties.
  destruct (get_object o) as [[obj|]|]; simpl; try lia.
  destruct (Z.leb_spec (len data) (Z.of_N (properties obj))); simpl; [lia|].
  rewrite read_byte_py_index by lia.
  destruct (py_index data _) as [tl|] eqn:Htl; simpl; [|lia].
  pose proof (py_index_range _ _ Htl).
  pose proof (exit_properties_loop_decoded (length data)
                (Z.of_N (properties obj) + (1 + tl * 2)) [] 0 Hv) as Hl.
  destruct (props_loop _ _ _) as [props tr]. simpl in *.
  intros Hlen. apply Hl; lia.
Qed.

(** ** Exits: where they lead, which labels get bound, a second run *)

Lemma yielded_Some (room_objs : gset Z) (prop_to_word : list (Z * string))
  (room_num p : Z) (w : string) (d : Z) :
  yielded room_objs prop_to_word room_num p = Some (w, d) ->
  w = exit_label prop_to_word p /\ d ∈ room_objs /\ d <> room_num
  /\ exists prop_data,
       dict_get (_get_object_properties room_num) p = Some prop_data
       /\ d ∈ prop_data.
Proof.
  unfold yielded.
  destruct (dict_get _ p) as [pd|] eqn:Hpd; [|done].
  destruct (_extract_room_refs_from_property room_objs pd room_num)
    as [|d' rest] eqn:Hrefs; [done|].
  intros [= <- <-]. split; [done|].
  assert (d' ∈ _extract_room_refs_from_property room_objs pd room_num) as Hin
    by (rewrite Hrefs; left).
  rewrite extract_room_refs_spec, elem_of_distinct_in_order,
    list_elem_of_filter, other_room_true in Hin.
  destruct Hin as [[Hro Hne] Hpdin].
  split; [done|]. split; [done|]. by exists pd.
Qed.

Lemma yielded_offer (room_objs : gset Z) (prop_to_word : list (Z * string))
  (room_num p : Z) (prop_data : list Z) (b : Z) :
  dict_get (_get_object_properties room_num) p = Some prop_data ->
  b ∈ prop_data -> b ∈ room_objs -> b <> room_num ->
  exists d,
    yielded room_objs prop_to_word room_num p
    = Some (exit_label prop_to_word p, d).
Proof.
  intros Hget Hb Hro Hne. unfold yielded. rewrite Hget.
  destruct (_extract_room_refs_from_property room_objs prop_data room_num)
    as [|d rest] eqn:Hrefs; [|by exists d].
  assert (b ∈ _extract_room_refs_from_property room_objs prop_data room_num)
    as Hin.
  { rewrite extract_room_refs_spec, elem_of_distinct_in_order,
      list_elem_of_filter, other_room_true. done. }
  rewrite Hrefs in Hin. by apply elem_of_nil in Hin.
Qed.

Lemma yielded_head (room_objs : gset Z) (prop_to_word : list (Z * string))
  (room_num p : Z) :
  snd <$> yielded room_objs prop_to_word room_num p
  = match dict_get (_get_object_properties room_num) p with
    | None => None
    | Some prop_data =>
        head (_extract_room_refs_from_property room_objs prop_data room_num)
    end.
Proof.
  unfold yielded. destruct (dict_get _ p) as [pd|]; [|done].
  by destruct (_extract_room_refs_from_property room_objs pd room_num).
Qed.

Lemma candidates_get (room_objs : gset Z) (prop_to_word : list (Z * string))
  (room_num : Z) (ps : list Z) (w : string) (d : Z) :
  dict_get (omap (yielded room_objs prop_to_word room_num) ps) w = Some d ->
  exists p, p ∈ ps /\ yielded room_objs prop_to_word room_num p = Some (w, d).
Proof.
  intros H. apply dict_get_elem_of in H. by apply list_elem_of_omap in H.
Qed.

Lemma exit_steps_keys_old (room_objs : gset Z)
  (prop_to_word : list (Z * string)) (room_num : Z) (ps : list Z)
  (e : list (string * Z)) (n : Z) (w : string) :
  w ∈ dict_keys e ->
  w ∈ dict_keys (fold_left (exit_step room_objs prop_to_word room_num
                              (_get_object_properties room_num)) ps (e, n)).1.
Proof.
  intros Hw.
  destruct (exit_steps_spec room_objs prop_to_word room_num ps e n)
    as (added & -> & _).
  simpl. rewrite dict_keys_app. apply elem_of_app. by left.
Qed.

(** A label offered during the loop is a key when the loop ends. *)
Lemma exit_steps_bind (room_objs : gset Z) (prop_to_word : list (Z * string))
  (room_num : Z) (ps : list Z) :
  forall (e : list (string * Z)) (n p : Z) (w : string) (d : Z),
    p ∈ ps ->
    yielded room_objs prop_to_word room_num p = Some (w, d) ->
    w ∈ dict_keys (fold_left (exit_step room_objs prop_to_word room_num
                                (_get_object_properties room_num)) ps (e, n)).1.
Proof.
  induction ps as [|q ps IH]; intros e n p w d Hp Hy;
    [by apply elem_of_nil in Hp|].
  simpl fold_left. rewrite exit_step_spec.
  apply elem_of_cons in Hp as [->|Hp].
  - rewrite Hy. destruct (dict_contains e w) eqn:E.
    + apply exit_steps_keys_old. by apply dict_contains_true.
    + apply exit_steps_keys_old. rewrite dict_keys_app. apply elem_of_app.
      right. simpl. left.
  - destruct (yielded room_objs prop_to_word room_num q) as [[w' d']|];
      [|by eapply IH].
    destruct (dict_contains e w'); by eapply IH.
Qed.

(** When every offered label is a key already, the loop changes nothing. *)
Lemma exit_steps_fixed (room_objs : gset Z) (prop_to_word : list (Z * string))
  (room_num : Z) (ps : list Z) (e : list (string * Z)) (n : Z) :
  (forall p w d, p ∈ ps ->
                 yielded room_objs prop_to_word room_num p = Some (w, d) ->
                 w ∈ dict_keys e) ->
  fold_left (exit_step room_objs prop_to_word room_num
               (_get_object_properties room_num)) ps (e, n) = (e, n).
Proof.
  induction ps as [|q ps IH]; intros H; [done|].
  simpl fold_left. rewrite exit_step_spec.
  assert (forall p w d, p ∈ ps ->
            yielded room_objs prop_to_word room_num p = Some (w, d) ->
            w ∈ dict_keys e) as Hps.
  { intros p w d Hp. apply H. by right. }
  destruct (yielded room_objs prop_to_word room_num q) as [[w d]|] eqn:Hy;
    [|by apply IH].
  assert (dict_contains e w = true) as ->
    by (apply dict_contains_true; eapply H; [left|exact Hy]).
  by apply IH.
Qed.

Lemma rooms_loop_each (room_objs exit_props : gset Z)
  (prop_to_word : list (Z * string)) (rooms : list (Z * Room)) :
  forall (total : Z) (rooms' : list (Z * Room)) (total' : Z),
    rooms_loop room_objs exit_props prop_to_word rooms total = (rooms', total') ->
    Forall2 (fun r r' =>
               r'.1 = r.1
               /\ exists n,
                    r'.2 = with_exits r.2
                             (room_exits room_objs exit_props prop_to_word r.1
                                (exits r.2, n)).1)
      rooms rooms'.
Proof.
  induction rooms as [|[room_num room] rooms IH]; intros total rooms' total';
    simpl.
  - intros [= <- <-]. constructor.
  - destruct (room_exits room_objs exit_props prop_to_word room_num
                (exits room, total)) as [e t] eqn:He.
    destruct (rooms_loop room_objs exit_props prop_to_word rooms t)
      as [rest' t'] eqn:Hrest.
    intros [= <- <-]. constructor; [|by eapply IH].
    split; [done|]. exists total. simpl. by rewrite He.
Qed.

Lemma rooms_loop_fixed (room_objs exit_props : gset Z)
  (prop_to_word : list (Z * string)) (rooms : list (Z * Room)) :
  Forall (fun r : Z * Room =>
            forall p w d,
              p ∈ set_iter exit_props ->
              yielded room_objs prop_to_word r.1 p = Some (w, d) ->
              w ∈ dict_keys (exits r.2)) rooms ->
  forall total,
    rooms_loop room_objs exit_props prop_to_word rooms total = (rooms, total).
Proof.
  induction 1 as [|[room_num room] rooms Hr Hall IH]; intros total; simpl;
    [done|].
  unfold room_exits. rewrite exit_steps_fixed by exact Hr. rewrite IH.
  by destruct room.
Qed.

Lemma Forall2_keys (P : Z * Room -> Z * Room -> Prop)
  (rooms rooms' : list (Z * Room)) :
  (forall r r', P r r' -> r'.1 = r.1) ->
  Forall2 P rooms rooms' -> dict_keys rooms' = dict_keys rooms.
Proof.
  intros HP. induction 1 as [|r r' rooms rooms' Hr Hall IH]; [done|].
  unfold dict_keys in *. rewrite !fmap_cons, IH. f_equal. by apply HP.
Qed.

Lemma Forall2_right {A B : Type} (P : A -> B -> Prop) (Q : B -> Prop)
  (l : list A) (k : list B) :
  (forall x y, P x y -> Q y) -> Forall2 P l k -> Forall Q k.
Proof.
  intros HPQ. induction 1 as [|x y l k Hxy _ IH]; [by apply Forall_nil_2|].
  apply Forall_cons_2; [by eapply HPQ|exact IH].
Qed.

(** What a run that returns did to the rooms. *)
Lemma extract_exits_extended (rooms rooms' : list (Z * Room)) (total : Z) :
  extract_exits rooms = Ok (rooms', total) ->
  exists prop_to_word,
    Forall2 (exits_extended (list_to_set (dict_keys rooms))
               (_find_exit_properties (list_to_set (dict_keys rooms)) rooms)
               prop_to_word) rooms rooms'.
Proof.
  intros Hrun.
  destruct (extract_exits_cases rooms) as [[_ Hret]|(_ & _ & Hret)];
    rewrite Hret in Hrun.
  - injection Hrun as <- <-. exists []. apply exits_extended_refl.
  - destruct _get_property_to_word_mapping as [m|e]; [|done].
    simpl in Hrun. injection Hrun as Hrun.
    exists (filter
              (fun pw => pw.1 ∈ _find_exit_properties
                                  (list_to_set (dict_keys rooms)) rooms) m).
    by apply rooms_loop_spec in Hrun as [Hall _].
Qed.

(** An exit of a room after the extraction is an exit it had, or leads
    to another room, read from one of the room's property values. *)
Lemma exits_extended_dest (room_objs exit_props : gset Z)
  (prop_to_word : list (Z * string)) (r r' : Z * Room) :
  exits_extended room_objs exit_props prop_to_word r r' ->
  forall w d,
    dict_get (exits r'.2) w = Some d ->
    dict_get (exits r.2) w = Some d
    \/ (dict_get (exits r.2) w = None
        /\ d ∈ room_objs /\ d <> r.1
        /\ exists p prop_data,
             dict_get (_get_object_properties r.1) p = Some prop_data
             /\ d ∈ prop_data).
Proof.
  intros (Hk & added & Hr' & _ & Hin & _) w d. rewrite Hr'. simpl.
  rewrite dict_get_app.
  destruct (dict_get (exits r.2) w) as [d0|]; [by left|].
  intros Hget. right. split; [done|].
  apply dict_get_elem_of, Hin in Hget as [_ Hget].
  apply candidates_get in Hget as (p & _ & Hy).
  apply yielded_Some in Hy as (_ & Hro & Hne & pd & Hpd & Hd).
  split; [done|]. split; [done|]. by exists p, pd.
Qed.

(** X5.  An exit that [extract_exits] adds to a room leads to a room of
    the map other than the room itself, and its destination is a byte of
    one of that room's own property values: the extraction makes no
    self-loop and no exit to an object that is not a room; every other
    exit of the room was there before, with the same destination. *)
Theorem new_exits_lead_to_other_rooms (rooms rooms' : list (Z * Room))
  (total : Z) :
  extract_exits rooms = Ok (rooms', total) ->
  Forall2 (fun r r' =>
             r'.1 = r.1
             /\ forall w d,
                  dict_get (exits r'.2) w = Some d ->
                  dict_get (exits r.2) w = Some d
                  \/ (dict_get (exits r.2) w = None
                      /\ d ∈ dict_keys rooms /\ d <> r.1
                      /\ exists p prop_data,
                           dict_get (_get_object_properties r.1) p
                           = Some prop_data
                           /\ d ∈ prop_data))
    rooms rooms'.
Proof.
  intros Hrun. destruct (extract_exits_extended _ _ _ Hrun) as [ptw Hext].
  eapply Forall2_impl; [exact Hext|].
  intros r r' Hr. split; [by destruct Hr|].
  intros w d Hget. apply (exits_extended_dest _ _ _ _ _ Hr) in Hget.
  by setoid_rewrite (elem_of_list_to_set (C := gset Z)) in Hget.
Qed.

(** X6.  After a run, on every room, each exit property the loop visits
    that the room holds with another room's number among its bytes has
    its label among the room's exits: either the run bound it, or it was
    bound before. *)
Theorem offered_labels_are_bound (rooms rooms' : list (Z * Room)) (total : Z)
  (m : list (Z * string)) :
  extract_exits rooms = Ok (rooms', total) ->
  _get_property_to_word_mapping = Ok m ->
  let room_objs : gset Z := list_to_set (dict_keys rooms) in
  let exit_props := _find_exit_properties room_objs rooms in
  Forall2 (fun r r' =>
             forall p prop_data b,
               p ∈ exit_props -> p ∈ set_iter exit_props ->
               dict_get (_get_object_properties r.1) p = Some prop_data ->
               b ∈ prop_data -> b ∈ dict_keys rooms -> b <> r.1 ->
               exit_label (filter (fun pw => pw.1 ∈ exit_props) m) p
                 ∈ dict_keys (exits r'.2))
    rooms rooms'.
Proof.
  intros Hrun Hm room_objs exit_props.
  destruct (extract_exits_cases rooms) as [[Hempty Hret]|(_ & _ & Hret)];
    rewrite Hret in Hrun.
  - injection Hrun as <- <-.
    apply Forall2_same_length_lookup_2; [done|].
    intros i r r' _ _ p pd b Hp _ _ _ Hb _. exfalso.
    destruct Hempty as [He|He].
    + apply (elem_of_list_to_set (C := gset Z)) in Hb.
      rewrite He in Hb. by apply elem_of_empty in Hb.
    + fold room_objs in He. fold exit_props in He. rewrite He in Hp.
      by apply elem_of_empty in Hp.
  - rewrite Hm in Hrun. simpl in Hrun. injection Hrun as Hrun.
    apply rooms_loop_each in Hrun.
    eapply Forall2_impl; [exact Hrun|].
    intros r r' (_ & n & ->) p pd b _ Hp Hget Hb Hro Hne. simpl.
    apply (elem_of_list_to_set (C := gset Z)) in Hro.
    destruct (yielded_offer (list_to_set (dict_keys rooms))
                (filter (fun pw => pw.1 ∈ exit_props) m) r.1 p pd b
                Hget Hb Hro Hne) as [d Hy].
    unfold room_exits. eapply exit_steps_bind; [exact Hp|exact Hy].
Qed.

(** X7.  [extract_exits] is idempotent: run again on the rooms a first
    run left, it leaves them as they are and reports no new exit. *)
Theorem extract_exits_idempotent (rooms rooms' : list (Z * Room)) (total : Z) :
  extract_exits rooms = Ok (rooms', total) ->
  extract_exits rooms' = Ok (rooms', 0).
Proof.
  intros Hrun.
  destruct (extract_exits_cases rooms) as [[_ Hret]|(Hro & Hep & Hret)];
    rewrite Hret in Hrun.
  { injection Hrun as <- <-. exact Hret. }
  destruct _get_property_to_word_mapping as [m|e] eqn:Hm; [|done].
  simpl in Hrun. injection Hrun as Hrun.
  pose proof (rooms_loop_each _ _ _ _ _ _ _ Hrun) as Heach.
  assert (dict_keys rooms' = dict_keys rooms) as Hkeys.
  { eapply Forall2_keys; [|exact Heach]. by intros r r' [? _]. }
  unfold extract_exits.
  assert (_find_exit_properties (list_to_set (dict_keys rooms')) rooms'
          = _find_exit_properties (list_to_set (dict_keys rooms)) rooms)
    as -> by (unfold _find_exit_properties; by rewrite Hkeys).
  rewrite Hkeys, (bool_decide_eq_false_2 _ Hro), (bool_decide_eq_false_2 _ Hep),
    Hm.
  simpl. f_equal. apply rooms_loop_fixed.
  eapply Forall2_right; [|exact Heach].
  intros r r' (Hk & n & ->). rewrite Hk. simpl.
  intros p w d Hp Hy. unfold room_exits.
  eapply exit_steps_bind; [exact Hp|exact Hy].
Qed.

(** X8.  Without dictionary hints (the mapping is empty), a room that
    had no exit ends with the exit [p<N>] for each exit property [N] the
    loop visits, bound to the first room reference read from the room's
    value of [N], and unbound when the room has no such value or the
    value holds no reference. *)
Theorem synthetic_labels_without_hints (rooms rooms' : list (Z * Room))
  (total : Z) :
  _get_property_to_word_mapping = Ok [] ->
  extract_exits rooms = Ok (rooms', total) ->
  let room_objs : gset Z := list_to_set (dict_keys rooms) in
  let exit_props := _find_exit_properties room_objs rooms in
  Forall2 (fun r r' =>
             exits r.2 = [] ->
             forall p,
               p ∈ exit_props -> p ∈ set_iter exit_props ->
               dict_get (exits r'.2) ("p" +:+ pretty p)
               = match dict_get (_get_object_properties r.1) p with
                 | None => None
                 | Some prop_data =>
                     head (_extract_room_refs_from_property room_objs
                             prop_data r.1)
                 end)
    rooms rooms'.
Proof.
  intros Hm Hrun room_objs exit_props.
  destruct (extract_exits_cases rooms) as [[Hempty Hret]|(_ & _ & Hret)];
    rewrite Hret in Hrun.
  - injection Hrun as <- <-.
    apply Forall2_same_length_lookup_2; [done|].
    intros i r r' Hr Hr'. assert (r' = r) as -> by congruence.
    intros -> p Hp _. simpl. rewrite <- yielded_head with (prop_to_word := []).
    destruct (yielded room_objs [] r.1 p) as [[w d]|] eqn:Hy; [|done].
    exfalso. destruct Hempty as [He|He].
    + apply yielded_Some in Hy as (_ & Hro & _).
      fold room_objs in He. rewrite He in Hro. by apply elem_of_empty in Hro.
    + fold room_objs in He. fold exit_props in He. rewrite He in Hp.
      by apply elem_of_empty in Hp.
  - rewrite Hm in Hrun. simpl in Hrun. injection Hrun as Hrun.
    rewrite filter_nil in Hrun.
    apply rooms_loop_each in Hrun.
    eapply Forall2_impl; [exact Hrun|].
    intros r r' (_ & n & ->) He p _ Hp. simpl.
    rewrite <- yielded_head with (prop_to_word := []).
    fold room_objs. fold exit_props. unfold room_exits. rewrite He.
    pose proof (exit_steps_bind room_objs [] r.1 (set_iter exit_props) [] n p)
      as Hbind.
    destruct (exit_steps_spec room_objs [] r.1 (set_iter exit_props) [] n)
      as (added & Heq & _ & Hin & _).
    rewrite Heq in Hbind |- *. simpl in Hbind |- *.
    assert (forall d', dict_get added ("p" +:+ pretty p) = Some d' ->
                       yielded room_objs [] r.1 p
                       = Some ("p" +:+ pretty p, d')) as Hback.
    { intros d' Hget. apply dict_get_elem_of, Hin in Hget as [_ Hget].
      apply candidates_get in Hget as (q & _ & Hy).
      pose proof (yielded_Some _ _ _ _ _ _ Hy) as (Hw & _).
      unfold exit_label in Hw. simpl in Hw. injection Hw as Hw.
      change (pretty p = pretty q) in Hw.
      apply (inj (pretty : Z -> string)) in Hw. by subst q. }
    destruct (yielded room_objs [] r.1 p) as [[w d]|] eqn:Hy.
    + pose proof (yielded_Some _ _ _ _ _ _ Hy) as (Hw & _).
      unfold exit_label in Hw. simpl in Hw. subst w.
      specialize (Hbind _ _ Hp eq_refl).
      apply dict_keys_get in Hbind as [d' Hget].
      rewrite Hget. apply Hback in Hget. by injection Hget as ->.
    + simpl. destruct (dict_get added _) as [d'|]; [|done].
      by specialize (Hback _ eq_refl).
Qed.


(** ** The rooms [_find_rooms] leaves *)

Lemma pass2_fold_wf (l : list Z) :
  forall rooms : list (Z * Room),
    dict_wf rooms -> dict_wf (fold_left pass2_step l rooms).
Proof.
  induction l as [|x l IH]; intros rooms Hwf; [done|]. simpl. apply IH.
  rewrite pass2_step_spec. destruct (classified_as x); [|done].
  by apply dict_wf_set.
Qed.

Lemma fallback_scan_wf (l : list Z) :
  forall rooms : list (Z * Room),
    dict_wf rooms -> dict_wf (fallback_scan l rooms).
Proof.
  induction l as [|x l IH]; intros rooms Hwf; [done|].
  rewrite fallback_scan_spec_step.
  destruct (dict_contains rooms x); [by apply IH|].
  destruct (get_object x) as [[obj|]|e]; [|done|by apply IH].
  destruct (named_room x) as [rx|]; [|by apply IH].
  by apply IH, dict_wf_set.
Qed.

(** An entry after the fallback scan was there before, or is the room
    built from the name of a scanned object. *)
Lemma fallback_scan_get (l : list Z) :
  forall (rooms : list (Z * Room)) (o : Z) (r : Room),
    dict_get (fallback_scan l rooms) o = Some r ->
    dict_get rooms o = Some r
    \/ (o ∈ l /\ (exists obj, get_object o = Ok (Some obj))
        /\ named_room o = Some r).
Proof.
  induction l as [|x l IH]; intros rooms o r; [by left|].
  rewrite fallback_scan_spec_step.
  assert (forall rooms1,
             dict_get (fallback_scan l rooms1) o = Some r ->
             dict_get rooms1 o = Some r
             \/ (o ∈ x :: l /\ (exists obj, get_object o = Ok (Some obj))
                 /\ named_room o = Some r)) as IH'.
  { intros rooms1 H. apply IH in H as [H|(Hin & Hobj & Hnr)]; [by left|].
    right. split; [by right|done]. }
  destruct (dict_contains rooms x); [by apply IH'|].
  destruct (get_object x) as [[obj|]|e] eqn:Hobj; [|by left|by apply IH'].
  destruct (named_room x) as [rx|] eqn:Hnr; [|by apply IH'].
  intros H. apply IH' in H as [H|H]; [|by right].
  rewrite dict_get_set in H.
  destruct (decide (o = x)) as [->|Hne]; [|by left].
  injection H as <-. right. split; [by left|]. split; [by exists obj|done].
Qed.

Lemma find_rooms_wf (rooms0 : list (Z * Room)) :
  dict_wf rooms0 -> dict_wf (_find_rooms rooms0).
Proof.
  intros Hwf. unfold _find_rooms. simpl.
  destruct (_ <? 10); [apply fallback_scan_wf|]; by apply pass2_fold_wf.
Qed.

(** A room of a run started on an empty map is the room built from the
    parser's name of its object. *)
Lemma fresh_rooms_named (o : Z) (r : Room) :
  dict_get (_find_rooms []) o = Some r -> named_room o = Some r.
Proof.
  assert (dict_get (pass2 []) o = Some r -> named_room o = Some r) as Hpass2.
  { unfold pass2. rewrite pass2_fold_get.
    case_bool_decide as Hin; [|done].
    destruct (classified_as o) as [r'|] eqn:Hc; [|done].
    intros [= ->]. by apply classified_as_Some in Hc as [_ Hnr]. }
  unfold _find_rooms. simpl. destruct (_ <? 10); [|done].
  intros H. apply fallback_scan_get in H as [H|(_ & _ & Hnr)]; [auto|done].
Qed.

(** X10.  [_find_rooms] keeps what [self.rooms] held: no key is removed
    and keys stay distinct.  An entry it leaves is an entry it found, or
    the fresh room (no exits, no objects) built from the parser's name of
    an existing object numbered from 1 to 299 whose name passes the name
    tests. *)
Theorem find_rooms_entries (rooms0 : list (Z * Room)) :
  (dict_wf rooms0 -> dict_wf (_find_rooms rooms0))
  /\ (forall o, o ∈ dict_keys rooms0 -> o ∈ dict_keys (_find_rooms rooms0))
  /\ forall o r,
       dict_get (_find_rooms rooms0) o = Some r ->
       dict_get rooms0 o = Some r
       \/ (1 <= o < Z.min max_obj 300
           /\ (exists obj, get_object o = Ok (Some obj))
           /\ exists nm, get_object_name o = Ok nm /\ blank nm = false
                         /\ _is_valid_name nm = true /\ r = new_room o nm).
Proof.
  assert (forall o r,
             dict_get (pass2 rooms0) o = Some r ->
             dict_get rooms0 o = Some r
             \/ (1 <= o < Z.min max_obj 256
                 /\ (exists obj, get_object o = Ok (Some obj))
                 /\ named_room o = Some r)) as Hpass2.
  { intros o r. unfold pass2. rewrite pass2_fold_get.
    case_bool_decide as Hin; [|by left].
    destruct (classified_as o) as [r'|] eqn:Hc; [|by left].
    intros [= ->]. right. apply elem_of_py_range in Hin.
    apply classified_as_Some in Hc as [(obj & Hobj & _) Hnr].
    split; [done|]. split; [by exists obj|done]. }
  split; [|split].
  - apply find_rooms_wf.
  - intros o Ho.
    assert (o ∈ dict_keys (pass2 rooms0)) as Hp.
    { apply dict_keys_get in Ho as [v Hv]. unfold pass2.
      destruct (dict_get (fold_left pass2_step
                            (py_range 1 (Z.min max_obj 256)) rooms0) o)
        as [r|] eqn:Hget; [by eapply dict_get_is_Some_keys|].
      rewrite pass2_fold_get, Hv in Hget.
      by destruct (if bool_decide _ then _ else _). }
    unfold _find_rooms. simpl.
    destruct (_ <? 10); [by apply fallback_scan_keys_old|done].
  - intros o r. unfold _find_rooms. simpl.
    assert (forall o r, named_room o = Some r ->
              exists nm, get_object_name o = Ok nm /\ blank nm = false
                         /\ _is_valid_name nm = true /\ r = new_room o nm)
      as Hnamed by (intros; by apply named_room_Some).
    destruct (_ <? 10).
    + intros H. apply fallback_scan_get in H as [H|(Hin & Hobj & Hnr)].
      * apply Hpass2 in H as [H|(Hr & Hobj & Hnr)]; [by left|right].
        split; [lia|]. split; [done|by apply Hnamed].
      * right. apply elem_of_py_range in Hin. unfold room_start in Hin.
        split; [lia|]. split; [done|by apply Hnamed].
    + intros H. apply Hpass2 in H as [H|(Hr & Hobj & Hnr)]; [by left|right].
      split; [lia|]. split; [done|by apply Hnamed].
Qed.

(** X11.  Started on an empty map, [_find_rooms] files every room under
    its own object number, with no exits and no objects and under the
    name the parser gives.  A room is a child of the container numbered
    below 256 or, when the main scan found fewer than 10 rooms, an object
    of the range 142..299 picked up by the fallback scan. *)
Theorem fresh_rooms_origin :
  forall o r,
    dict_get (_find_rooms []) o = Some r ->
    obj_num r = o /\ exits r = [] /\ objects r = []
    /\ get_object_name o = Ok (name r)
    /\ ((1 <= o < Z.min max_obj 256
         /\ exists obj, get_object o = Ok (Some obj)
                        /\ parent obj = rooms_container)
        \/ (Z.of_nat (length (pass2 [])) < 10
            /\ room_start <= o < Z.min max_obj 300)).
Proof.
  intros o r.
  assert (forall o r, named_room o = Some r ->
            obj_num r = o /\ exits r = [] /\ objects r = []
            /\ get_object_name o = Ok (name r)) as Hnamed.
  { intros o' r' H.
    by apply named_room_Some in H as (nm & Hnm & _ & _ & ->). }
  assert (forall o r,
             dict_get (pass2 []) o = Some r ->
             named_room o = Some r
             /\ 1 <= o < Z.min max_obj 256
             /\ exists obj, get_object o = Ok (Some obj)
                            /\ parent obj = rooms_container) as Hpass2.
  { intros o' r'. unfold pass2. rewrite pass2_fold_get.
    case_bool_decide as Hin; [|done].
    destruct (classified_as o') as [r''|] eqn:Hc; [|done].
    intros [= ->]. apply elem_of_py_range in Hin.
    by apply classified_as_Some in Hc as [Hobj Hnr]. }
  unfold _find_rooms. simpl.
  destruct (Z.ltb_spec (Z.of_nat (length (pass2 []))) 10) as [Hlt|Hge].
  - intros H. apply fallback_scan_get in H as [H|(Hin & _ & Hnr)].
    + apply Hpass2 in H as (Hnr & Hr & Hobj).
      destruct (Hnamed _ _ Hnr) as (? & ? & ? & ?). repeat (split; [done|]).
      by left.
    + destruct (Hnamed _ _ Hnr) as (? & ? & ? & ?). repeat (split; [done|]).
      right. apply elem_of_py_range in Hin. done.
  - intros H. apply Hpass2 in H as (Hnr & Hr & Hobj).
    destruct (Hnamed _ _ Hnr) as (? & ? & ? & ?). repeat (split; [done|]).
    by left.
Qed.

(** ** The container chosen by the first pass *)

Lemma pass1_step_tallied (pc : list (Z * Z)) (o : Z) :
  pass1_step pc o
  = match tallied o with
    | Some k => counter_incr pc k
    | None => pc
    end.
Proof.
  unfold pass1_step, tallied.
  destruct (get_object o) as [[obj|]|]; try done.
  destruct (get_object_name o) as [nm|]; [|done].
  destruct (blank nm); [done|]. destruct (negb _); [done|].
  by destruct (_has_exit_properties o).
Qed.

Lemma tallied_candidate (o k : Z) :
  tallied o = Some k
  <-> room_candidate o
      /\ exists obj, get_object o = Ok (Some obj) /\ parent obj = k.
Proof.
  unfold tallied, room_candidate, valid_named. split.
  - destruct (get_object o) as [[obj|]|]; try done.
    destruct (get_object_name o) as [nm|]; [|done].
    destruct (blank nm) eqn:Hb; [done|].
    destruct (_is_valid_name nm) eqn:Hv; [|done]. simpl.
    destruct (_has_exit_properties o); [|done]. intros [= <-].
    split; [|by exists obj]. split; [by exists obj|]. split; [|done].
    by exists nm.
  - intros (((obj' & _) & (nm & Hnm & Hb & Hv) & Hex) & obj & Hobj & <-).
    by rewrite Hobj, Hnm, Hb, Hv, Hex.
Qed.

Lemma pass1_fold_wf (l : list Z) :
  forall pc : list (Z * Z), dict_wf pc -> dict_wf (fold_left pass1_step l pc).
Proof.
  induction l as [|x l IH]; intros pc Hwf; [done|]. simpl. apply IH.
  rewrite pass1_step_tallied. destruct (tallied x); [|done].
  by apply dict_wf_set.
Qed.

(** The counter after the first pass over [l]: under each parent, the
    count it had plus the number of objects of [l] tallied under it. *)
Lemma pass1_fold_get (l : list Z) :
  forall (pc : list (Z * Z)) (k : Z),
    dict_get (fold_left pass1_step l pc) k
    = match length (filter (fun o => tallied o = Some k) l) with
      | O => dict_get pc k
      | S n => Some (default 0 (dict_get pc k) + Z.of_nat (S n))
      end.
Proof.
  induction l as [|x l IH]; intros pc k; [done|].
  simpl fold_left. rewrite IH, pass1_step_tallied. clear IH.
  destruct (decide (tallied x = Some k)) as [Hx|Hx].
  - rewrite filter_cons_True by done. rewrite Hx. unfold counter_incr.
    rewrite dict_get_set, decide_True by done. simpl.
    destruct (length (filter _ l)); f_equal; lia.
  - rewrite filter_cons_False by done.
    destruct (tallied x) as [k'|]; [|done].
    unfold counter_incr. rewrite dict_get_set, decide_False; [done|].
    by intros ->.
Qed.

Lemma max_by_count_spec (l : list (Z * Z)) :
  forall best : Z * Z,
    max_by_count best l ∈ best :: l
    /\ forall y, y ∈ best :: l -> y.2 <= (max_by_count best l).2.
Proof.
  induction l as [|x l IH]; intros best; simpl.
  - split; [left|]. intros y Hy. apply list_elem_of_singleton in Hy as ->. lia.
  - destruct (IH (if best.2 <? x.2 then x else best)) as [Hin Hmax].
    split.
    + apply elem_of_cons in Hin as [->|Hin]; [|by do 2 right].
      destruct (best.2 <? x.2); [right|]; left.
    + intros y Hy.
      assert (best.2 <= (max_by_count (if best.2 <? x.2 then x else best) l).2
              /\ x.2 <= (max_by_count (if best.2 <? x.2 then x else best) l).2)
        as [Hb Hx].
      { pose proof (Hmax _ ltac:(left)) as H0.
        destruct (Z.ltb_spec best.2 x.2); lia. }
      apply elem_of_cons in Hy as [->|Hy]; [done|].
      apply elem_of_cons in Hy as [->|Hy]; [done|].
      apply Hmax. by right.
Qed.

(** X12.  The first pass tallies, under each parent, the room candidates
    (existing objects with a valid name and more than 3 properties,
    numbered from 1 to 255) that are its children; parents without any
    have no entry.  The container chosen is a parent with the largest
    tally, and 27 when no object is a candidate. *)
Theorem container_is_most_common_parent :
  (forall o k,
      tallied o = Some k
      <-> room_candidate o
          /\ exists obj, get_object o = Ok (Some obj) /\ parent obj = k)
  /\ (forall k n, dict_get parent_counts k = Some n <-> n = tally k /\ 0 < n)
  /\ (forall k, tally k <= tally rooms_container)
  /\ ((forall k, tally k = 0) -> rooms_container = 27).
Proof.
  assert (forall k n,
             dict_get parent_counts k = Some n <-> n = tally k /\ 0 < n)
    as Hget.
  { intros k n. unfold parent_counts, tally. rewrite pass1_fold_get. simpl.
    destruct (length _) as [|c].
    - split; [done|]. simpl. lia.
    - split; [intros [= <-]; lia|]. intros [-> _]. f_equal. }
  split; [exact tallied_candidate|]. split; [exact Hget|].
  assert (dict_wf parent_counts) as Hwf
    by (apply pass1_fold_wf; constructor).
  unfold rooms_container, most_common_1.
  destruct parent_counts as [|x l] eqn:Hpc.
  - split; [|done]. intros k.
    destruct (Z.eq_dec (tally k) 0) as [->|Hne].
    + unfold tally. lia.
    + assert (dict_get [] k = Some (tally k)) as H; [|done].
      apply Hget. split; [done|]. unfold tally in *. lia.
  - destruct (max_by_count_spec l x) as [Hin Hmax].
    destruct (max_by_count x l) as [p c]. simpl in Hmax.
    apply (dict_elem_of_get _ _ _ Hwf) in Hin.
    apply Hget in Hin as [-> Hpos].
    split.
    + intros k. destruct (Z.eq_dec (tally k) 0) as [->|Hne]; [lia|].
      assert (dict_get (x :: l) k = Some (tally k)) as H.
      { apply Hget. split; [done|]. unfold tally in *. lia. }
      apply dict_get_elem_of in H. by apply Hmax in H.
    + intros Hzero. rewrite Hzero in Hpos. lia.
Qed.

(** ** The objects [_find_objects] appends *)

Lemma py_min_le (l : list Z) :
  forall x y, y ∈ x :: l -> py_min x l <= y.
Proof.
  unfold py_min. induction l as [|z l IH]; intros x y Hy; simpl.
  - apply list_elem_of_singleton in Hy as ->. lia.
  - pose proof (IH (Z.min x z) (Z.min x z) ltac:(left)) as Hm.
    apply elem_of_cons in Hy as [->|Hy]; [lia|].
    apply elem_of_cons in Hy as [->|Hy]; [lia|].
    apply IH. by right.
Qed.

Lemma py_min_in (l : list Z) : forall x, py_min x l ∈ x :: l.
Proof.
  unfold py_min. induction l as [|z l IH]; intros x; simpl; [left|].
  specialize (IH (Z.min x z)).
  apply elem_of_cons in IH as [->|IH]; [|by do 2 right].
  destruct (Z.min_spec x z) as [[_ ->]|[_ ->]]; [left|right; left].
Qed.

(** The scan of the objects [a, a + n): it appends to [objs] exactly the
    records of [scanned_object a] numbered below [a + n]. *)
Lemma objects_scan_spec (n : nat) :
  forall (a : Z) (objs : list GameObject),
  exists new,
    objects_scan (seqZ a (Z.of_nat n)) objs = objs ++ new
    /\ forall g,
         g ∈ new <-> scanned_object a g /\ go_obj_num g < a + Z.of_nat n.
Proof.
  induction n as [|n IH]; intros a objs.
  { exists []. simpl. rewrite app_nil_r. split; [done|].
    intros g. split; [intros H; by apply elem_of_nil in H|].
    intros [(Ha & _) Hlt]. lia. }
  rewrite seqZ_cons by lia.
  replace (Z.pred (Z.of_nat (S n))) with (Z.of_nat n) by lia.
  replace (Z.succ a) with (a + 1) by lia.
  assert (forall g,
             get_object a <> Ok None ->
             ~ (scanned_object a g /\ go_obj_num g = a) ->
             scanned_object (a + 1) g /\ go_obj_num g < a + 1 + Z.of_nat n
             <-> scanned_object a g /\ go_obj_num g < a + Z.of_nat (S n))
    as Hshift.
  { intros g Hobj Hnot. unfold scanned_object. split.
    - intros ((Ha & Hk & Hrest) & Hlt). split; [|lia].
      split; [lia|]. split; [|done].
      intros k Hr. destruct (decide (k = a)) as [->|Hne]; [done|].
      apply Hk. lia.
    - intros ((Ha & Hk & Hrest) & Hlt).
      assert (go_obj_num g <> a) as Hne.
      { intros Heq. apply Hnot. by split. }
      split; [|lia]. split; [lia|]. split; [|done].
      intros k Hr. apply Hk. lia. }
  assert (get_object a <> Ok None ->
          (forall g, ~ (scanned_object a g /\ go_obj_num g = a)) ->
          exists new,
            objects_scan (seqZ (a + 1) (Z.of_nat n)) objs = objs ++ new
            /\ forall g,
                 g ∈ new
                 <-> scanned_object a g /\ go_obj_num g < a + Z.of_nat (S n))
    as Hskip.
  { intros Hobj Hnot. destruct (IH (a + 1) objs) as (new & Heq & Hnew).
    exists new. split; [done|]. intros g. rewrite Hnew.
    by apply Hshift. }
  simpl objects_scan.
  destruct (get_object a) as [[obj|]|e] eqn:Hobj.
  - destruct (get_object_name a) as [nm|e] eqn:Hnm.
    2:{ apply Hskip; [done|]. intros g [(_ & _ & _ & Hn & _) Heq].
        rewrite Heq, Hnm in Hn. done. }
    destruct (blank nm) eqn:Hb.
    { apply Hskip; [done|]. intros g [(_ & _ & _ & Hn & Hb' & _) Heq].
      rewrite Heq, Hnm in Hn. injection Hn as ->. congruence. }
    destruct (_is_valid_name nm) eqn:Hv; simpl.
    2:{ apply Hskip; [done|]. intros g [(_ & _ & _ & Hn & _ & Hv' & _) Heq].
        rewrite Heq, Hnm in Hn. injection Hn as ->. congruence. }
    destruct (_has_property a 5 || _has_property a 6 || _has_property a 9)
      eqn:Ht.
    2:{ apply Hskip; [done|]. intros g [(_ & _ & _ & _ & _ & _ & Ht') Heq].
        rewrite Heq in Ht'. congruence. }
    destruct (IH (a + 1)
                (objs ++ [{| go_obj_num := a; go_name := nm;
                             go_location := parent obj |}]))
      as (new & Heq & Hnew).
    exists ({| go_obj_num := a; go_name := nm; go_location := parent obj |}
              :: new).
    split; [by rewrite Heq, <- app_assoc|].
    intros g. rewrite elem_of_cons, Hnew. split.
    + intros [->|Hg].
      * split; [|simpl; lia]. unfold scanned_object. simpl.
        split; [lia|]. split.
        { intros k Hk. assert (k = a) as -> by lia. by rewrite Hobj. }
        split; [by exists obj|]. done.
      * apply Hshift; [done| |done].
        intros [_ Heq']. destruct Hg as [(Ha & _) _]. lia.
    + intros [Hs Hlt]. destruct (decide (go_obj_num g = a)) as [Heq'|Hne].
      * left. destruct Hs as (_ & _ & (obj' & Hobj' & Hloc) & Hn & _).
        rewrite Heq' in Hobj', Hn. rewrite Hobj in Hobj'. rewrite Hnm in Hn.
        injection Hobj' as <-. injection Hn as Hn.
        destruct g as [gn gm gl]. simpl in *. by subst.
      * right. apply Hshift; [done| |done]. by intros [_ ?].
  - exists []. rewrite app_nil_r. split; [done|].
    intros g. split; [intros H; by apply elem_of_nil in H|].
    intros [(Ha & Hk & _) _]. exfalso. apply (Hk a); [lia|done].
  - apply Hskip; [done|].
    intros g [(_ & _ & (obj & Hobj' & _) & _) Heq].
    rewrite Heq, Hobj in Hobj'. done.
Qed.

Lemma find_objects_spec (rooms : list (Z * Room)) (objs : list GameObject) :
  exists new,
    _find_objects rooms objs = objs ++ new
    /\ forall g,
         g ∈ new
         <-> rooms <> [] /\ scanned_object 1 g
             /\ forall k, k ∈ dict_keys rooms -> go_obj_num g < k.
Proof.
  unfold _find_objects. destruct rooms as [|[k r] rooms].
  { exists []. simpl. rewrite app_nil_r. split; [done|].
    intros g. split; [intros H; by apply elem_of_nil in H|].
    by intros [? _]. }
  simpl dict_keys. fold (dict_keys rooms).
  pose proof (py_min_le (dict_keys rooms) k) as Hle.
  pose proof (py_min_in (dict_keys rooms) k) as Hin.
  set (m := py_min k (dict_keys rooms)) in *.
  destruct (Z.le_gt_cases m 1) as [Hm|Hm].
  - exists []. unfold py_range. rewrite seqZ_nil by lia. simpl.
    rewrite app_nil_r. split; [done|].
    intros g. split; [intros H; by apply elem_of_nil in H|].
    intros (_ & (Ha & _) & Hk). apply Hk in Hin. lia.
  - destruct (objects_scan_spec (Z.to_nat (m - 1)) 1 objs)
      as (new & Heq & Hnew).
    rewrite Z2Nat.id in Heq, Hnew by lia.
    exists new. split; [exact Heq|]. intros g. rewrite Hnew. split.
    + intros [Hs Hlt]. split; [done|]. split; [done|].
      intros x Hx. apply Hle in Hx. lia.
    + intros (_ & Hs & Hk). split; [done|]. apply Hk in Hin. lia.
Qed.

Lemma objects_scan_app (l : list Z) :
  forall objs : list GameObject,
    objects_scan l objs = objs ++ objects_scan l [].
Proof.
  induction l as [|x l IH]; intros objs; simpl; [by rewrite app_nil_r|].
  destruct (get_object x) as [[obj|]|e]; [|by rewrite app_nil_r|apply IH].
  destruct (get_object_name x) as [nm|e]; [|apply IH].
  destruct (blank nm); [apply IH|].
  destruct (negb (_is_valid_name nm)); [apply IH|].
  destruct (_ || _); [|apply IH].
  rewrite (IH (objs ++ _)), (IH [_]). by rewrite <- app_assoc.
Qed.

(** X13.  [_find_objects] only appends to [self.objects], and what it
    appends does not depend on what the list held.  It appends exactly
    the objects numbered from 1 up to the smallest room number (excluded)
    that the scan reaches (no object before them is missing), that exist,
    carry a valid name and have property 5, 6 or 9; each is recorded with
    the parser's name and its parent as location.  With no room it
    appends nothing.  An object it finds is never a room. *)
Theorem found_objects_exactly (rooms : list (Z * Room))
  (objs : list GameObject) :
  _find_objects rooms objs = objs ++ _find_objects rooms []
  /\ (forall g,
         g ∈ _find_objects rooms []
         <-> rooms <> [] /\ scanned_object 1 g
             /\ forall k, k ∈ dict_keys rooms -> go_obj_num g < k)
  /\ (forall g, g ∈ _find_objects rooms [] -> go_obj_num g ∉ dict_keys rooms).
Proof.
  split.
  - unfold _find_objects.
    destruct (dict_keys rooms); [by rewrite app_nil_r|apply objects_scan_app].
  - destruct (find_objects_spec rooms []) as (new & Heq & Hnew).
    simpl in Heq. rewrite Heq. split; [done|].
    intros g Hg Hin. apply Hnew in Hg as (_ & _ & Hk). apply Hk in Hin. lia.
Qed.

(** ** Objects filed under their rooms *)

Lemma associate_fold_keys (objs : list GameObject) :
  forall rooms : list (Z * Room),
    dict_keys (fold_left associate_step objs rooms) = dict_keys rooms.
Proof.
  induction objs as [|g objs IH]; intros rooms; [done|]. simpl.
  rewrite IH. unfold associate_step.
  destruct (dict_get rooms (go_location g)) as [room|] eqn:Hget; [|done].
  rewrite dict_keys_set. unfold dict_contains. by rewrite Hget.
Qed.

Lemma associate_fold_get (objs : list GameObject) :
  forall (rooms : list (Z * Room)) (k : Z),
    dict_get (fold_left associate_step objs rooms) k
    = (fun room =>
         with_objects room
           (objects room
            ++ (go_name <$> filter (fun g => go_location g = k) objs)))
        <$> dict_get rooms k.
Proof.
  induction objs as [|g objs IH]; intros rooms k.
  { simpl. destruct (dict_get rooms k) as [[]|]; [|done]. simpl.
    unfold with_objects. simpl. by rewrite app_nil_r. }
  simpl fold_left. rewrite IH. unfold associate_step.
  destruct (decide (go_location g = k)) as [Hk|Hk].
  - rewrite filter_cons_True by done. rewrite Hk.
    destruct (dict_get rooms k) as [room|] eqn:Hget.
    + rewrite dict_get_set, decide_True by done. simpl.
      unfold with_objects. simpl. by rewrite <- app_assoc.
    + by rewrite Hget.
  - rewrite filter_cons_False by done.
    destruct (dict_get rooms (go_location g)) as [room|]; [|done].
    rewrite dict_get_set, decide_False; [done|]. by intros ->.
Qed.

(** X14.  [_associate_objects_with_rooms] leaves the rooms, their order,
    names and exits as they are and appends to each room's object list
    the names of the objects located in it, in the order of
    [self.objects]; an object whose location is not a room is filed
    nowhere. *)
Theorem objects_filed_under_their_rooms (rooms : list (Z * Room))
  (objs : list GameObject) :
  dict_keys (_associate_objects_with_rooms rooms objs) = dict_keys rooms
  /\ forall k,
       dict_get (_associate_objects_with_rooms rooms objs) k
       = (fun room =>
            with_objects room
              (objects room
               ++ (go_name <$> filter (fun g => go_location g = k) objs)))
           <$> dict_get rooms k.
Proof.
  split; [apply associate_fold_keys|apply associate_fold_get].
Qed.

(** ** Room references read from a routine *)

Lemma routine_loop_fuel (n : nat) :
  forall (m : nat) prop_addr,
    0 <= prop_addr ->
    len data - prop_addr <= Z.of_nat n ->
    len data - prop_addr <= Z.of_nat m ->
    routine_loop n prop_addr = routine_loop m prop_addr.
Proof.
  induction n as [|n IH]; intros [|m] prop_addr Hpos Hn Hm; simpl;
    try reflexivity.
  - destruct (Z.ltb_spec prop_addr (len data - 2)); [lia|done].
  - destruct (Z.ltb_spec prop_addr (len data - 2)); [lia|done].
  - destruct (Z.ltb_spec prop_addr (len data - 2)) as [Hlt|]; [|done].
    destruct (read_byte data prop_addr) as [size_byte|e] eqn:Hrd; [|done].
    simpl. destruct (size_byte =? 0); [done|].
    destruct (_ && _); [done|].
    pose proof (legacy_size_range _ (read_byte_range _ _ Hrd)) as Hsz.
    rewrite (IH m); [done|lia..].
Qed.

Lemma read_byte_ok (a : Z) :
  0 <= a < len data -> exists v, read_byte data a = Ok v.
Proof.
  intros Ha. unfold read_byte.
  destruct (Z.leb_spec 0 a); [|lia]. destruct (Z.ltb_spec a (len data)); [|lia].
  simpl. destruct (data !! Z.to_nat a) as [b|] eqn:Hb; [by eexists|].
  apply lookup_ge_None in Hb. unfold len in Ha. lia.
Qed.

(** The search for the routine reads inside the image: it never raises. *)
Lemma routine_loop_ok (fuel : nat) :
  forall prop_addr,
    0 <= prop_addr -> exists v, routine_loop fuel prop_addr = Ok v.
Proof.
  induction fuel as [|fuel IH]; intros a Ha; simpl; [by eexists|].
  destruct (Z.ltb_spec a (len data - 2)) as [Hlt|]; [|by eexists].
  destruct (read_byte_ok a) as [sb Hsb]; [lia|]. rewrite Hsb. simpl.
  destruct (sb =? 0); [by eexists|].
  pose proof (legacy_size_range _ (read_byte_range _ _ Hsb)) as Hsz.
  destruct (_ && _); [|apply IH; lia].
  unfold read_word.
  destruct (read_byte_ok (a + 1)) as [hi ->]; [lia|].
  destruct (read_byte_ok (a + 1 + 1)) as [lo ->]; [lia|].
  simpl. by eexists.
Qed.

Lemma note_operand_inv (rooms : list (Z * Room)) (room_num : Z)
  (refs : list Z) (op : operand) :
  NoDup refs ->
  (forall d, d ∈ refs -> d ∈ dict_keys rooms /\ d <> room_num) ->
  NoDup (note_operand rooms room_num refs op)
  /\ forall d, d ∈ note_operand rooms room_num refs op ->
               d ∈ dict_keys rooms /\ d <> room_num.
Proof.
  intros Hnd Hin. destruct op as [z|]; simpl; [|done].
  destruct (dict_contains rooms z) eqn:Hc; simpl; [|done].
  destruct (Z.eqb_spec z room_num) as [|Hne]; simpl; [done|].
  case_bool_decide as Hz; [done|]. split.
  - apply NoDup_app. split; [done|]. split; [|apply NoDup_singleton].
    intros x Hx Hx'. apply list_elem_of_singleton in Hx' as ->. done.
  - intros d Hd. apply elem_of_app in Hd as [Hd|Hd]; [by apply Hin|].
    apply list_elem_of_singleton in Hd as ->.
    split; [by apply dict_contains_true|done].
Qed.

Lemma note_operands_inv (rooms : list (Z * Room)) (room_num : Z)
  (ops : list operand) :
  forall refs,
    NoDup refs ->
    (forall d, d ∈ refs -> d ∈ dict_keys rooms /\ d <> room_num) ->
    NoDup (fold_left (note_operand rooms room_num) ops refs)
    /\ forall d, d ∈ fold_left (note_operand rooms room_num) ops refs ->
                 d ∈ dict_keys rooms /\ d <> room_num.
Proof.
  induction ops as [|op ops IH]; intros refs Hnd Hin; [done|]. simpl.
  destruct (note_operand_inv rooms room_num refs op Hnd Hin). by apply IH.
Qed.

Lemma decode_loop_inv (decode : Z -> result (list operand * Z))
  (rooms : list (Z * Room)) (room_num : Z) (n : nat) :
  forall pc refs,
    NoDup refs ->
    (forall d, d ∈ refs -> d ∈ dict_keys rooms /\ d <> room_num) ->
    NoDup (decode_loop decode rooms room_num n pc refs)
    /\ forall d, d ∈ decode_loop decode rooms room_num n pc refs ->
                 d ∈ dict_keys rooms /\ d <> room_num.
Proof.
  induction n as [|n IH]; intros pc refs Hnd Hin; simpl; [done|].
  destruct (len data <=? pc); [done|].
  destruct (decode pc) as [[ops size]|]; [|done].
  destruct (note_operands_inv rooms room_num ops refs Hnd Hin). by apply IH.
Qed.

Lemma routine_refs_inv (decode : Z -> result (list operand * Z))
  (rooms : list (Z * Room)) (room_num : Z) :
  NoDup (_find_room_references_in_routine decode rooms room_num)
  /\ forall d,
       d ∈ _find_room_references_in_routine decode rooms room_num ->
       d ∈ dict_keys rooms /\ d <> room_num.
Proof.
  assert (NoDup (@nil Z)
          /\ forall d, d ∈ @nil Z -> d ∈ dict_keys rooms /\ d <> room_num)
    as Hnil.
  { split; [constructor|]. intros d H. by apply elem_of_nil in H. }
  unfold _find_room_references_in_routine.
  destruct (get_object room_num) as [[obj|]|]; try exact Hnil.
  cbv zeta. destruct (len data <=? _); [exact Hnil|].
  destruct (_ ≫= _) as [[routine_addr|]|]; try exact Hnil.
  destruct (routine_addr =? 0); [exact Hnil|].
  destruct (py_index data routine_addr) as [num_locals|]; [|exact Hnil].
  apply decode_loop_inv; apply Hnil.
Qed.

(** X15.  The room references [_find_room_references_in_routine]
    collects for a room are pairwise distinct numbers of rooms of the
    map, none of them the room itself, whatever the decoder answers.  The
    search for the routine address reads inside the image only: started
    at a non-negative address it never raises. *)
Theorem routine_refs_are_other_rooms
  (decode : Z -> result (list operand * Z)) (rooms : list (Z * Room))
  (room_num : Z) :
  NoDup (_find_room_references_in_routine decode rooms room_num)
  /\ (forall d,
         d ∈ _find_room_references_in_routine decode rooms room_num ->
         d ∈ dict_keys rooms /\ d <> room_num)
  /\ forall fuel prop_addr,
       0 <= prop_addr -> exists v, routine_loop fuel prop_addr = Ok v.
Proof.
  destruct (routine_refs_inv decode rooms room_num) as [H1 H2].
  split; [done|]. split; [done|]. intros fuel a. apply routine_loop_ok.
Qed.

(** ** Exits read from the routines *)

Lemma infer_direction_inj (from_room from_room' d d' : Z) :
  _infer_direction from_room d = _infer_direction from_room' d' -> d = d'.
Proof.
  unfold _infer_direction. intros H. simpl in H. injection H as H.
  change (pretty d = pretty d') in H.
  by apply (inj (pretty : Z -> string)) in H.
Qed.

Lemma elem_of_take_l {A : Type} (n : nat) (l : list A) (x : A) :
  x ∈ take n l -> x ∈ l.
Proof.
  intros H. rewrite <- (take_drop n l). apply elem_of_app. by left.
Qed.

Lemma NoDup_take_l {A : Type} (n : nat) (l : list A) :
  NoDup l -> NoDup (take n l).
Proof. intros H. eapply sublist_NoDup; [exact H|apply sublist_take]. Qed.

Lemma routine_exits_get (rooms : list (Z * Room)) (room_num : Z)
  (refs : list Z) :
  forall (e : list (string * Z)) (w : string) (d : Z),
    dict_get (fold_left (routine_exit rooms room_num) refs e) w = Some d ->
    dict_get e w = Some d
    \/ (w = _infer_direction room_num d /\ d ∈ refs).
Proof.
  induction refs as [|x refs IH]; intros e w d; [by left|]. simpl.
  intros H. apply IH in H as [H|[Hw Hd]]; [|right; split; [done|by right]].
  unfold routine_exit in H. destruct (dict_contains rooms x); [|by left].
  rewrite dict_get_set in H.
  destruct (decide (w = _infer_direction room_num x)) as [->|Hne];
    [|by left].
  injection H as <-. right. split; [done|left].
Qed.

(** On a room without exits, distinct references of rooms become one
    exit each, in their order. *)
Lemma routine_exits_fresh (rooms : list (Z * Room)) (room_num : Z)
  (refs : list Z) :
  forall done : list Z,
    NoDup (done ++ refs) ->
    (forall d, d ∈ refs -> d ∈ dict_keys rooms) ->
    fold_left (routine_exit rooms room_num) refs
      ((fun d => (_infer_direction room_num d, d)) <$> done)
    = (fun d => (_infer_direction room_num d, d)) <$> (done ++ refs).
Proof.
  induction refs as [|x refs IH]; intros done Hnd Hin.
  { by rewrite app_nil_r. }
  simpl. unfold routine_exit at 2.
  rewrite (proj2 (dict_contains_true rooms x)) by (apply Hin; left).
  rewrite dict_set_new.
  - replace (((fun d => (_infer_direction room_num d, d)) <$> done)
             ++ [(_infer_direction room_num x, x)])
      with ((fun d => (_infer_direction room_num d, d)) <$> (done ++ [x]))
      by (by rewrite fmap_app).
    rewrite IH.
    + by rewrite <- app_assoc.
    + by rewrite <- app_assoc.
    + intros d Hd. apply Hin. by right.
  - unfold dict_keys. rewrite <- list_fmap_compose.
    intros Hx. apply list_elem_of_fmap in Hx as (d & Hd & Hdin).
    simpl in Hd. apply infer_direction_inj in Hd as <-.
    apply NoDup_app in Hnd as (_ & Hnd & _). apply (Hnd x Hdin). left.
Qed.

(** What [_extract_exits] keeps of every room, and where the exits of a
    room lead afterwards. *)
Lemma routine_exits_kept (rooms : list (Z * Room)) :
  Forall2 (fun r r' =>
             r'.1 = r.1 /\ name r'.2 = name r.2 /\ obj_num r'.2 = obj_num r.2
             /\ objects r'.2 = objects r.2
             /\ forall w d,
                  dict_get (exits r'.2) w = Some d ->
                  dict_get (exits r.2) w = Some d
                  \/ (w = "to_" +:+ pretty d
                      /\ d ∈ dict_keys rooms /\ d <> r.1))
    rooms (_extract_exits rooms).
Proof.
  unfold _extract_exits. destruct decoder as [decode|].
  - apply Forall2_fmap_r, Forall_Forall2_diag, Forall_forall.
    intros [room_num room] _. simpl.
    destruct (routine_refs_inv decode rooms room_num) as [_ Hin].
    repeat (split; [done|]).
    intros w d H. apply routine_exits_get in H as [H|[Hw Hd]]; [by left|].
    right. split; [done|]. apply Hin. by eapply elem_of_take_l.
  - apply Forall_Forall2_diag, Forall_forall. intros [room_num room] _.
    simpl. repeat (split; [done|]). by left.
Qed.

(** An exit that leads to the room its label names stays through the
    later references. *)
Lemma routine_exits_stay (rooms : list (Z * Room)) (room_num : Z)
  (refs : list Z) :
  forall (e : list (string * Z)) (d : Z),
    dict_get e (_infer_direction room_num d) = Some d ->
    dict_get (fold_left (routine_exit rooms room_num) refs e)
      (_infer_direction room_num d) = Some d.
Proof.
  induction refs as [|x refs IH]; intros e d H; [done|]. simpl.
  apply IH. unfold routine_exit. destruct (dict_contains rooms x); [|done].
  rewrite dict_get_set.
  destruct (decide (_infer_direction room_num d = _infer_direction room_num x))
    as [Heq|Hne]; [|done].
  by apply infer_direction_inj in Heq as ->.
Qed.

(** Every reference that is a room ends as the exit to that room. *)
Lemma routine_exits_bound (rooms : list (Z * Room)) (room_num : Z)
  (refs : list Z) :
  forall (e : list (string * Z)) (d : Z),
    d ∈ refs -> d ∈ dict_keys rooms ->
    dict_get (fold_left (routine_exit rooms room_num) refs e)
      (_infer_direction room_num d) = Some d.
Proof.
  induction refs as [|x refs IH]; intros e d Hd Hin.
  { by apply elem_of_nil in Hd. }
  simpl. apply elem_of_cons in Hd as [->|Hd]; [|by apply IH].
  apply routine_exits_stay. unfold routine_exit.
  rewrite (proj2 (dict_contains_true rooms x)) by done.
  rewrite dict_get_set. by rewrite decide_True.
Qed.

(** A label that no reference yields keeps the exit it had. *)
Lemma routine_exits_other (rooms : list (Z * Room)) (room_num : Z)
  (refs : list Z) :
  forall (e : list (string * Z)) (w : string),
    (forall d, d ∈ refs -> w <> _infer_direction room_num d) ->
    dict_get (fold_left (routine_exit rooms room_num) refs e) w
    = dict_get e w.
Proof.
  induction refs as [|x refs IH]; intros e w Hw; [done|]. simpl.
  rewrite IH by (intros d Hd; apply Hw; by right).
  unfold routine_exit. destruct (dict_contains rooms x); [|done].
  rewrite dict_get_set. rewrite decide_False; [done|]. apply Hw. left.
Qed.

(** X16.  With a decoder, [_extract_exits] keeps every room with its
    number, name and objects, and reads the exits of a room from the
    first 8 references of its routine, [room_refs[:8]].  Every one of
    these references is a room of the map other than the room itself and
    ends as the exit [to_N] leading to room [N]; a label that none of them
    yields keeps the exit it had; an exit of the room afterwards is an
    exit it had or the exit of one of these references.  A room that had
    no exit gets exactly one exit per reference, in the order of the
    references.  Without a decoder the rooms stay as they are. *)
Theorem routine_exits_lead_to_other_rooms (rooms : list (Z * Room)) :
  (forall decode,
     decoder = Some decode ->
     Forall2 (fun r r' =>
                let refs :=
                  take 8 (_find_room_references_in_routine decode rooms r.1) in
                r'.1 = r.1 /\ name r'.2 = name r.2
                /\ obj_num r'.2 = obj_num r.2
                /\ objects r'.2 = objects r.2
                /\ (forall d,
                       d ∈ refs ->
                       d ∈ dict_keys rooms /\ d <> r.1
                       /\ dict_get (exits r'.2) ("to_" +:+ pretty d) = Some d)
                /\ (forall w,
                       (forall d, d ∈ refs -> w <> "to_" +:+ pretty d) ->
                       dict_get (exits r'.2) w = dict_get (exits r.2) w)
                /\ (forall w d,
                       dict_get (exits r'.2) w = Some d ->
                       dict_get (exits r.2) w = Some d
                       \/ (w = "to_" +:+ pretty d /\ d ∈ refs))
                /\ (exits r.2 = [] ->
                    exits r'.2
                    = (fun d => ("to_" +:+ pretty d, d)) <$> refs))
       rooms (_extract_exits rooms))
  /\ (decoder = None -> _extract_exits rooms = rooms).
Proof.
  split.
  - intros decode Hdec. unfold _extract_exits. rewrite Hdec.
    apply Forall2_fmap_r, Forall_Forall2_diag, Forall_forall.
    intros [room_num room] _. simpl.
    destruct (routine_refs_inv decode rooms room_num) as [Hnd Hin].
    repeat (split; [done|]). split; [|split; [|split]].
    + intros d Hd.
      destruct (Hin d (elem_of_take_l _ _ _ Hd)) as [Hroom Hne].
      split; [done|]. split; [done|].
      exact (routine_exits_bound rooms room_num _ _ d Hd Hroom).
    + intros w Hw. exact (routine_exits_other rooms room_num _ _ w Hw).
    + intros w d H.
      apply routine_exits_get in H as [H|[Hw Hd]]; [by left|by right].
    + intros ->. apply (routine_exits_fresh rooms room_num _ []).
      * by apply NoDup_take_l.
      * intros d Hd. apply Hin. by eapply elem_of_take_l.
  - intros Hdec. unfold _extract_exits. by rewrite Hdec.
Qed.

(** ** The whole extraction *)

Lemma Forall2_dict_get {V : Type} (P : Z * V -> Z * V -> Prop)
  (l l' : list (Z * V)) :
  (forall x y, P x y -> y.1 = x.1) ->
  Forall2 P l l' ->
  forall k v',
    dict_get l' k = Some v' ->
    exists v, dict_get l k = Some v /\ P (k, v) (k, v').
Proof.
  intros HP. induction 1 as [|[k0 v0] [k1 v1] l l' Hxy _ IH]; intros k v';
    simpl; [done|].
  pose proof (HP _ _ Hxy) as Hk. simpl in Hk. subst k1.
  destruct (decide (k = k0)) as [->|]; [|apply IH].
  intros [= <-]. by exists v0.
Qed.

Lemma extract_exits_total (rooms rooms' : list (Z * Room)) (total : Z) :
  extract_exits rooms = Ok (rooms', total) ->
  total = exit_count rooms' - exit_count rooms.
Proof.
  intros Hrun.
  destruct (extract_exits_cases rooms) as [[_ Hret]|(_ & _ & Hret)];
    rewrite Hret in Hrun.
  - injection Hrun as <- <-. lia.
  - destruct _get_property_to_word_mapping as [m|e]; [|done].
    simpl in Hrun. injection Hrun as Hrun.
    apply rooms_loop_spec in Hrun as [_ ->]. lia.
Qed.

(** The rooms [extract_all] returns on a new extractor. *)
Lemma extract_all_rooms :
  dict_keys (extract_all [] []).1 = dict_keys (_find_rooms [])
  /\ forall k r,
       dict_get (extract_all [] []).1 k = Some r ->
       obj_num r = k /\ get_object_name k = Ok (name r)
       /\ objects r
          = go_name <$> filter (fun g => go_location g = k)
                          (extract_all [] []).2
       /\ forall w d,
            dict_get (exits r) w = Some d ->
            w = "to_" +:+ pretty d
            /\ d ∈ dict_keys (extract_all [] []).1 /\ d <> k.
Proof.
  unfold extract_all. simpl.
  set (rooms1 := _find_rooms []).
  set (objs := _find_objects rooms1 []).
  pose proof (routine_exits_kept rooms1) as H12.
  assert (dict_keys (_extract_exits rooms1) = dict_keys rooms1) as Hk12.
  { eapply Forall2_keys; [|exact H12]. by intros r r' [? _]. }
  assert (dict_keys (_associate_objects_with_rooms (_extract_exits rooms1) objs)
          = dict_keys rooms1) as Hkeys.
  { unfold _associate_objects_with_rooms. by rewrite associate_fold_keys. }
  split; [exact Hkeys|].
  intros k r.
  pose proof (associate_fold_get objs (_extract_exits rooms1) k) as Hag.
  fold (_associate_objects_with_rooms (_extract_exits rooms1) objs) in Hag.
  rewrite Hag, Hkeys.
  destruct (dict_get (_extract_exits rooms1) k) as [r2|] eqn:Hr2; [|done].
  simpl. intros [= <-].
  destruct (Forall2_dict_get _ _ _ (fun r r' H => proj1 H) H12 _ _ Hr2)
    as (r1 & Hr1 & _ & Hname & Hnum & Hobjs & Hexits).
  simpl in *.
  apply fresh_rooms_named, named_room_Some in Hr1
    as (nm & Hnm & _ & _ & ->).
  simpl in *.
  split; [done|]. split; [congruence|].
  split; [by rewrite Hobjs|].
  intros w d Hget. by apply Hexits in Hget as [Hget|Hget].
Qed.

(** X17.  [extract_all] on a new extractor returns the rooms found by
    [_find_rooms], each under its own number and parser name, with
    distinct numbers, and the objects found by [_find_objects], none of
    which is a room.  Every room lists exactly the names of the objects
    located in it, in the order of the objects, and every exit of a room
    is named [to_N] and leads to room [N] of the map, another room. *)
Theorem extract_all_consistent :
  dict_keys (extract_all [] []).1 = dict_keys (_find_rooms [])
  /\ dict_wf (extract_all [] []).1
  /\ (extract_all [] []).2 = _find_objects (_find_rooms []) []
  /\ (forall g, g ∈ (extract_all [] []).2 ->
                go_obj_num g ∉ dict_keys (extract_all [] []).1)
  /\ forall k r,
       dict_get (extract_all [] []).1 k = Some r ->
       obj_num r = k /\ get_object_name k = Ok (name r)
       /\ objects r
          = go_name <$> filter (fun g => go_location g = k)
                          (extract_all [] []).2
       /\ forall w d,
            dict_get (exits r) w = Some d ->
            w = "to_" +:+ pretty d
            /\ d ∈ dict_keys (extract_all [] []).1 /\ d <> k.
Proof.
  destruct extract_all_rooms as [Hkeys Hget].
  split; [exact Hkeys|]. split.
  { unfold dict_wf. rewrite Hkeys. apply find_rooms_wf. constructor. }
  split; [done|]. split; [|exact Hget].
  intros g Hg. rewrite Hkeys. intros Hin.
  destruct (find_objects_spec (_find_rooms []) []) as (new & Heq & Hnew).
  change ((extract_all [] []).2) with (_find_objects (_find_rooms []) [])
    in Hg.
  rewrite Heq in Hg. simpl in Hg.
  apply Hnew in Hg as (_ & _ & Hlt). apply Hlt in Hin. lia.
Qed.

(** X18.  The map [main] hands to the layout: when the two extraction
    steps return, the rooms are those of [_find_rooms], each under its own
    number and parser name and listing the names of the objects located
    in it; every exit of every room leads to another room of the map (no
    exit to itself, none to an object that is no room); and the total
    reported is the number of exits the static extraction added. *)
Theorem main_extraction_consistent (rooms : list (Z * Room))
  (objs : list GameObject) (total : Z) :
  main_extraction = Ok (rooms, objs, total) ->
  dict_keys rooms = dict_keys (_find_rooms [])
  /\ objs = _find_objects (_find_rooms []) []
  /\ total = exit_count rooms - exit_count (extract_all [] []).1
  /\ forall k r,
       dict_get rooms k = Some r ->
       obj_num r = k /\ get_object_name k = Ok (name r)
       /\ objects r = go_name <$> filter (fun g => go_location g = k) objs
       /\ forall w d,
            dict_get (exits r) w = Some d -> d ∈ dict_keys rooms /\ d <> k.
Proof.
  destruct extract_all_rooms as (Hkeys & Hget).
  assert ((extract_all [] []).2 = _find_objects (_find_rooms []) [])
    as Hobjs by reflexivity.
  unfold main_extraction.
  destruct (extract_all [] []) as [rooms3 objs3]. simpl in *.
  destruct (extract_exits rooms3) as [[rooms' total']|e] eqn:Hrun; [|done].
  simpl. intros [= <- <- <-].
  destruct (extract_exits_extended _ _ _ Hrun) as [ptw Hext].
  assert (dict_keys rooms' = dict_keys rooms3) as Hk'.
  { eapply Forall2_keys; [|exact Hext]. by intros r r' [? _]. }
  split; [congruence|]. split; [done|].
  split; [by eapply extract_exits_total|].
  intros k r' Hr'.
  destruct (Forall2_dict_get _ _ _ (fun r r' H => proj1 H) Hext _ _ Hr')
    as (r3 & Hr3 & Hr).
  destruct (Hget _ _ Hr3) as (Hnum & Hname & Hobj & Hexits).
  pose proof (exits_extended_dest _ _ _ _ _ Hr) as Hdest.
  destruct Hr as (_ & added & Heq & _). simpl in Heq, Hdest. subst r'. simpl.
  repeat (split; [done|]).
  intros w d Hwd. rewrite Hk'.
  apply Hdest in Hwd as [Hwd|(_ & Hd & Hne & _)].
  - by apply Hexits in Hwd as (_ & ? & ?).
  - by apply elem_of_list_to_set in Hd.
Qed.

(** ** The decoder on a well-formed table *)

Lemma byte_val_of_Z (z : Z) :
  0 <= z < 256 -> byte_val (default x00 (Byte.of_N (Z.to_N z))) = z.
Proof.
  intros Hz. unfold byte_val.
  destruct (Byte.of_N (Z.to_N z)) as [b|] eqn:Hb; simpl.
  - apply Byte.to_of_N in Hb. rewrite Hb. lia.
  - apply Byte.of_N_None_iff in Hb. lia.
Qed.

Lemma len_bytes_of (l : list Z) :
  len (Fixture.bytes_of l) = Z.of_nat (length l).
Proof. unfold len, Fixture.bytes_of. by rewrite length_fmap. Qed.

Lemma py_index_bytes_of (pre : list Z) (x : Z) (rest : list Z) :
  0 <= x < 256 ->
  py_index (Fixture.bytes_of (pre ++ x :: rest)) (Z.of_nat (length pre)) = Ok x.
Proof.
  intros Hx. unfold py_index. rewrite len_bytes_of, length_app. simpl.
  destruct (Z.ltb_spec (Z.of_nat (length pre)) 0); [lia|].
  destruct (Z.leb_spec 0 (Z.of_nat (length pre))); [|lia].
  destruct (Z.ltb_spec (Z.of_nat (length pre))
              (Z.of_nat (length pre + S (length rest)))); [|lia].
  simpl. unfold Fixture.bytes_of.
  rewrite Nat2Z.id, list_lookup_fmap, lookup_app_r, Nat.sub_diag by lia.
  simpl. by rewrite byte_val_of_Z.
Qed.

Lemma py_slice_bytes_of (pre v rest : list Z) :
  Forall (fun b => 0 <= b < 256) v ->
  py_slice (Fixture.bytes_of (pre ++ v ++ rest)) (Z.of_nat (length pre))
    (Z.of_nat (length pre) + Z.of_nat (length v)) = v.
Proof.
  intros Hv. unfold py_slice. rewrite len_bytes_of, !length_app.
  destruct (Z.ltb_spec (Z.of_nat (length pre)) 0); [lia|].
  destruct (Z.ltb_spec (Z.of_nat (length pre) + Z.of_nat (length v)) 0);
    [lia|].
  rewrite !Z.min_l by lia.
  replace (Z.to_nat (Z.of_nat (length pre) + Z.of_nat (length v)
                     - Z.of_nat (length pre))) with (length v) by lia.
  rewrite Nat2Z.id. unfold Fixture.bytes_of.
  rewrite <- fmap_drop, <- fmap_take, drop_app_length, take_app_length.
  rewrite <- list_fmap_compose.
  transitivity (id <$> v); [|apply list_fmap_id].
  apply Forall_fmap_ext_1. eapply Forall_impl; [exact Hv|].
  intros b Hb. simpl. by apply byte_val_of_Z.
Qed.

Lemma size_byte_of_decode (num : Z) (size : nat) :
  0 <= num < 32 -> (1 <= size)%nat ->
  Z.land (size_byte_of num size) 31 = num
  /\ Z.shiftr (size_byte_of num size) 5 + 1 = Z.of_nat size.
Proof.
  intros Hn Hs. unfold size_byte_of. split.
  - change 31 with (Z.ones 5). rewrite Z.land_ones by lia.
    change (2 ^ 5) with 32.
    replace (32 * (Z.of_nat size - 1) + num)
      with (num + (Z.of_nat size - 1) * 32) by lia.
    rewrite Z_mod_plus_full. apply Z.mod_small. lia.
  - rewrite Z.shiftr_div_pow2 by lia. change (2 ^ 5) with 32.
    replace (32 * (Z.of_nat size - 1) + num)
      with (num + (Z.of_nat size - 1) * 32) by lia.
    rewrite Z_div_plus_full by lia. rewrite Z.div_small by lia. lia.
Qed.

(** The loop on the bytes of [recs] followed by the terminator reads the
    records back, one [dict_set] each. *)
Lemma props_loop_reads (recs : list (Z * list Z)) :
  forall (fuel : nat) (pre post : list Z) (props : list (Z * list Z)),
    data = Fixture.bytes_of
             (pre ++ concat (property_bytes <$> recs) ++ 0 :: post) ->
    (10 <= length post)%nat ->
    Forall (fun rec : Z * list Z =>
              1 <= rec.1 <= 31 /\ (1 <= length rec.2 <= 8)%nat
              /\ Forall (fun b => 0 <= b < 256) rec.2) recs ->
    len data - Z.of_nat (length pre) <= Z.of_nat fuel ->
    (props_loop fuel (Z.of_nat (length pre)) props).1
    = fold_left (fun d rec => dict_set d rec.1 rec.2) recs props.
Proof.
  induction recs as [|[num v] recs IH];
    intros fuel pre post props Hdata Hpost Hok Hfuel.
  - simpl in Hdata.
    assert (len data = Z.of_nat (length pre + S (length post))) as Hlen.
    { rewrite Hdata, len_bytes_of, length_app. done. }
    destruct fuel as [|fuel]; [lia|]. simpl.
    destruct (Z.ltb_spec (Z.of_nat (length pre)) (len data - 10)); [|lia].
    rewrite Hdata at 1. by rewrite py_index_bytes_of by lia.
  - apply Forall_cons in Hok as [(Hnum & Hlenv & Hv) Hok]. simpl in *.
    destruct (size_byte_of_decode num (length v)) as [Hland Hshr];
      [lia|lia|].
    assert (0 <= size_byte_of num (length v) < 256) as Hsb
      by (unfold size_byte_of; lia).
    assert (size_byte_of num (length v) <> 0) as Hnz
      by (unfold size_byte_of; lia).
    assert (data = Fixture.bytes_of
                     ((pre ++ [size_byte_of num (length v)])
                        ++ v ++ concat (property_bytes <$> recs) ++ 0 :: post))
      as Hdata1 by (rewrite Hdata; by rewrite <- !app_assoc).
    assert (data = Fixture.bytes_of
                     ((pre ++ size_byte_of num (length v) :: v)
                        ++ concat (property_bytes <$> recs) ++ 0 :: post))
      as Hdata2 by (rewrite Hdata; by rewrite <- !app_assoc).
    assert (Z.of_nat (length pre + S (length v + S (length post)))
            <= len data) as Hlen.
    { rewrite Hdata, len_bytes_of, !length_app. simpl.
      rewrite !length_app. simpl. lia. }
    destruct fuel as [|fuel]; [lia|]. simpl.
    destruct (Z.ltb_spec (Z.of_nat (length pre)) (len data - 10)); [|lia].
    rewrite Hdata at 1. rewrite py_index_bytes_of by lia.
    destruct (Z.eqb_spec (size_byte_of num (length v)) 0); [done|].
    rewrite Hland, Hshr.
    replace (py_slice data (Z.of_nat (length pre) + 1)
               (Z.of_nat (length pre) + 1 + Z.of_nat (length v))) with v.
    2:{ rewrite Hdata1 at 1.
        replace (Z.of_nat (length pre) + 1)
          with (Z.of_nat (length (pre ++ [size_byte_of num (length v)])))
          by (rewrite length_app; simpl; lia).
        by rewrite py_slice_bytes_of. }
    replace (Z.of_nat (length pre) + (1 + Z.of_nat (length v)))
      with (Z.of_nat (length (pre ++ size_byte_of num (length v) :: v)))
      by (rewrite length_app; simpl; lia).
    specialize (IH fuel (pre ++ size_byte_of num (length v) :: v) post
                  (dict_set props num v) Hdata2 Hpost Hok).
    destruct (props_loop fuel _ _) as [props' tr]. simpl in *.
    apply IH. rewrite length_app. simpl. lia.
Qed.

Lemma dict_set_fold_fresh (recs : list (Z * list Z)) :
  forall props : list (Z * list Z),
    NoDup (dict_keys (props ++ recs)) ->
    fold_left (fun d rec => dict_set d rec.1 rec.2) recs props = props ++ recs.
Proof.
  induction recs as [|[num v] recs IH]; intros props Hnd; simpl.
  { by rewrite app_nil_r. }
  rewrite dict_set_new.
  - rewrite IH; rewrite <- app_assoc; done.
  - rewrite dict_keys_app in Hnd. apply NoDup_app in Hnd as (_ & Hnd & _).
    intros Hin. apply (Hnd num Hin). left.
Qed.

(** X19.  On a well-formed table of the version 1-3 layout the decoder
    is exact: when the image holds, at the property-table address of an
    object, the name length, the name, then properties with distinct
    numbers in 1..31 and values of 1 to 8 bytes, the terminator and at
    least ten more bytes, [_get_object_properties] returns these
    properties with these values, in the order of the table. *)
Theorem decoder_reads_table_back (o : Z) (obj : ZObject)
  (pre nm post : list Z) (recs : list (Z * list Z)) :
  data = Fixture.bytes_of (pre ++ table_bytes nm recs ++ post) ->
  get_object o = Ok (Some obj) ->
  Z.of_N (properties obj) = Z.of_nat (length pre) ->
  (length nm `mod` 2 = 0)%nat -> (length nm < 512)%nat ->
  (10 <= length post)%nat ->
  Forall (fun rec : Z * list Z =>
            1 <= rec.1 <= 31 /\ (1 <= length rec.2 <= 8)%nat
            /\ Forall (fun b => 0 <= b < 256) rec.2) recs ->
  NoDup (dict_keys recs) ->
  _get_object_properties o = recs.
Proof.
  intros Hdata Hobj Haddr Heven Hnm Hpost Hok Hnd.
  unfold table_bytes in Hdata.
  pose proof (Nat.div_mod_eq (length nm) 2) as Hdiv.
  assert ((length nm `div` 2 < 256)%nat) as Hk
    by (apply Nat.Div0.div_lt_upper_bound; lia).
  set (k := (length nm `div` 2)%nat) in *.
  assert (data = Fixture.bytes_of
                   (pre ++ Z.of_nat k
                      :: nm ++ concat (property_bytes <$> recs) ++ 0 :: post))
    as Hdata1.
  { rewrite Hdata. f_equal. f_equal. rewrite <- app_comm_cons. f_equal.
    by rewrite <- !app_assoc. }
  assert (data = Fixture.bytes_of
                   ((pre ++ Z.of_nat k :: nm)
                      ++ concat (property_bytes <$> recs) ++ 0 :: post))
    as Hdata2.
  { rewrite Hdata1. f_equal. by rewrite <- app_assoc. }
  assert (Z.of_nat (length pre) < len data) as Hlt.
  { rewrite Hdata1, len_bytes_of, length_app. cbn [length]. lia. }
  assert (py_index data (Z.of_nat (length pre)) = Ok (Z.of_nat k)) as Hidx.
  { rewrite Hdata1 at 1. apply py_index_bytes_of. lia. }
  rewrite (get_object_properties_fuel o obj (Z.of_nat k) (length data) Hobj);
    [|by rewrite Haddr|lia|done].
  rewrite Haddr.
  replace (Z.of_nat (length pre) + (1 + Z.of_nat k * 2))
    with (Z.of_nat (length (pre ++ Z.of_nat k :: nm)))
    by (rewrite length_app; cbn [length]; lia).
  rewrite (props_loop_reads recs (length data) _ post [] Hdata2 Hpost Hok).
  - by apply (dict_set_fold_fresh recs []).
  - unfold len. lia.
Qed.

(** ** The two scans of the room finder on a well-formed table *)

Lemma has_property_loop_reads (p : Z) (recs : list (Z * list Z)) :
  forall (fuel : nat) (pre post : list Z),
    data = Fixture.bytes_of
             (pre ++ concat (property_bytes <$> recs) ++ 0 :: post) ->
    version <= 3 ->
    Forall (fun rec : Z * list Z =>
              1 <= rec.1 <= 31 /\ (1 <= length rec.2 <= 8)%nat) recs ->
    len data - Z.of_nat (length pre) <= Z.of_nat fuel ->
    (has_property_loop fuel (Z.of_nat (length pre)) p).1
    = bool_decide (p ∈ dict_keys recs).
Proof.
  induction recs as [|[num v] recs IH];
    intros fuel pre post Hdata Hv Hok Hfuel.
  - simpl in Hdata.
    assert (len data = Z.of_nat (length pre + S (length post))) as Hlen.
    { rewrite Hdata, len_bytes_of, length_app. done. }
    destruct fuel as [|fuel]; [lia|]. simpl.
    destruct (Z.ltb_spec (Z.of_nat (length pre)) (len data)); [|lia].
    rewrite read_byte_py_index by lia.
    rewrite Hdata at 1. by rewrite py_index_bytes_of by lia.
  - apply Forall_cons in Hok as [(Hnum & Hlenv) Hok]. simpl in *.
    destruct (size_byte_of_decode num (length v)) as [Hland Hshr];
      [lia|lia|].
    assert (0 <= size_byte_of num (length v) < 256) as Hsb
      by (unfold size_byte_of; lia).
    assert (data = Fixture.bytes_of
                     ((pre ++ size_byte_of num (length v) :: v)
                        ++ concat (property_bytes <$> recs) ++ 0 :: post))
      as Hdata2 by (rewrite Hdata; by rewrite <- !app_assoc).
    assert (Z.of_nat (length pre + S (length v + S (length post)))
            <= len data) as Hlen.
    { rewrite Hdata, len_bytes_of, !length_app. simpl.
      rewrite !length_app. simpl. lia. }
    destruct fuel as [|fuel]; [lia|]. simpl.
    destruct (Z.ltb_spec (Z.of_nat (length pre)) (len data)); [|lia].
    rewrite read_byte_py_index by lia.
    rewrite Hdata at 1. rewrite py_index_bytes_of by lia.
    destruct (Z.eqb_spec (size_byte_of num (length v)) 0);
      [unfold size_byte_of in *; lia|].
    destruct (Z.leb_spec version 3); [|lia].
    rewrite Hland, Hshr.
    destruct (Z.eqb_spec num p) as [->|Hne].
    { simpl. symmetry. apply bool_decide_eq_true_2. left. }
    replace (Z.of_nat (length pre) + (1 + Z.of_nat (length v)))
      with (Z.of_nat (length (pre ++ size_byte_of num (length v) :: v)))
      by (rewrite length_app; simpl; lia).
    specialize (IH fuel (pre ++ size_byte_of num (length v) :: v) post
                  Hdata2 Hv Hok).
    destruct (has_property_loop fuel _ p) as [r tr]. simpl in *.
    rewrite IH by (rewrite length_app; simpl; lia).
    apply bool_decide_ext.
    change (dict_keys ((num, v) :: recs)) with (num :: dict_keys recs).
    rewrite elem_of_cons. split; [by right|].
    intros [Heq|Hin]; [by subst p|done].
Qed.

Lemma exit_properties_loop_reads (recs : list (Z * list Z)) :
  forall (fuel : nat) (pre post : list Z) (c : Z),
    data = Fixture.bytes_of
             (pre ++ concat (property_bytes <$> recs) ++ 0 :: post) ->
    version <= 3 -> c <= 3 ->
    Forall (fun rec : Z * list Z =>
              1 <= rec.1 <= 31 /\ (1 <= length rec.2 <= 8)%nat) recs ->
    len data - Z.of_nat (length pre) <= Z.of_nat fuel ->
    exit_properties_loop fuel (Z.of_nat (length pre)) c
    = (3 <? c + Z.of_nat (length recs)).
Proof.
  induction recs as [|[num v] recs IH];
    intros fuel pre post c Hdata Hv Hc Hok Hfuel.
  - simpl in Hdata.
    assert (len data = Z.of_nat (length pre + S (length post))) as Hlen.
    { rewrite Hdata, len_bytes_of, length_app. done. }
    destruct fuel as [|fuel]; [lia|]. simpl.
    destruct (Z.ltb_spec (Z.of_nat (length pre)) (len data)); [|lia].
    rewrite read_byte_py_index by lia.
    rewrite Hdata at 1. rewrite py_index_bytes_of by lia. simpl.
    symmetry. apply Z.ltb_ge. lia.
  - apply Forall_cons in Hok as [(Hnum & Hlenv) Hok]. simpl in *.
    destruct (size_byte_of_decode num (length v)) as [Hland Hshr];
      [lia|lia|].
    assert (0 <= size_byte_of num (length v) < 256) as Hsb
      by (unfold size_byte_of; lia).
    assert (data = Fixture.bytes_of
                     ((pre ++ size_byte_of num (length v) :: v)
                        ++ concat (property_bytes <$> recs) ++ 0 :: post))
      as Hdata2 by (rewrite Hdata; by rewrite <- !app_assoc).
    assert (Z.of_nat (length pre + S (length v + S (length post)))
            <= len data) as Hlen.
    { rewrite Hdata, len_bytes_of, !length_app. simpl.
      rewrite !length_app. simpl. lia. }
    destruct fuel as [|fuel]; [lia|]. simpl.
    destruct (Z.ltb_spec (Z.of_nat (length pre)) (len data)); [|lia].
    rewrite read_byte_py_index by lia.
    rewrite Hdata at 1. rewrite py_index_bytes_of by lia.
    destruct (Z.eqb_spec (size_byte_of num (length v)) 0);
      [unfold size_byte_of in *; lia|].
    destruct (Z.leb_spec version 3); [|lia].
    rewrite Hshr.
    destruct (Z.ltb_spec 3 (c + 1)) as [Hgt|Hle].
    { symmetry. apply Z.ltb_lt. lia. }
    replace (Z.of_nat (length pre) + (1 + Z.of_nat (length v)))
      with (Z.of_nat (length (pre ++ size_byte_of num (length v) :: v)))
      by (rewrite length_app; simpl; lia).
    rewrite (IH fuel (pre ++ size_byte_of num (length v) :: v) post (c + 1)
               Hdata2 Hv Hle Hok) by (rewrite length_app; simpl; lia).
    f_equal. lia.
Qed.

(** X20.  On a version 1-3 image that holds a well-formed table at the
    property-table address of an object (name length, name, properties
    with numbers in 1..31 and values of 1 to 8 bytes, terminator),
    [_has_property] answers exactly whether the number is one of the
    table's, and [_has_exit_properties] answers exactly whether the table
    has four properties or more. *)
Theorem room_scans_read_table (o : Z) (obj : ZObject)
  (pre nm post : list Z) (recs : list (Z * list Z)) :
  data = Fixture.bytes_of (pre ++ table_bytes nm recs ++ post) ->
  version <= 3 ->
  get_object o = Ok (Some obj) ->
  Z.of_N (properties obj) = Z.of_nat (length pre) ->
  (length nm `mod` 2 = 0)%nat -> (length nm < 512)%nat ->
  Forall (fun rec : Z * list Z =>
            1 <= rec.1 <= 31 /\ (1 <= length rec.2 <= 8)%nat) recs ->
  (forall p, _has_property o p = bool_decide (p ∈ dict_keys recs))
  /\ _has_exit_properties o = bool_decide (4 <= length recs)%nat.
Proof.
  intros Hdata Hv Hobj Haddr Heven Hnm Hok.
  unfold table_bytes in Hdata.
  pose proof (Nat.div_mod_eq (length nm) 2) as Hdiv.
  assert ((length nm `div` 2 < 256)%nat) as Hk
    by (apply Nat.Div0.div_lt_upper_bound; lia).
  set (k := (length nm `div` 2)%nat) in *.
  assert (data = Fixture.bytes_of
                   (pre ++ Z.of_nat k
                      :: nm ++ concat (property_bytes <$> recs) ++ 0 :: post))
    as Hdata1.
  { rewrite Hdata. f_equal. f_equal. rewrite <- app_comm_cons. f_equal.
    by rewrite <- !app_assoc. }
  assert (data = Fixture.bytes_of
                   ((pre ++ Z.of_nat k :: nm)
                      ++ concat (property_bytes <$> recs) ++ 0 :: post))
    as Hdata2.
  { rewrite Hdata1. f_equal. by rewrite <- app_assoc. }
  assert (Z.of_nat (length pre) < len data) as Hlt.
  { rewrite Hdata1, len_bytes_of, length_app. cbn [length]. lia. }
  assert (read_byte data (Z.of_nat (length pre)) = Ok (Z.of_nat k)) as Hidx.
  { rewrite read_byte_py_index by lia. rewrite Hdata1 at 1.
    apply py_index_bytes_of. lia. }
  assert (Z.of_nat (length pre) + (1 + Z.of_nat k * 2)
          = Z.of_nat (length (pre ++ Z.of_nat k :: nm))) as Hstart
    by (rewrite length_app; cbn [length]; lia).
  split.
  - intros p. unfold _has_property, _has_property_traced.
    rewrite Hobj, Haddr. simpl.
    destruct (Z.leb_spec (len data) (Z.of_nat (length pre))); [lia|].
    rewrite Hidx, Hstart.
    pose proof (has_property_loop_reads p recs (length data) _ post
                  Hdata2 Hv Hok) as Hloop.
    destruct (has_property_loop _ _ p) as [r tr]. simpl in *.
    apply Hloop. unfold len. lia.
  - unfold _has_exit_properties. rewrite Hobj, Haddr. simpl.
    destruct (Z.leb_spec (len data) (Z.of_nat (length pre))); [lia|].
    rewrite Hidx, Hstart.
    rewrite (exit_properties_loop_reads recs (length data) _ post 0
               Hdata2 Hv ltac:(lia) Hok) by (unfold len; lia).
    destruct (Z.ltb_spec 3 (0 + Z.of_nat (length recs))).
    + symmetry. apply bool_decide_eq_true_2. lia.
    + symmetry. apply bool_decide_eq_false_2. lia.
Qed.

(** ** Directional properties on a well-formed table *)

Lemma directional_loop_fuel (n : nat) :
  forall (m : nat) prop_addr exits,
    0 <= prop_addr ->
    len data - prop_addr <= Z.of_nat n ->
    len data - prop_addr <= Z.of_nat m ->
    directional_loop n prop_addr exits = directional_loop m prop_addr exits.
Proof.
  induction n as [|n IH]; intros [|m] prop_addr exits Hpos Hn Hm; simpl;
    try reflexivity.
  - destruct (Z.ltb_spec prop_addr (len data - 2)); [lia|done].
  - destruct (Z.ltb_spec prop_addr (len data - 2)); [lia|done].
  - destruct (Z.ltb_spec prop_addr (len data - 2)) as [Hlt|]; [|done].
    destruct (read_byte data prop_addr) as [size_byte|e] eqn:Hrd; [|done].
    destruct (size_byte =? 0); [done|].
    pose proof (legacy_size_range _ (read_byte_range _ _ Hrd)) as Hsz.
    destruct (_ && _).
    + destruct (read_word _) as [target|]; [|done].
      rewrite (IH m); [done|lia..].
    + rewrite (IH m); [done|lia..].
Qed.

Lemma read_word_bytes_of (pre : list Z) (hi lo : Z) (rest : list Z) :
  data = Fixture.bytes_of (pre ++ hi :: lo :: rest) ->
  0 <= hi < 256 -> 0 <= lo < 256 ->
  read_word (Z.of_nat (length pre)) = Ok (Z.lor (Z.shiftl hi 8) lo).
Proof.
  intros Hdata Hhi Hlo. unfold read_word.
  rewrite !read_byte_py_index by lia.
  rewrite Hdata at 1. rewrite py_index_bytes_of by done. simpl.
  replace (Z.of_nat (length pre) + 1) with (Z.of_nat (length (pre ++ [hi])))
    by (rewrite length_app; simpl; lia).
  assert (data = Fixture.bytes_of ((pre ++ [hi]) ++ lo :: rest)) as Hdata'
    by (rewrite Hdata; by rewrite <- app_assoc).
  rewrite Hdata' at 1. by rewrite py_index_bytes_of by done.
Qed.

(** One iteration of the loop, as a function of the record it reads. *)
Lemma directional_loop_reads (recs : list (Z * list Z)) :
  forall (fuel : nat) (pre post : list Z) (exits : list (Z * Z)),
    data = Fixture.bytes_of
             (pre ++ concat (property_bytes <$> recs) ++ 0 :: post) ->
    Forall (fun rec : Z * list Z =>
              1 <= rec.1 <= 31 /\ (1 <= length rec.2 <= 8)%nat
              /\ Forall (fun b => 0 <= b < 256) rec.2) recs ->
    len data - Z.of_nat (length pre) <= Z.of_nat fuel ->
    directional_loop fuel (Z.of_nat (length pre)) exits
    = fold_left (fun d rec =>
                   match direction_entry rec with
                   | Some (p, t) => dict_set d p t
                   | None => d
                   end) recs exits.
Proof.
  induction recs as [|[num v] recs IH];
    intros fuel pre post exits Hdata Hok Hfuel.
  - simpl in Hdata.
    assert (len data = Z.of_nat (length pre + S (length post))) as Hlen.
    { rewrite Hdata, len_bytes_of, length_app. done. }
    destruct fuel as [|fuel]; [lia|]. simpl.
    destruct (Z.ltb_spec (Z.of_nat (length pre)) (len data - 2)); [|done].
    rewrite read_byte_py_index by lia.
    rewrite Hdata at 1. by rewrite py_index_bytes_of by lia.
  - apply Forall_cons in Hok as [(Hnum & Hlenv & Hv) Hok]. simpl in *.
    destruct (size_byte_of_decode num (length v)) as [Hland Hshr];
      [lia|lia|].
    assert (0 <= size_byte_of num (length v) < 256) as Hsb
      by (unfold size_byte_of; lia).
    assert (data = Fixture.bytes_of
                     ((pre ++ [size_byte_of num (length v)])
                        ++ v ++ concat (property_bytes <$> recs) ++ 0 :: post))
      as Hdata1 by (rewrite Hdata; by rewrite <- !app_assoc).
    assert (data = Fixture.bytes_of
                     ((pre ++ size_byte_of num (length v) :: v)
                        ++ concat (property_bytes <$> recs) ++ 0 :: post))
      as Hdata2 by (rewrite Hdata; by rewrite <- !app_assoc).
    assert (Z.of_nat (length pre + S (length v + S (length post)))
            <= len data) as Hlen.
    { rewrite Hdata, len_bytes_of, !length_app. simpl.
      rewrite !length_app. simpl. lia. }
    destruct fuel as [|fuel]; [lia|]. simpl.
    destruct (Z.ltb_spec (Z.of_nat (length pre)) (len data - 2)); [|lia].
    rewrite read_byte_py_index by lia.
    rewrite Hdata at 1. rewrite py_index_bytes_of by lia.
    destruct (Z.eqb_spec (size_byte_of num (length v)) 0);
      [unfold size_byte_of in *; lia|].
    rewrite Hland, Hshr.
    assert (forall exits',
               directional_loop fuel
                 (Z.of_nat (length pre) + (1 + Z.of_nat (length v))) exits'
               = fold_left (fun d rec =>
                              match direction_entry rec with
                              | Some (p, t) => dict_set d p t
                              | None => d
                              end) recs exits') as IH'.
    { intros exits'.
      replace (Z.of_nat (length pre) + (1 + Z.of_nat (length v)))
        with (Z.of_nat (length (pre ++ size_byte_of num (length v) :: v)))
        by (rewrite length_app; simpl; lia).
      apply (IH fuel _ post exits' Hdata2 Hok).
      rewrite length_app. simpl. lia. }
    unfold direction_entry at 2. simpl.
    destruct v as [|hi [|lo [|b v]]]; simpl in Hlenv; try lia.
    + (* one byte *)
      destruct ((1 <=? num) && (num <=? 12)); simpl; apply IH'.
    + (* one word *)
      apply Forall_cons in Hv as [Hhi Hv]. apply Forall_cons in Hv as [Hlo _].
      change (length [hi; lo]) with 2%nat in *.
      change (Z.of_nat 2) with 2 in *.
      rewrite Z.eqb_refl, andb_true_r.
      assert (read_word (Z.of_nat (length pre) + 1)
              = Ok (Z.lor (Z.shiftl hi 8) lo)) as ->.
      { replace (Z.of_nat (length pre) + 1)
          with (Z.of_nat (length (pre ++ [size_byte_of num 2])))
          by (rewrite length_app; simpl; lia).
        apply (read_word_bytes_of _ hi lo _ Hdata1 Hhi Hlo). }
      rewrite !IH'.
      destruct ((1 <=? num) && (num <=? 12)); simpl; [|done].
      by destruct ((0 <? Z.lor (Z.shiftl hi 8) lo)
                   && (Z.lor (Z.shiftl hi 8) lo <? 300)).
    + (* three bytes or more *)
      rewrite (proj2 (Z.eqb_neq _ 2)) by (simpl length; lia).
      rewrite andb_false_r. exact (IH' exits).
Qed.

Lemma direction_fold_fresh (recs : list (Z * list Z)) :
  forall exits : list (Z * Z),
    NoDup (dict_keys exits ++ dict_keys recs) ->
    fold_left (fun d rec =>
                 match direction_entry rec with
                 | Some (p, t) => dict_set d p t
                 | None => d
                 end) recs exits
    = exits ++ omap direction_entry recs.
Proof.
  induction recs as [|[num v] recs IH]; intros exits Hnd; simpl.
  { by rewrite app_nil_r. }
  assert (forall p t, direction_entry (num, v) = Some (p, t) -> p = num)
    as Hkey.
  { intros p t. unfold direction_entry. simpl.
    destruct v as [|hi [|lo [|b v]]]; try done.
    destruct (_ && _); [|done]. by intros [= <- _]. }
  destruct (direction_entry (num, v)) as [[p t]|] eqn:He.
  - specialize (Hkey p t eq_refl). subst p.
    assert (num ∉ dict_keys exits) as Hnew.
    { apply NoDup_app in Hnd as (_ & Hnd & _). intros Hin.
      apply (Hnd num Hin). left. }
    rewrite dict_set_new by done. rewrite IH.
    + by rewrite <- app_assoc.
    + rewrite dict_keys_app. simpl. rewrite <- app_assoc. exact Hnd.
  - apply IH. apply NoDup_app in Hnd as (H1 & H2 & H3).
    apply NoDup_app. split; [done|]. split.
    + intros x Hx Hx'. apply (H2 x Hx). by right.
    + by apply NoDup_cons in H3 as [_ H3].
Qed.

(** X21.  On an image that holds a well-formed table at the
    property-table address of an object, with distinct property numbers,
    [_get_directional_properties] returns, in the order of the table, one
    entry for every property numbered 1 to 12 whose value is a single
    word between 1 and 299, bound to that word, and nothing else. *)
Theorem directions_read_table (o : Z) (obj : ZObject)
  (pre nm post : list Z) (recs : list (Z * list Z)) :
  data = Fixture.bytes_of (pre ++ table_bytes nm recs ++ post) ->
  get_object o = Ok (Some obj) ->
  Z.of_N (properties obj) = Z.of_nat (length pre) ->
  (length nm `mod` 2 = 0)%nat -> (length nm < 512)%nat ->
  Forall (fun rec : Z * list Z =>
            1 <= rec.1 <= 31 /\ (1 <= length rec.2 <= 8)%nat
            /\ Forall (fun b => 0 <= b < 256) rec.2) recs ->
  NoDup (dict_keys recs) ->
  _get_directional_properties o = omap direction_entry recs.
Proof.
  intros Hdata Hobj Haddr Heven Hnm Hok Hnd.
  unfold table_bytes in Hdata.
  pose proof (Nat.div_mod_eq (length nm) 2) as Hdiv.
  assert ((length nm `div` 2 < 256)%nat) as Hk
    by (apply Nat.Div0.div_lt_upper_bound; lia).
  set (k := (length nm `div` 2)%nat) in *.
  assert (data = Fixture.bytes_of
                   (pre ++ Z.of_nat k
                      :: nm ++ concat (property_bytes <$> recs) ++ 0 :: post))
    as Hdata1.
  { rewrite Hdata. f_equal. f_equal. rewrite <- app_comm_cons. f_equal.
    by rewrite <- !app_assoc. }
  assert (data = Fixture.bytes_of
                   ((pre ++ Z.of_nat k :: nm)
                      ++ concat (property_bytes <$> recs) ++ 0 :: post))
    as Hdata2.
  { rewrite Hdata1. f_equal. by rewrite <- app_assoc. }
  assert (Z.of_nat (length pre) < len data) as Hlt.
  { rewrite Hdata1, len_bytes_of, length_app. cbn [length]. lia. }
  assert (read_byte data (Z.of_nat (length pre)) = Ok (Z.of_nat k)) as Hidx.
  { rewrite read_byte_py_index by lia. rewrite Hdata1 at 1.
    apply py_index_bytes_of. lia. }
  unfold _get_directional_properties. rewrite Hobj, Haddr. simpl.
  destruct (Z.leb_spec (len data) (Z.of_nat (length pre))); [lia|].
  rewrite Hidx.
  replace (Z.of_nat (length pre) + (1 + Z.of_nat k * 2))
    with (Z.of_nat (length (pre ++ Z.of_nat k :: nm)))
    by (rewrite length_app; cbn [length]; lia).
  rewrite (directional_loop_reads recs (length data) _ post [] Hdata2 Hok)
    by (unfold len; lia).
  by apply (direction_fold_fresh recs []).
Qed.

End Extractor.

(* ================================================================== *)
(** * Part III. The properties on the synthetic fixtures *)
(* ================================================================== *)

(** Closes a decidable closed goal by evaluation. *)
Ltac by_eval := apply (bool_decide_unpack _); vm_compute; exact I.

(** The two scenarios of the two-room image: with the hint byte the exit
    of the Kitchen is labelled by the dictionary word, without it by the
    property number. *)
Example scenario_down :
  extract_exits Fixture.image 0 Fixture.get_object Fixture.strip Fixture.words
    Fixture.lower elements Fixture.rooms
  = Ok (Fixture.rooms_after, 1).
Proof. vm_compute. reflexivity. Qed.

Example scenario_p15 :
  (fun r => (r.1, exits r.2))
    <$> (match extract_exits Fixture.image_plain 0 Fixture.get_object
                 Fixture.strip Fixture.words Fixture.lower elements
                 Fixture.rooms with
         | Ok (rooms', _) => rooms'
         | Raise _ => []
         end)
  = [(142, [("p15"%string, 143)]); (143, [])].
Proof. vm_compute. reflexivity. Qed.

(** C7 on the fixture: object 7 has its property table at address 1000 of
    a 40-byte image. *)
Lemma property_decoding_witness :
  Fixture.get_object 7 = Ok (Some {| parent := 0; properties := 1000 |})
  /\ len Fixture.image <= Z.of_N 1000
  /\ _get_object_properties_traced Fixture.image Fixture.get_object 7 = ([], []).
Proof.
  split; [reflexivity|]. split; [by_eval|].
  apply (proj1 (property_decoding_fails_soft_in_bounds
                  Fixture.image 3 Fixture.get_object 7 5)
           {| parent := 0; properties := 1000 |}); [reflexivity|by_eval].
Defined.

(** C1 on the fixture: property 15 of the Kitchen holds the Cellar, and
    is an exit property; property 5 is none. *)
Lemma exit_properties_witness :
  15 ∈ _find_exit_properties Fixture.image Fixture.get_object
         (list_to_set (dict_keys Fixture.rooms)) Fixture.rooms
  /\ 5 < 13
  /\ 5 ∉ _find_exit_properties Fixture.image Fixture.get_object
           (list_to_set [142; 143]) Fixture.rooms.
Proof.
  split; [|split; [lia|]].
  - apply (proj1 (exit_properties_exactly Fixture.image Fixture.get_object
                    Fixture.rooms 15)).
    split; [lia|]. exists 142, [143], 143.
    split; [by_eval|]. split; [reflexivity|]. split; [by_eval|].
    split; [by_eval|lia].
  - apply (proj2 (exit_properties_exactly Fixture.image Fixture.get_object
                    Fixture.rooms 5)). lia.
Defined.

(** C3 on the fixture: the Kitchen receives the one exit [down]. *)
Lemma one_exit_per_label_witness :
  extract_exits Fixture.image 0 Fixture.get_object Fixture.strip Fixture.words
    Fixture.lower elements Fixture.rooms
  = Ok (Fixture.rooms_after, 1)
  /\ Forall2 (fun r r' =>
                (dict_wf (exits r.2) -> dict_wf (exits r'.2))
                /\ forall w d, dict_get (exits r.2) w = Some d ->
                               dict_get (exits r'.2) w = Some d)
       Fixture.rooms Fixture.rooms_after.
Proof.
  split; [vm_compute; reflexivity|].
  destruct (one_exit_per_label Fixture.image 0 Fixture.get_object Fixture.strip
              Fixture.words Fixture.lower elements Fixture.rooms
              Fixture.rooms_after 1) as (prop_to_word & _ & _ & H);
    [vm_compute; reflexivity|exact H].
Defined.



(** C8 on the fixture: one pair is added and 1 is returned. *)
Lemma extract_exits_count_witness :
  extract_exits Fixture.image 0 Fixture.get_object Fixture.strip Fixture.words
    Fixture.lower elements Fixture.rooms
  = Ok (Fixture.rooms_after, 1)
  /\ 1 = exit_count Fixture.rooms_after - exit_count Fixture.rooms
  /\ extract_exits Fixture.image 0 Fixture.get_object Fixture.strip
       Fixture.words Fixture.lower elements [] = Ok ([], 0).
Proof.
  split; [vm_compute; reflexivity|]. split.
  - apply (proj1 (extract_exits_returns_count Fixture.image 0
                    Fixture.get_object Fixture.strip Fixture.words
                    Fixture.lower elements Fixture.rooms)).
    vm_compute; reflexivity.
  - apply (proj1 (proj2 (extract_exits_returns_count Fixture.image 0
                           Fixture.get_object Fixture.strip Fixture.words
                           Fixture.lower elements []))).
    left. reflexivity.
Defined.

(** C6 on the fixture: the name of object 9 has 2 valid characters out of
    5; object 9 is no room. *)
Lemma garbled_names_witness :
  total_count Fixture.garbled < name_bound
  /\ 10 * printable_count Fixture.isprintable Fixture.isalnum Fixture.garbled
     = 4 * total_count Fixture.garbled
  /\ Fixture.get_object_name 9 = Ok Fixture.garbled
  /\ _is_valid_name Fixture.isprintable Fixture.isalnum Fixture.garbled = false
  /\ 9 ∉ dict_keys (_find_rooms Fixture.image 3 Fixture.get_object
                      Fixture.isprintable Fixture.isalnum Fixture.strip
                      Fixture.get_object_name []).
Proof.
  assert (total_count Fixture.garbled < name_bound) as Hlen by by_eval.
  assert (10 * printable_count Fixture.isprintable Fixture.isalnum
                 Fixture.garbled
          = 4 * total_count Fixture.garbled) as H40 by reflexivity.
  destruct (proj2 (garbled_names_rejected Fixture.image 3 Fixture.get_object
                     Fixture.isprintable Fixture.isalnum Fixture.strip
                     Fixture.get_object_name Fixture.garbled Hlen) H40)
    as [Hbad Hout].
  split; [exact Hlen|]. split; [exact H40|]. split; [reflexivity|].
  split; [exact Hbad|].
  intros Hin. apply (proj1 (Hout 9 eq_refl) []) in Hin.
  by apply elem_of_nil in Hin.
Defined.

(** No object of the fixture has more than 3 properties. *)
Lemma fixture_no_candidate (o : Z) :
  1 <= o < Z.min (max_obj 3) 256 ->
  ~ room_candidate Fixture.image 3 Fixture.get_object Fixture.isprintable
      Fixture.isalnum Fixture.strip Fixture.get_object_name o.
Proof.
  intros Ho (_ & _ & Hx).
  assert (forallb
            (fun o => negb (_has_exit_properties Fixture.image 3
                              Fixture.get_object o))
            (seqZ 1 254) = true) as Hall by (vm_compute; reflexivity).
  rewrite forallb_forall in Hall. specialize (Hall o).
  rewrite Hx in Hall. discriminate Hall.
  apply list_elem_of_In, elem_of_seqZ. change (max_obj 3) with 255 in Ho. lia.
Defined.

Lemma fixture_valid_named_142 :
  valid_named Fixture.isprintable Fixture.isalnum Fixture.strip
    Fixture.get_object_name 142.
Proof.
  exists "Kitchen"%string. split; [reflexivity|].
  split; vm_compute; reflexivity.
Defined.

(** C10 on the fixture: the container is 27 and object 142 is a room. *)
Lemma default_container_witness :
  rooms_container Fixture.image 3 Fixture.get_object Fixture.isprintable
    Fixture.isalnum Fixture.strip Fixture.get_object_name = 27
  /\ 142 ∈ dict_keys (_find_rooms Fixture.image 3 Fixture.get_object
                        Fixture.isprintable Fixture.isalnum Fixture.strip
                        Fixture.get_object_name []).
Proof.
  destruct (default_container_27 Fixture.image 3 Fixture.get_object
              Fixture.isprintable Fixture.isalnum Fixture.strip
              Fixture.get_object_name fixture_no_candidate) as [Hc Hrooms].
  split; [exact Hc|].
  apply (Hrooms [] 142 {| parent := 27; properties := 16 |});
    [change (max_obj 3) with 255; lia|reflexivity|reflexivity|].
  exact fixture_valid_named_142.
Defined.

(** Counterexample to C10 as stated, without the range of the scan: in a
    version-5 image whose only object is number 300, with a valid name and
    parent 27, no object is a room candidate, the container is 27, and
    object 300 is no room, since no pass visits it. *)
Lemma default_container_counterexample :
  (forall o, ~ room_candidate Fixture.image 5 Fixture.get_object_far
                 Fixture.isprintable Fixture.isalnum Fixture.strip
                 Fixture.get_object_name_far o)
  /\ rooms_container Fixture.image 5 Fixture.get_object_far
       Fixture.isprintable Fixture.isalnum Fixture.strip
       Fixture.get_object_name_far = 27
  /\ Fixture.get_object_far 300 = Ok (Some {| parent := 27; properties := 16 |})
  /\ valid_named Fixture.isprintable Fixture.isalnum Fixture.strip
       Fixture.get_object_name_far 300
  /\ 300 ∉ dict_keys (_find_rooms Fixture.image 5 Fixture.get_object_far
                        Fixture.isprintable Fixture.isalnum Fixture.strip
                        Fixture.get_object_name_far []).
Proof.
  split.
  { intros o (_ & _ & Hx).
    unfold _has_exit_properties, Fixture.get_object_far in Hx.
    destruct (o =? 300); [vm_compute in Hx|]; discriminate Hx. }
  split; [vm_compute; reflexivity|]. split; [reflexivity|]. split.
  { exists "Attic"%string. split; [reflexivity|].
    split; vm_compute; reflexivity. }
  replace (_find_rooms Fixture.image 5 Fixture.get_object_far
             Fixture.isprintable Fixture.isalnum Fixture.strip
             Fixture.get_object_name_far []) with (@nil (Z * Room))
    by (vm_compute; reflexivity).
  apply not_elem_of_nil.
Qed.



(** ** The synthetic story *)

(** The extraction steps of [main] on the story: the routine of the
    Kitchen names the Cellar, the lamp lies in the Kitchen, and the static
    extraction adds four exits. *)
Example story_extract_all :
  extract_all Story.image 3 Story.get_object Fixture.isprintable
    Fixture.isalnum Fixture.strip Story.get_object_name (Some Story.decode)
    [] []
  = (Story.rooms_all, [Story.lamp]).
Proof. vm_compute. reflexivity. Qed.

Example story_main :
  main_extraction Story.image 3 0 Story.get_object Fixture.isprintable
    Fixture.isalnum Fixture.strip Story.get_object_name Fixture.words
    Fixture.lower elements (Some Story.decode)
  = Ok (Story.rooms_final, [Story.lamp], 4).
Proof. vm_compute. reflexivity. Qed.

(** X3 on the story: the decoder lists property 14 for the Kitchen, and
    the membership test finds it. *)
Lemma decoded_property_is_found_witness :
  3 <= 3
  /\ dict_get (_get_object_properties Story.image Story.get_object 142) 14
     = Some [142; 143]
  /\ _has_property Story.image 3 Story.get_object 142 14 = true.
Proof.
  split; [lia|]. split; [reflexivity|].
  apply (decoded_property_is_found Story.image 3 Story.get_object 142 14
           [142; 143]); [lia|reflexivity].
Defined.

(** X4 on the story: the Kitchen has four decoded properties. *)
Lemma four_decoded_properties_witness :
  (4 <= length (_get_object_properties Story.image Story.get_object 142))%nat
  /\ _has_exit_properties Story.image 3 Story.get_object 142 = true.
Proof.
  assert (4 <= length (_get_object_properties Story.image Story.get_object
                         142))%nat as Hlen by (vm_compute; lia).
  split; [exact Hlen|].
  apply (four_decoded_properties_suffice Story.image 3 Story.get_object 142);
    [lia|exact Hlen].
Defined.

(** X5 on the story: the exits added to the two rooms lead to the other
    room. *)
Lemma new_exits_witness :
  extract_exits Story.image 0 Story.get_object Fixture.strip Fixture.words
    Fixture.lower elements Story.rooms
  = Ok (Story.rooms_static, 4)
  /\ Forall2 (fun r r' =>
                r'.1 = r.1
                /\ forall w d,
                     dict_get (exits r'.2) w = Some d ->
                     dict_get (exits r.2) w = Some d
                     \/ (dict_get (exits r.2) w = None
                         /\ d ∈ dict_keys Story.rooms /\ d <> r.1
                         /\ exists p prop_data,
                              dict_get (_get_object_properties Story.image
                                          Story.get_object r.1) p
                              = Some prop_data
                              /\ d ∈ prop_data))
       Story.rooms Story.rooms_static.
Proof.
  split; [vm_compute; reflexivity|].
  apply (new_exits_lead_to_other_rooms Story.image 0 Story.get_object
           Fixture.strip Fixture.words Fixture.lower elements Story.rooms
           Story.rooms_static 4).
  vm_compute. reflexivity.
Defined.

(** X6 on the story: the labels of the exit properties 14, 15 and 20 are
    bound on the Kitchen after the run. *)
Lemma offered_labels_witness :
  _get_property_to_word_mapping Story.image 0 Fixture.strip Fixture.words
    Fixture.lower = Ok [(15, "down"%string)]
  /\ Forall2 (fun r r' =>
                forall p prop_data b,
                  p ∈ _find_exit_properties Story.image Story.get_object
                        (list_to_set (dict_keys Story.rooms)) Story.rooms ->
                  p ∈ elements
                        (_find_exit_properties Story.image Story.get_object
                           (list_to_set (dict_keys Story.rooms)) Story.rooms) ->
                  dict_get (_get_object_properties Story.image
                              Story.get_object r.1) p = Some prop_data ->
                  b ∈ prop_data -> b ∈ dict_keys Story.rooms -> b <> r.1 ->
                  exit_label
                    (filter
                       (fun pw : Z * string =>
                          pw.1 ∈ _find_exit_properties Story.image
                                   Story.get_object
                                   (list_to_set (dict_keys Story.rooms))
                                   Story.rooms)
                       [(15, "down"%string)]) p
                    ∈ dict_keys (exits r'.2))
       Story.rooms Story.rooms_static.
Proof.
  split; [vm_compute; reflexivity|].
  apply (offered_labels_are_bound Story.image 0 Story.get_object Fixture.strip
           Fixture.words Fixture.lower elements Story.rooms
           Story.rooms_static 4 [(15, "down"%string)]);
    vm_compute; reflexivity.
Defined.

(** X7 on the story: a second run changes nothing and returns 0. *)
Lemma extract_exits_idempotent_witness :
  extract_exits Story.image 0 Story.get_object Fixture.strip Fixture.words
    Fixture.lower elements Story.rooms
  = Ok (Story.rooms_static, 4)
  /\ extract_exits Story.image 0 Story.get_object Fixture.strip Fixture.words
       Fixture.lower elements Story.rooms_static
     = Ok (Story.rooms_static, 0).
Proof.
  split; [vm_compute; reflexivity|].
  apply (extract_exits_idempotent Story.image 0 Story.get_object Fixture.strip
           Fixture.words Fixture.lower elements Story.rooms
           Story.rooms_static 4).
  vm_compute. reflexivity.
Defined.

(** X8 on the story, read with the dictionary of four-byte entries: the
    exits are named after the property numbers. *)
Lemma synthetic_labels_witness :
  _get_property_to_word_mapping Story.image 36 Fixture.strip Fixture.words
    Fixture.lower = Ok []
  /\ extract_exits Story.image 36 Story.get_object Fixture.strip Fixture.words
       Fixture.lower elements Story.rooms
     = Ok (Story.rooms_plain, 4)
  /\ Forall2 (fun r r' =>
                exits r.2 = [] ->
                forall p,
                  p ∈ _find_exit_properties Story.image Story.get_object
                        (list_to_set (dict_keys Story.rooms)) Story.rooms ->
                  p ∈ elements
                        (_find_exit_properties Story.image Story.get_object
                           (list_to_set (dict_keys Story.rooms)) Story.rooms) ->
                  dict_get (exits r'.2) ("p" +:+ pretty p)
                  = match dict_get (_get_object_properties Story.image
                                      Story.get_object r.1) p with
                    | None => None
                    | Some prop_data =>
                        head (_extract_room_refs_from_property
                                (list_to_set (dict_keys Story.rooms))
                                prop_data r.1)
                    end)
       Story.rooms Story.rooms_plain.
Proof.
  split; [vm_compute; reflexivity|]. split; [vm_compute; reflexivity|].
  apply (synthetic_labels_without_hints Story.image 36 Story.get_object
           Fixture.strip Fixture.words Fixture.lower elements Story.rooms
           Story.rooms_plain 4); vm_compute; reflexivity.
Defined.

(** X11 on the story: the Kitchen is filed under 142 with the parser's
    name. *)
Lemma fresh_rooms_witness :
  dict_get (_find_rooms Story.image 3 Story.get_object Fixture.isprintable
              Fixture.isalnum Fixture.strip Story.get_object_name []) 142
  = Some (new_room 142 "Kitchen")
  /\ obj_num (new_room 142 "Kitchen") = 142
  /\ Story.get_object_name 142 = Ok (name (new_room 142 "Kitchen")).
Proof.
  assert (dict_get (_find_rooms Story.image 3 Story.get_object
                      Fixture.isprintable Fixture.isalnum Fixture.strip
                      Story.get_object_name []) 142
          = Some (new_room 142 "Kitchen")) as Hget
    by (vm_compute; reflexivity).
  destruct (fresh_rooms_origin Story.image 3 Story.get_object
              Fixture.isprintable Fixture.isalnum Fixture.strip
              Story.get_object_name 142 (new_room 142 "Kitchen") Hget)
    as (Hnum & _ & _ & Hname & _).
  split; [exact Hget|]. split; [exact Hnum|exact Hname].
Defined.

(** X16 on the story: the routine of the Kitchen names the Cellar.  The
    Kitchen without exits gets the single exit to_143; the Kitchen with
    the exits of the static extraction keeps its exit down and gets the
    exit to_143 as well. *)
Lemma routine_exits_witness :
  take 8 (_find_room_references_in_routine Story.image Story.get_object
            Story.decode Story.rooms 142) = [143]
  /\ (exists r',
        _extract_exits Story.image Story.get_object (Some Story.decode)
          Story.rooms !! 0%nat = Some r'
        /\ r'.1 = 142
        /\ dict_get (exits r'.2) "to_143"%string = Some 143
        /\ exits r'.2 = [("to_143"%string, 143)])
  /\ (exists r',
        _extract_exits Story.image Story.get_object (Some Story.decode)
          Story.rooms_static !! 0%nat = Some r'
        /\ dict_get (exits r'.2) "to_143"%string = Some 143
        /\ dict_get (exits r'.2) "down"%string = Some 143
        /\ dict_get (exits r'.2) "up"%string = None).
Proof.
  assert (forall rooms,
            take 8 (_find_room_references_in_routine Story.image
                      Story.get_object Story.decode rooms 142) = [143] ->
            forall d,
              d ∈ take 8 (_find_room_references_in_routine Story.image
                            Story.get_object Story.decode rooms 142) ->
              d = 143) as Honly.
  { intros rooms -> d Hd. by apply list_elem_of_singleton in Hd. }
  assert (take 8 (_find_room_references_in_routine Story.image
                    Story.get_object Story.decode Story.rooms 142) = [143])
    as Hrefs by (vm_compute; reflexivity).
  assert (take 8 (_find_room_references_in_routine Story.image
                    Story.get_object Story.decode Story.rooms_static 142)
          = [143]) as Hrefs' by (vm_compute; reflexivity).
  split; [exact Hrefs|]. split.
  - pose proof (proj1 (routine_exits_lead_to_other_rooms Story.image
                         Story.get_object (Some Story.decode) Story.rooms)
                  Story.decode eq_refl) as H.
    destruct (Forall2_lookup_l _ _ _ 0%nat _ H eq_refl)
      as (r' & Hr' & H1 & _ & _ & _ & Hbound & _ & _ & Hfresh).
    exists r'. split; [exact Hr'|]. split; [exact H1|]. split.
    + destruct (Hbound 143) as (_ & _ & Hget); [by_eval|exact Hget].
    + etrans; [exact (Hfresh eq_refl)|]. vm_compute; reflexivity.
  - pose proof (proj1 (routine_exits_lead_to_other_rooms Story.image
                         Story.get_object (Some Story.decode)
                         Story.rooms_static)
                  Story.decode eq_refl) as H.
    destruct (Forall2_lookup_l _ _ _ 0%nat _ H eq_refl)
      as (r' & Hr' & _ & _ & _ & _ & Hbound & Hother & _ & _).
    exists r'. split; [exact Hr'|]. split; [|split].
    + destruct (Hbound 143) as (_ & _ & Hget); [by_eval|exact Hget].
    + etrans; [apply Hother|reflexivity].
      intros d Hd. apply (Honly _ Hrefs') in Hd as ->.
      intros E; vm_compute in E; discriminate E.
    + etrans; [apply Hother|reflexivity].
      intros d Hd. apply (Honly _ Hrefs') in Hd as ->.
      intros E; vm_compute in E; discriminate E.
Defined.

(** X18 on the story: the map handed to the layout. *)
Lemma main_extraction_witness :
  main_extraction Story.image 3 0 Story.get_object Fixture.isprintable
    Fixture.isalnum Fixture.strip Story.get_object_name Fixture.words
    Fixture.lower elements (Some Story.decode)
  = Ok (Story.rooms_final, [Story.lamp], 4)
  /\ 4 = exit_count Story.rooms_final
         - exit_count (extract_all Story.image 3 Story.get_object
                         Fixture.isprintable Fixture.isalnum Fixture.strip
                         Story.get_object_name (Some Story.decode) [] []).1
  /\ forall k r,
       dict_get Story.rooms_final k = Some r ->
       forall w d,
         dict_get (exits r) w = Some d ->
         d ∈ dict_keys Story.rooms_final /\ d <> k.
Proof.
  assert (main_extraction Story.image 3 0 Story.get_object Fixture.isprintable
            Fixture.isalnum Fixture.strip Story.get_object_name Fixture.words
            Fixture.lower elements (Some Story.decode)
          = Ok (Story.rooms_final, [Story.lamp], 4)) as Hrun
    by (vm_compute; reflexivity).
  destruct (main_extraction_consistent Story.image 3 0 Story.get_object
              Fixture.isprintable Fixture.isalnum Fixture.strip
              Story.get_object_name Fixture.words Fixture.lower elements
              (Some Story.decode) Story.rooms_final [Story.lamp] 4 Hrun)
    as (_ & _ & Htotal & Hrooms).
  split; [exact Hrun|]. split; [exact Htotal|].
  intros k r Hr. by destruct (Hrooms k r Hr) as (_ & _ & _ & Hexits).
Defined.

(** X19 on the story: the table of the Kitchen is read back. *)
Lemma decoder_reads_table_back_witness :
  Story.image
  = Fixture.bytes_of
      (Story.head_bytes ++ table_bytes [] Story.kitchen_props
         ++ Story.tail_bytes)
  /\ _get_object_properties Story.image Story.get_object 142
     = Story.kitchen_props.
Proof.
  split; [reflexivity|].
  apply (decoder_reads_table_back Story.image Story.get_object 142
           Story.kitchen Story.head_bytes [] Story.tail_bytes
           Story.kitchen_props).
  - reflexivity.
  - reflexivity.
  - reflexivity.
  - reflexivity.
  - simpl. lia.
  - simpl. lia.
  - by_eval.
  - by_eval.
Defined.

(** X20 on the story: the Kitchen has property 14, not property 5, and
    four properties. *)
Lemma room_scans_read_table_witness :
  _has_property Story.image 3 Story.get_object 142 14 = true
  /\ _has_property Story.image 3 Story.get_object 142 5 = false
  /\ _has_exit_properties Story.image 3 Story.get_object 142 = true.
Proof.
  destruct (room_scans_read_table Story.image 3 Story.get_object 142
              Story.kitchen Story.head_bytes [] Story.tail_bytes
              Story.kitchen_props) as [Hhas Hexit].
  - reflexivity.
  - lia.
  - reflexivity.
  - reflexivity.
  - reflexivity.
  - simpl. lia.
  - by_eval.
  - rewrite !Hhas, Hexit. split; [|split]; vm_compute; reflexivity.
Defined.

(** X21 on the story: the routine word of the Kitchen is its one
    directional entry. *)
Lemma directions_read_table_witness :
  _get_directional_properties Story.image Story.get_object 142 = [(1, 48)].
Proof.
  apply (directions_read_table Story.image Story.get_object 142
           Story.kitchen Story.head_bytes [] Story.tail_bytes
           Story.kitchen_props).
  - reflexivity.
  - reflexivity.
  - reflexivity.
  - reflexivity.
  - simpl. lia.
  - by_eval.
  - by_eval.
Defined.
